(** * granola-coach: the Granola client and the analysis runner

    A shallow embedding of [granola_client.py] (class [GranolaClient]), of
    the ledger, feedback and preparation parts of [analyze_meetings.py]
    (class [MeetingAnalysisRunner]) and of [ai_analyzer.py]
    (class [MeetingAnalyzer]), followed by the properties the specification
    states about them and by further properties of the code.

    Python values that come out of [json.load] are modelled by the type
    [json]; a Python [dict] is an association list in insertion order; every
    method of a class is a function in a state-and-exception monad over the
    object's fields and the outside world (network, files, standard output).
    Library functions whose text is not part of the repository
    ([requests.post], [json.loads], [json.dumps], [datetime.fromisoformat],
    [os.path.expanduser], [datetime.strptime], [datetime.strftime], the chat
    service) are fields of a [platform] record or section variables. *)

From Stdlib Require Import ZArith List String Ascii Bool Arith Lia Sorting.Sorted RelationClasses.
From Stdlib Require OrdersEx DecimalString.
Import ListNotations.

Local Open Scope string_scope.
Local Open Scope list_scope.

(* ================================================================== *)
(** ** Python values, exceptions and results *)
(* ================================================================== *)

Module Py.

#[local] Set Warnings "-register-all".

(** What [json.load] returns.  Numbers are integers: no function below looks
    inside a number except for its truth value.  [JNull] is Python's [None]. *)
Inductive json : Type :=
| JNull
| JBool (b : bool)
| JNum (n : Z)
| JStr (s : string)
| JArr (items : list json)
| JObj (fields : list (string * json)).

Definition None_ : json := JNull.

(** [bool(v)]: the truth value Python gives to [v] in [if v] and [not v]. *)
Definition truthy (v : json) : bool :=
  match v with
  | JNull => false
  | JBool b => b
  | JNum n => negb (Z.eqb n 0)
  | JStr s => negb (String.eqb s "")
  | JArr items => match items with [] => false | _ => true end
  | JObj fields => match fields with [] => false | _ => true end
  end.

(** [isinstance(v, list)]. *)
Definition is_list (v : json) : bool :=
  match v with JArr _ => true | _ => false end.

(** The exceptions of [requests.exceptions.RequestException]'s family that the
    client can meet: a failed connection, [raise_for_status] on an error
    status, and [response.json()] on a body that is not JSON (the
    [requests.exceptions.JSONDecodeError] of requests 2.27 and later). *)
Inductive request_exception : Type :=
| ConnectionError
| HTTPError (status : Z)
| InvalidJSONError.

(** The messages of the plain [Exception]s the client raises itself. *)
Inductive message : Type :=
| CredentialsNotFound (path : string)
| FailedToParseCredentials
| NoRefreshTokenAvailable
| FailedToRefreshAccessToken (cause : request_exception)
| ApiRequestFailed (cause : request_exception).

Inductive exn : Type :=
| FileNotFoundError
| PermissionError
| JSONDecodeError
| UnicodeDecodeError
| KeyError (key : string)
| TypeError
| AttributeError
| ValueError
| RecursionError
| RequestException (e : request_exception)
| Exception (msg : message).

Inductive result (A : Type) : Type :=
| Ok (a : A)
| Raise (e : exn).
Arguments Ok {A} a.
Arguments Raise {A} e.

Definition is_ok {A} (r : result A) : bool :=
  match r with Ok _ => true | Raise _ => false end.

(** *** Dictionaries *)

Definition dict := list (string * json).

Fixpoint dict_find (k : string) (d : dict) : option json :=
  match d with
  | [] => None
  | (k', v) :: d' => if String.eqb k k' then Some v else dict_find k d'
  end.

Definition dict_mem (k : string) (d : dict) : bool :=
  match dict_find k d with Some _ => true | None => false end.

(** [d[k] = v]: overwrite in place, or add at the end. *)
Fixpoint dict_set (k : string) (v : json) (d : dict) : dict :=
  match d with
  | [] => [(k, v)]
  | (k', v') :: d' =>
      if String.eqb k k' then (k', v) :: d' else (k', v') :: dict_set k v d'
  end.

(** [d.get(k, default)] on a dictionary. *)
Definition dict_get (k : string) (default : json) (d : dict) : json :=
  match dict_find k d with Some v => v | None => default end.

(** [s1 in s2] for two strings. *)
Definition substring_of (s1 s2 : string) : bool :=
  match String.index 0 s1 s2 with Some _ => true | None => false end.

(** [k in v] for a string [k]: key membership for a dict, element membership
    for a list (only a string element can equal a string), substring for a
    string, [TypeError] for the scalars. *)
Definition contains (k : string) (v : json) : result bool :=
  match v with
  | JObj d => Ok (dict_mem k d)
  | JArr items =>
      Ok (existsb (fun x => match x with JStr s => String.eqb k s | _ => false end) items)
  | JStr s => Ok (substring_of k s)
  | _ => Raise TypeError
  end.

(** [v[k]] for a string [k]. *)
Definition getitem (v : json) (k : string) : result json :=
  match v with
  | JObj d => match dict_find k d with Some x => Ok x | None => Raise (KeyError k) end
  | _ => Raise TypeError
  end.

(** [v.get(k, default)]: only a dict has the method. *)
Definition get (v : json) (k : string) (default : json) : result json :=
  match v with
  | JObj d => Ok (dict_get k default d)
  | _ => Raise AttributeError
  end.

(** [v[k] = x] for a string [k]. *)
Definition setitem (v : json) (k : string) (x : json) : result json :=
  match v with
  | JObj d => Ok (JObj (dict_set k x d))
  | _ => Raise TypeError
  end.

(** [s.replace(old, new)] where [old] is the single character [c]. *)
Fixpoint replace_char (c : ascii) (new : string) (s : string) : string :=
  match s with
  | EmptyString => EmptyString
  | String a s' =>
      if Ascii.eqb a c then (new ++ replace_char c new s')%string
      else String a (replace_char c new s')
  end.

(** [sep.join(parts)]. *)
Fixpoint join (sep : string) (parts : list string) : string :=
  match parts with
  | [] => ""
  | [p] => p
  | p :: rest => (p ++ sep ++ join sep rest)%string
  end.

End Py.
Import Py.

(* ================================================================== *)
(** ** [datetime] *)
(* ================================================================== *)

Module Datetime.

(** A [datetime] object: the calendar fields it stores and its [tzinfo],
    here the UTC offset in seconds ([None]: a naive datetime). *)
Record datetime : Type := mk_datetime {
  year : Z; month : Z; day : Z;
  hour : Z; minute : Z; second : Z; microsecond : Z;
  tzinfo : option Z
}.

Definition timezone_utc : option Z := Some 0%Z.

(** [dt.replace(tzinfo=tz)]. *)
Definition replace_tzinfo (dt : datetime) (tz : option Z) : datetime :=
  mk_datetime (year dt) (month dt) (day dt)
              (hour dt) (minute dt) (second dt) (microsecond dt) tz.

Local Open Scope Z_scope.

Definition is_leap (y : Z) : bool :=
  (y mod 4 =? 0) && (negb (y mod 100 =? 0) || (y mod 400 =? 0)).

Definition days_in_month (y m : Z) : Z :=
  if m =? 2 then (if is_leap y then 29 else 28)
  else if (m =? 4) || (m =? 6) || (m =? 9) || (m =? 11) then 30 else 31.

Definition days_before_year (y : Z) : Z :=
  let y1 := y - 1 in y1 * 365 + y1 / 4 - y1 / 100 + y1 / 400.

Fixpoint days_before_month_aux (y : Z) (m : nat) : Z :=
  match m with
  | O => 0
  | S m' => days_before_month_aux y m' + days_in_month y (Z.of_nat m)
  end.

Definition days_before_month (y m : Z) : Z :=
  days_before_month_aux y (Z.to_nat (m - 1)).

(** [date.toordinal()]: 1 for 1 January of year 1. *)
Definition toordinal (dt : datetime) : Z :=
  days_before_year (year dt) + days_before_month (year dt) (month dt) + day dt.

Definition microseconds_per_day : Z := 86400 * 1000000.

(** The wall-clock reading as microseconds on one line. *)
Definition wall (dt : datetime) : Z :=
  (((toordinal dt * 24 + hour dt) * 60 + minute dt) * 60 + second dt) * 1000000
  + microsecond dt.

(** The instant of an aware datetime with offset [off]. *)
Definition instant (dt : datetime) (off : Z) : Z := wall dt - off * 1000000.

(** [a <= b].  Python refuses to order a naive and an aware datetime. *)
Definition le (a b : datetime) : result bool :=
  match tzinfo a, tzinfo b with
  | None, None => Ok (wall a <=? wall b)
  | Some oa, Some ob => Ok (instant a oa <=? instant b ob)
  | _, _ => Raise TypeError
  end.

(** [a < b] for two naive datetimes, as [list.sort] uses it. *)
Definition naive_lt (a b : datetime) : bool := wall a <? wall b.

(** [(a - b).days] for two naive datetimes: whole days, rounded down. *)
Definition days_between (a b : datetime) : Z :=
  (wall a - wall b) / microseconds_per_day.

End Datetime.
Import Datetime.

(* ================================================================== *)
(** ** The outside world and the method monad *)
(* ================================================================== *)

(** A POST as [requests.post] sends it: the address, the token formatted
    into the [Authorization: Bearer] header ([None] when the call passes no
    headers) and the JSON payload.  The other three headers of
    [_make_request] are constants. *)
Record http_request : Type := mk_request {
  url : string;
  bearer : option json;
  payload : json
}.

(** What comes back: no answer at all, or a status and a body ([None] when
    the body is not JSON). *)
Inductive http_reply : Type :=
| NoReply
| Reply (status : Z) (body : option json).

Record response : Type := mk_response {
  status_code : Z;
  content : option json
}.

(** The library functions the client calls.  The network is a state machine:
    an answer may depend on everything sent before. *)
Record platform : Type := mk_platform {
  net : Type;
  requests_post : net -> http_request -> http_reply * net;
  json_loads : string -> option json;
  json_dumps : json -> string;
  fromisoformat : string -> option datetime;
  expanduser : string -> string
}.

(** A file as [open(path, 'r')] and [json.load] find it: one that cannot
    be opened for reading, one whose bytes do not decode as text, text that
    is not JSON, or the text of the JSON value [v]. *)
Inductive file : Type :=
| Unreadable
| NotText
| NotJson
| Json (v : json).

(** The lines the two classes print. *)
Inductive line : Type :=
| WarnSaveRefreshToken (e : exn)
| WarnTranscript (title : json) (e : exn)
| InfoFetching (start_date end_date : datetime)
| InfoFilteredOut (n : nat)
| InfoFound (n : nat)
| WarnLoadState (e : exn)
| WarnSaveState (e : exn)
| WarnLoadFeedback (e : exn).

Section World.

(** The type of the network's states. *)
Variable N : Type.

Record world : Type := mk_world {
  network : N;
  sent : list http_request;              (* every POST so far, oldest first *)
  credentials_file : option file;        (* None: no such file *)
  credentials_writable : bool;
  stdout : list line
}.

(** The fields of a [GranolaClient]. *)
Record client : Type := mk_client {
  access_token : json;
  refresh_token : json;
  client_id : json
}.

Record state : Type := mk_state {
  self : client;
  outside : world
}.

Definition M (A : Type) : Type := state -> result A * state.

Definition ret {A} (a : A) : M A := fun st => (Ok a, st).

Definition raise {A} (e : exn) : M A := fun st => (Raise e, st).

Definition bind {A B} (c : M A) (k : A -> M B) : M B :=
  fun st =>
    match c st with
    | (Ok a, st') => k a st'
    | (Raise e, st') => (Raise e, st')
    end.

Definition lift {A} (r : result A) : M A := fun st => (r, st).

(** [try: body  except ...: handler]: [handler e] is [None] when no
    [except] clause matches [e]. *)
Definition try_except {A} (body : M A) (handler : exn -> option (M A)) : M A :=
  fun st =>
    match body st with
    | (Ok a, st') => (Ok a, st')
    | (Raise e, st') =>
        match handler e with
        | Some h => h st'
        | None => (Raise e, st')
        end
    end.

Definition get_self : M client := fun st => (Ok (self st), st).

Definition set_access_token (v : json) : M unit :=
  fun st =>
    (Ok tt, mk_state (mk_client v (refresh_token (self st)) (client_id (self st)))
                     (outside st)).

Definition set_refresh_token (v : json) : M unit :=
  fun st =>
    (Ok tt, mk_state (mk_client (access_token (self st)) v (client_id (self st)))
                     (outside st)).

Definition set_client_id (v : json) : M unit :=
  fun st =>
    (Ok tt, mk_state (mk_client (access_token (self st)) (refresh_token (self st)) v)
                     (outside st)).

Definition print (l : line) : M unit :=
  fun st =>
    let w := outside st in
    (Ok tt, mk_state (self st)
              (mk_world (network w) (sent w) (credentials_file w)
                        (credentials_writable w) (stdout w ++ [l]))).

(** [response.raise_for_status()]: an error for the 4xx and 5xx statuses. *)
Definition raise_for_status (r : response) : M unit :=
  if ((400 <=? status_code r) && (status_code r <? 600))%Z
  then raise (RequestException (HTTPError (status_code r)))
  else ret tt.

(** [response.json()]. *)
Definition response_json (r : response) : M json :=
  match content r with
  | Some v => ret v
  | None => raise (RequestException InvalidJSONError)
  end.

(** [with open(CREDENTIALS_PATH, 'r') as f: json.load(f)].  [open] raises
    [FileNotFoundError] or, for a file it may not read, [PermissionError];
    reading raises [UnicodeDecodeError] on bytes that are not text; parsing
    raises [JSONDecodeError]. *)
Definition load_credentials_file : M json :=
  fun st =>
    match credentials_file (outside st) with
    | None => (Raise FileNotFoundError, st)
    | Some Unreadable => (Raise PermissionError, st)
    | Some NotText => (Raise UnicodeDecodeError, st)
    | Some NotJson => (Raise JSONDecodeError, st)
    | Some (Json v) => (Ok v, st)
    end.

(** What a file holds once [creds] is written to it: writing does not make
    a file readable. *)
Definition written (old : option file) (creds : json) : option file :=
  match old with
  | Some Unreadable => Some Unreadable
  | _ => Some (Json creds)
  end.

(** [with open(CREDENTIALS_PATH, 'w') as f: json.dump(creds, f, indent=2)]. *)
Definition dump_credentials_file (creds : json) : M unit :=
  fun st =>
    let w := outside st in
    if credentials_writable w
    then (Ok tt, mk_state (self st)
                   (mk_world (network w) (sent w)
                             (written (credentials_file w) creds)
                             (credentials_writable w) (stdout w)))
    else (Raise PermissionError, st).

End World.

Arguments ret {N A} a.
Arguments raise {N A} e.
Arguments bind {N A B} c k.
Arguments lift {N A} r.
Arguments try_except {N A} body handler.
Arguments get_self {N}.
Arguments set_access_token {N} v.
Arguments set_refresh_token {N} v.
Arguments set_client_id {N} v.
Arguments print {N} l.
Arguments raise_for_status {N} r.
Arguments response_json {N} r.
Arguments load_credentials_file {N}.
Arguments dump_credentials_file {N} creds.
Arguments mk_world {N}.
Arguments mk_state {N}.
Arguments network {N}.
Arguments sent {N}.
Arguments credentials_file {N}.
Arguments credentials_writable {N}.
Arguments stdout {N}.
Arguments self {N}.
Arguments outside {N}.

Section Library.

Variable P : platform.

(** [requests.post(url, json=payload, headers=...)]. *)
Definition post (req : http_request) : M (net P) response :=
  fun st =>
    let w := outside st in
    let '(reply, n') := requests_post P (network w) req in
    let st' := mk_state (self st)
                 (mk_world n' (sent w ++ [req]) (credentials_file w)
                           (credentials_writable w) (stdout w)) in
    match reply with
    | NoReply => (Raise (RequestException ConnectionError), st')
    | Reply s b => (Ok (mk_response s b), st')
    end.

(** [json.loads(v)]. *)
Definition loads (v : json) : M (net P) json :=
  match v with
  | JStr s =>
      match json_loads P s with
      | Some j => ret j
      | None => raise JSONDecodeError
      end
  | _ => raise TypeError
  end.

End Library.

Arguments post {P} req.
Arguments loads {P} v.

Declare Scope py_scope.
Delimit Scope py_scope with py.
Notation "x <- c ;; k" := (bind c (fun x => k))
  (at level 100, c at next level, right associativity) : py_scope.
Notation "c ;;; k" := (bind c (fun _ => k))
  (at level 100, right associativity) : py_scope.
Local Open Scope py_scope.

(* ================================================================== *)
(** ** [granola_client.py]: class [GranolaClient] *)
(* ================================================================== *)

Module GranolaClient.

(** [os.path.expanduser("~/Library/Application Support/Granola/supabase.json")] *)
Definition CREDENTIALS_PATH (P : platform) : string :=
  expanduser P "~/Library/Application Support/Granola/supabase.json".
Definition API_BASE : string := "https://api.granola.ai".
Definition WORKOS_AUTH_URL : string :=
  "https://api.workos.com/user_management/authenticate".
Definition DEFAULT_CLIENT_ID : string := "client_01JARHTH2HQ6D64XDAEVXFNQ44".

Section Methods.

Variable P : platform.

(** [_load_credentials]: the three shapes of the file, tried in order. *)
Definition _load_credentials : M (net P) unit :=
  try_except
    (creds <- load_credentials_file ;;
     has_workos <- lift (contains "workos_tokens" creds) ;;
     (if has_workos then
        raw <- lift (getitem creds "workos_tokens") ;;
        workos_tokens <- loads raw ;;
        a <- lift (get workos_tokens "access_token" None_) ;;
        set_access_token a ;;;
        r <- lift (get workos_tokens "refresh_token" None_) ;;
        set_refresh_token r
      else
        has_session <- lift (contains "currentSession" creds) ;;
        if has_session then
          session <- lift (getitem creds "currentSession") ;;
          a <- lift (get session "access_token" None_) ;;
          set_access_token a ;;;
          r <- lift (get session "refresh_token" None_) ;;
          set_refresh_token r
        else
          has_token <- lift (contains "access_token" creds) ;;
          if has_token then
            a <- lift (get creds "access_token" None_) ;;
            set_access_token a ;;;
            r <- lift (get creds "refresh_token" None_) ;;
            set_refresh_token r
          else ret tt) ;;;
     c <- lift (get creds "client_id" (JStr DEFAULT_CLIENT_ID)) ;;
     set_client_id c)
    (fun e =>
       match e with
       | FileNotFoundError =>
           Some (raise (Exception (CredentialsNotFound (CREDENTIALS_PATH P))))
       | JSONDecodeError => Some (raise (Exception FailedToParseCredentials))
       | _ => None
       end).

(** [__init__]: the three fields start as [None]. *)
Definition __init__ (w : world (net P)) : result unit * state (net P) :=
  _load_credentials (mk_state (mk_client None_ None_ None_) w).

(** [_save_refresh_token]: rewrite the file in the shape it has; any failure
    is printed and swallowed.  The [currentSession] branch assigns into the
    object [creds] holds, written here as an update of [creds]. *)
Definition _save_refresh_token : M (net P) unit :=
  try_except
    (creds <- load_credentials_file ;;
     me <- get_self ;;
     has_workos <- lift (contains "workos_tokens" creds) ;;
     creds' <-
       (if has_workos then
          raw <- lift (getitem creds "workos_tokens") ;;
          workos_tokens <- loads raw ;;
          t1 <- lift (setitem workos_tokens "access_token" (access_token me)) ;;
          t2 <- lift (setitem t1 "refresh_token" (refresh_token me)) ;;
          lift (setitem creds "workos_tokens" (JStr (json_dumps P t2)))
        else
          has_session <- lift (contains "currentSession" creds) ;;
          if has_session then
            session <- lift (getitem creds "currentSession") ;;
            s1 <- lift (setitem session "access_token" (access_token me)) ;;
            s2 <- lift (setitem s1 "refresh_token" (refresh_token me)) ;;
            lift (setitem creds "currentSession" s2)
          else
            c1 <- lift (setitem creds "access_token" (access_token me)) ;;
            lift (setitem c1 "refresh_token" (refresh_token me))) ;;
     dump_credentials_file creds')
    (fun e => Some (print (WarnSaveRefreshToken e))).

(** [_refresh_access_token]. *)
Definition _refresh_access_token : M (net P) unit :=
  me <- get_self ;;
  if negb (truthy (refresh_token me)) then
    raise (Exception NoRefreshTokenAvailable)
  else
    let payload :=
      JObj [("client_id", client_id me);
            ("grant_type", JStr "refresh_token");
            ("refresh_token", refresh_token me)] in
    try_except
      (response <- post (mk_request WORKOS_AUTH_URL None payload) ;;
       raise_for_status response ;;;
       data <- response_json response ;;
       a <- lift (getitem data "access_token") ;;
       set_access_token a ;;;
       r <- lift (getitem data "refresh_token") ;;
       set_refresh_token r ;;;
       _save_refresh_token)
      (fun e =>
         match e with
         | RequestException re =>
             Some (raise (Exception (FailedToRefreshAccessToken re)))
         | _ => None
         end).

(** The body of [_make_request], with the call to itself left open. *)
Definition _make_request_body
    (recur : string -> json -> bool -> M (net P) json)
    (endpoint : string) (payload : json) (retry_auth : bool) : M (net P) json :=
  me <- get_self ;;
  let url := (API_BASE ++ endpoint)%string in
  try_except
    (response <- post (mk_request url (Some (access_token me)) payload) ;;
     if (status_code response =? 401)%Z && retry_auth then
       _refresh_access_token ;;;
       recur endpoint payload false
     else
       raise_for_status response ;;;
       response_json response)
    (fun e =>
       match e with
       | RequestException re => Some (raise (Exception (ApiRequestFailed re)))
       | _ => None
       end).

(** [_make_request].  The method calls itself only with
    [retry_auth=False], and that call never calls again: two levels of the
    body are the whole recursion. *)
Definition _make_request (endpoint : string) (payload : json) (retry_auth : bool)
  : M (net P) json :=
  _make_request_body
    (_make_request_body (fun _ _ _ => raise RecursionError))
    endpoint payload retry_auth.

(** [get_documents]. *)
Definition get_documents (limit offset : Z) : M (net P) json :=
  let payload :=
    JObj [("limit", JNum limit);
          ("offset", JNum offset);
          ("include_last_viewed_panel", JBool true)] in
  response <- _make_request "/v2/get-documents" payload true ;;
  lift (get response "docs" (JArr [])).

(** [get_document_transcript]. *)
Definition get_document_transcript (document_id : json) : M (net P) json :=
  let payload := JObj [("document_id", document_id)] in
  response <- _make_request "/v1/get-document-transcript" payload true ;;
  ret (if is_list response then response else JArr []).

(** [datetime.fromisoformat(doc['created_at'].replace('Z', '+00:00'))]. *)
Definition parse_created_at (doc : json) : M (net P) datetime :=
  c <- lift (getitem doc "created_at") ;;
  match c with
  | JStr s =>
      match fromisoformat P (replace_char "Z"%char "+00:00" s) with
      | Some dt => ret dt
      | None => raise ValueError
      end
  | _ => raise AttributeError
  end.

(** [start_date <= created_at <= end_date]. *)
Definition between (start_date created_at end_date : datetime) : M (net P) bool :=
  lo <- lift (le start_date created_at) ;;
  if lo then lift (le created_at end_date) else ret false.

(** The [for doc in documents] loop of [get_meetings_in_date_range]. *)
Fixpoint for_docs (start_date end_date : datetime)
    (documents : list json) (all_meetings : list json) : M (net P) (list json) :=
  match documents with
  | [] => ret all_meetings
  | doc :: rest =>
      created_at <- parse_created_at doc ;;
      in_range <- between start_date created_at end_date ;;
      if in_range then
        all_meetings' <-
          try_except
            (id <- lift (getitem doc "id") ;;
             transcript <- get_document_transcript id ;;
             doc' <- lift (setitem doc "transcript" transcript) ;;
             ret (all_meetings ++ [doc']))
            (fun e =>
               Some (title <- lift (get doc "title" (JStr "Unknown")) ;;
                     print (WarnTranscript title e) ;;;
                     ret all_meetings)) ;;
        for_docs start_date end_date rest all_meetings'
      else
        for_docs start_date end_date rest all_meetings
  end.

Definition limit : Z := 100.

(** The [while True] loop; [fuel] bounds the number of iterations and
    [None] means the bound was reached.  A [documents] value that is true
    and not a list makes the [for] loop raise [TypeError] at once: a scalar
    cannot be iterated, and the keys of a dict and the characters of a string
    are strings, which [doc['created_at']] cannot index. *)
Fixpoint while_true (fuel : nat) (start_date end_date : datetime)
    (offset : Z) (all_meetings : list json) (st : state (net P))
  : option (result (list json) * state (net P)) :=
  match fuel with
  | O => None
  | S fuel' =>
      match get_documents limit offset st with
      | (Raise e, st1) => Some (Raise e, st1)
      | (Ok documents, st1) =>
          if negb (truthy documents) then Some (Ok all_meetings, st1)
          else
            match documents with
            | JArr docs =>
                match for_docs start_date end_date docs all_meetings st1 with
                | (Raise e, st2) => Some (Raise e, st2)
                | (Ok all_meetings', st2) =>
                    if (Z.of_nat (List.length docs) <? limit)%Z
                    then Some (Ok all_meetings', st2)
                    else while_true fuel' start_date end_date
                           (offset + limit)%Z all_meetings' st2
                end
            | _ => Some (Raise TypeError, st1)
            end
      end
  end.

(** [get_meetings_in_date_range]. *)
Definition get_meetings_in_date_range (fuel : nat)
    (start_date end_date : datetime) (st : state (net P))
  : option (result (list json) * state (net P)) :=
  let start_date :=
    match tzinfo start_date with
    | None => replace_tzinfo start_date timezone_utc
    | Some _ => start_date
    end in
  let end_date :=
    match tzinfo end_date with
    | None => replace_tzinfo end_date timezone_utc
    | Some _ => end_date
    end in
  while_true fuel start_date end_date 0%Z [] st.

End Methods.

(** [format_transcript_text].  An utterance is a dict whose values are
    strings; [lines] grows by [append]. *)
Definition utterance := list (string * string).

Fixpoint str_find (k : string) (d : utterance) : option string :=
  match d with
  | [] => None
  | (k', v) :: d' => if String.eqb k k' then Some v else str_find k d'
  end.

Definition str_get (k default : string) (d : utterance) : string :=
  match str_find k d with Some v => v | None => default end.

Definition newline : string := String "010"%char EmptyString.

Fixpoint format_loop (transcript : list utterance) (lines : list string)
  : list string :=
  match transcript with
  | [] => lines
  | utterance :: rest =>
      let speaker := str_get "source" "Unknown" utterance in
      let text := str_get "text" "" utterance in
      format_loop rest (lines ++ [(speaker ++ ": " ++ text)%string])
  end.

Definition format_transcript_text (transcript : list utterance) : string :=
  match transcript with
  | [] => ""
  | _ => join newline (format_loop transcript [])
  end.

End GranolaClient.

(* ================================================================== *)
(** ** [analyze_meetings.py]: class [MeetingAnalysisRunner] *)
(* ================================================================== *)

Module MeetingAnalysisRunner.

Import GranolaClient.

(** *** The ledger *)

(** [self.state], a dict with the single key ["processed_documents"]
    ([None]: a dict without the key); the ids are strings. *)
Record analysis_state : Type := mk_analysis_state {
  processed_documents : option (list string)
}.

(** The text of [STATE_FILE]. *)
Inductive state_text : Type :=
| Corrupt
| Saved (s : analysis_state).

Record disk : Type := mk_disk {
  state_file : option state_text;        (* None: no such file *)
  state_file_writable : bool;
  state_file_writes : list analysis_state; (* every json.dump into STATE_FILE *)
  printed : list line
}.

Definition empty_state : analysis_state := mk_analysis_state (Some []).

(** [_load_state]. *)
Definition _load_state (d : disk) : analysis_state * disk :=
  match state_file d with
  | Some (Saved s) => (s, d)
  | Some Corrupt =>
      (empty_state,
       mk_disk (state_file d) (state_file_writable d) (state_file_writes d)
               (printed d ++ [WarnLoadState JSONDecodeError]))
  | None => (empty_state, d)
  end.

(** [_save_state]. *)
Definition _save_state (s : analysis_state) (d : disk) : disk :=
  if state_file_writable d
  then mk_disk (Some (Saved s)) true (state_file_writes d ++ [s]) (printed d)
  else mk_disk (state_file d) false (state_file_writes d)
               (printed d ++ [WarnSaveState PermissionError]).

(** [document_id in ids]. *)
Definition mem (document_id : string) (ids : list string) : bool :=
  existsb (String.eqb document_id) ids.

(** [_mark_as_processed]. *)
Definition _mark_as_processed (document_id : string)
    (s : analysis_state) (d : disk) : result unit * analysis_state * disk :=
  match processed_documents s with
  | None => (Raise (KeyError "processed_documents"), s, d)
  | Some ids =>
      if negb (mem document_id ids) then
        let s' := mk_analysis_state (Some (ids ++ [document_id])) in
        (Ok tt, s', _save_state s' d)
      else (Ok tt, s, d)
  end.

(** [_is_processed].  The id comes from [m['id']]; a value that is not a
    string equals no member of a list of strings. *)
Definition _is_processed (s : analysis_state) (document_id : json) : bool :=
  match document_id with
  | JStr id =>
      mem id (match processed_documents s with Some ids => ids | None => [] end)
  | _ => false
  end.

(** [[m for m in meetings if not self._is_processed(m['id'])]]. *)
Fixpoint not_processed (s : analysis_state) (meetings : list json)
  : result (list json) :=
  match meetings with
  | [] => Ok []
  | m :: rest =>
      match getitem m "id" with
      | Raise e => Raise e
      | Ok id =>
          match not_processed s rest with
          | Raise e => Raise e
          | Ok kept => Ok (if negb (_is_processed s id) then m :: kept else kept)
          end
      end
  end.

Section Fetch.

Variable P : platform.

(** [fetch_meetings]. *)
Definition fetch_meetings (fuel : nat) (s : analysis_state)
    (start_date end_date : datetime) (new_only : bool) (st : state (net P))
  : option (result (list json) * state (net P)) :=
  let st0 := snd (print (InfoFetching start_date end_date) st) in
  match get_meetings_in_date_range P fuel start_date end_date st0 with
  | None => None
  | Some (Raise e, st1) => Some (Raise e, st1)
  | Some (Ok meetings, st1) =>
      if new_only then
        let original_count := List.length meetings in
        match not_processed s meetings with
        | Raise e => Some (Raise e, st1)
        | Ok meetings' =>
            let filtered_count := (original_count - List.length meetings')%nat in
            let st2 :=
              if (0 <? filtered_count)%nat
              then snd (print (InfoFilteredOut filtered_count) st1)
              else st1 in
            Some (Ok meetings',
                  snd (print (InfoFound (List.length meetings')) st2))
        end
      else
        Some (Ok meetings, snd (print (InfoFound (List.length meetings)) st1))
  end.

End Fetch.

(** *** Previous feedback *)

(** An entry of [FEEDBACK_DIR]: its name and what [open(file).read()]
    gives ([None]: the read fails). *)
Record entry : Type := mk_entry {
  name : string;
  text : option string
}.

(** [Path.glob("feedback_*.txt")] on a name. *)
Definition glob_feedback (n : string) : bool :=
  String.prefix "feedback_" n
  && String.eqb (String.substring (String.length n - 4) 4 n) ".txt"
  && (13 <=? String.length n)%nat.

(** The characters of [s] before its first ['_']. *)
Fixpoint until_underscore (s : string) : string :=
  match s with
  | EmptyString => EmptyString
  | String a s' =>
      if Ascii.eqb a "_"%char then EmptyString else String a (until_underscore s')
  end.

(** [f.stem.split('_')[1]] for a name that [glob_feedback] accepts: the stem
    drops [".txt"], and the second piece starts after ["feedback_"]. *)
Definition date_str (n : string) : string :=
  until_underscore (String.substring 9 (String.length n - 13) n).

(** The order of [(file_date, f)] tuples: dates first, then paths. *)
Definition name_ltb (a b : string) : bool :=
  match OrdersEx.String_as_OT.compare a b with Lt => true | _ => false end.

Definition tuple_ltb (a b : datetime * entry) : bool :=
  naive_lt (fst a) (fst b)
  || ((wall (fst a) =? wall (fst b))%Z && name_ltb (name (snd a)) (name (snd b))).

(** [list.sort(reverse=True)]: descending and stable. *)
Fixpoint insert_desc (x : datetime * entry) (l : list (datetime * entry))
  : list (datetime * entry) :=
  match l with
  | [] => [x]
  | y :: l' => if tuple_ltb x y then y :: insert_desc x l' else x :: l
  end.

Fixpoint sort_reverse (l : list (datetime * entry)) : list (datetime * entry) :=
  match l with
  | [] => []
  | x :: l' => insert_desc x (sort_reverse l')
  end.

Section Feedback.

(** [datetime.strptime(s, "%Y%m%d")] ([None]: [ValueError]) and
    [date.strftime('%Y-%m-%d')]. *)
Variable strptime_Ymd : string -> option datetime.
Variable strftime_Y_m_d : datetime -> string.

(** The [for f in ...glob(...)] loop; [now] is [datetime.now()], taken as
    one instant for the whole call. *)
Fixpoint scan_feedback (now : datetime) (files : list entry)
    (feedback_files : list (datetime * entry)) : list (datetime * entry) :=
  match files with
  | [] => feedback_files
  | f :: rest =>
      match strptime_Ymd (date_str (name f)) with
      | None => scan_feedback now rest feedback_files
      | Some file_date =>
          let days_ago := days_between now file_date in
          if ((1 <=? days_ago) && (days_ago <=? 7))%Z
          then scan_feedback now rest (feedback_files ++ [(file_date, f)])
          else scan_feedback now rest feedback_files
      end
  end.

(** The files whose text the list comprehension reads:
    [feedback_files[:3]] after the sort. *)
Definition chosen (now : datetime) (dir : option (list entry))
  : list (datetime * entry) :=
  let feedback_files :=
    match dir with
    | Some files =>
        scan_feedback now (filter (fun f => glob_feedback (name f)) files) []
    | None => []
    end in
  firstn 3 (sort_reverse feedback_files).

(** The list comprehension: one block per file, an exception when a read
    fails. *)
Fixpoint blocks (l : list (datetime * entry)) : result (list string) :=
  match l with
  | [] => Ok []
  | (date, f) :: rest =>
      match text f with
      | None => Raise PermissionError
      | Some body =>
          match blocks rest with
          | Raise e => Raise e
          | Ok bs =>
              Ok (("[" ++ strftime_Y_m_d date ++ "]" ++ newline ++ body)%string :: bs)
          end
      end
  end.

(** [_load_previous_feedback]: the value returned and the lines printed. *)
Definition _load_previous_feedback (now : datetime) (dir : option (list entry))
  : option string * list line :=
  match chosen now dir with
  | [] => (None, [])
  | first_three =>
      match blocks first_three with
      | Raise e => (None, [WarnLoadFeedback e])
      | Ok bs =>
          let combined_feedback := join (newline ++ newline)%string bs in
          (if String.eqb combined_feedback "" then None else Some combined_feedback,
           [])
      end
  end.

End Feedback.

End MeetingAnalysisRunner.

(* ================================================================== *)
(** ** analyze_meetings.py: [_save_feedback] *)
(* ================================================================== *)

(** The feedback directory is the listing [list entry] that
    [_load_previous_feedback] globs; the order of a listing carries no
    meaning. *)
Module SaveFeedback.

Import MeetingAnalysisRunner.

(** The names [_save_feedback] builds inside [FEEDBACK_DIR]; [today] is
    [datetime.now().strftime("%Y%m%d")] and [clock] is
    [datetime.now().strftime('%H%M%S')]. *)
Definition CURRENT_FEEDBACK_FILE : string := "current.txt".

Definition dated_name (today : string) : string :=
  ("feedback_" ++ today ++ ".txt")%string.

Definition backup_name (today clock : string) : string :=
  ("feedback_" ++ today ++ "_backup_" ++ clock ++ ".txt")%string.

(** The lines it prints. *)
Inductive notice : Type :=
| BackedUp (backup_file : string)
| FeedbackSaved (feedback_file : string).

Definition named (n : string) (e : entry) : bool := String.eqb (name e) n.

(** [Path(n).exists()]. *)
Definition exists_ (n : string) (files : list entry) : bool :=
  existsb (named n) files.

(** What a file holds ([None]: no such file). *)
Definition content (n : string) (files : list entry) : option (option string) :=
  option_map text (find (named n) files).

(** [Path(old).rename(new)]: an existing target is replaced. *)
Definition rename (old new : string) (files : list entry) : list entry :=
  if String.eqb old new then files
  else map (fun e => if named old e then mk_entry new (text e) else e)
           (filter (fun e => negb (named new e)) files).

(** [with open(n, 'w') as f: f.write(text)]. *)
Definition write (n : string) (body : string) (files : list entry) : list entry :=
  if exists_ n files
  then map (fun e => if named n e then mk_entry n (Some body) else e) files
  else files ++ [mk_entry n (Some body)].

(** [_save_feedback].  [dir] is the listing of [FEEDBACK_DIR] ([None]: it
    does not exist); when [writable] is false, the first operation that
    changes the directory raises [PermissionError]. *)
Definition _save_feedback (today clock : string) (writable : bool)
    (feedback_text : string) (dir : option (list entry))
  : result unit * option (list entry) * list notice :=
  match dir, writable with
  | None, false => (Raise PermissionError, dir, [])
  | _, _ =>
      let files := match dir with Some files => files | None => [] end in
      let feedback_file := dated_name today in
      if exists_ feedback_file files then
        let backup_file := backup_name today clock in
        if writable then
          let files1 := rename feedback_file backup_file files in
          let files2 := write feedback_file feedback_text files1 in
          let files3 := write CURRENT_FEEDBACK_FILE feedback_text files2 in
          (Ok tt, Some files3, [BackedUp backup_file; FeedbackSaved feedback_file])
        else (Raise PermissionError, Some files, [])
      else if writable then
        let files2 := write feedback_file feedback_text files in
        let files3 := write CURRENT_FEEDBACK_FILE feedback_text files2 in
        (Ok tt, Some files3, [FeedbackSaved feedback_file])
      else (Raise PermissionError, Some files, [])
  end.

End SaveFeedback.

(* ================================================================== *)
(** ** The transcript as the API gives it: [format_transcript_text] and
       [prepare_meetings_for_analysis] on untyped values *)
(* ================================================================== *)

(** [GranolaClient.format_transcript_text] above reads a transcript whose
    utterances are dicts of strings.  The runner passes it whatever
    [meeting.get('transcript', [])] holds; here the same method reads any
    value, and raises where Python does. *)
Module Dynamic.

Import GranolaClient.

Section Str.

(** [str(v)], which an f-string applies to the value it formats. *)
Variable str : json -> string.

(** The [for utterance in transcript] loop over the items of a list. *)
Fixpoint format_loop (transcript : list json) (lines : list string)
  : result (list string) :=
  match transcript with
  | [] => Ok lines
  | utterance :: rest =>
      match get utterance "source" (JStr "Unknown") with
      | Raise e => Raise e
      | Ok speaker =>
          match get utterance "text" (JStr "") with
          | Raise e => Raise e
          | Ok text =>
              format_loop rest (lines ++ [(str speaker ++ ": " ++ str text)%string])
          end
      end
  end.

(** [format_transcript_text].  A string or a dict that is not empty is
    iterated too: its items are strings, and the first [utterance.get]
    raises [AttributeError]; [True] and a number other than zero are not
    iterable. *)
Definition format_transcript_text (transcript : json) : result string :=
  if negb (truthy transcript) then Ok ""
  else
    match transcript with
    | JArr items =>
        match format_loop items [] with
        | Raise e => Raise e
        | Ok lines => Ok (join newline lines)
        end
    | JStr _ | JObj _ => Raise AttributeError
    | _ => Raise TypeError
    end.

(** [MeetingAnalysisRunner.prepare_meetings_for_analysis]: the loop, with
    [prepared] growing by [append]. *)
Fixpoint prepare_loop (meetings : list json) (prepared : list json)
  : result (list json) :=
  match meetings with
  | [] => Ok prepared
  | meeting :: rest =>
      match get meeting "transcript" (JArr []) with
      | Raise e => Raise e
      | Ok transcript =>
          match format_transcript_text transcript with
          | Raise e => Raise e
          | Ok transcript_text =>
              match setitem meeting "transcript_text" (JStr transcript_text) with
              | Raise e => Raise e
              | Ok meeting' => prepare_loop rest (prepared ++ [meeting'])
              end
          end
      end
  end.

Definition prepare_meetings_for_analysis (meetings : list json)
  : result (list json) :=
  prepare_loop meetings [].

End Str.

End Dynamic.

(* ================================================================== *)
(** ** [ai_analyzer.py]: class [MeetingAnalyzer] *)
(* ================================================================== *)

Module MeetingAnalyzer.

Import GranolaClient.

Definition DEFAULT_PROMPT : string :=
"You are an executive coach analyzing meeting effectiveness and productivity.

Focus on these key areas:
1. **Meeting Effectiveness** - Was this meeting necessary? Did it achieve its goals?
2. **Cost & Time** - Given the people involved, was this a good use of everyone's time?
3. **Strategic Thinking** - Evidence of long-term planning, risk assessment, and business impact
4. **Action Items** - Clear outcomes, decisions, and next steps
5. **Communication** - Clarity, influence, and stakeholder management
6. **Areas for Improvement** - Specific, actionable suggestions".

(** The fields of [self] that [analyze_meetings] reads. *)
Record analyzer : Type := mk_analyzer {
  people : string;
  custom_prompt : option string
}.

(** The arguments of [client.chat.completions.create]. *)
Record chat_message : Type := mk_chat_message {
  role : string;
  message_content : string
}.

Record chat_request : Type := mk_chat_request {
  model : string;
  messages : list chat_message
}.

(** What the [try] block gets from the call: the value of
    [response.choices[0].message.content] ([JNull] when the model gives no
    text), or an exception [e] of which [str_e] is [str(e)]. *)
Inductive completion : Type :=
| Content (content : json)
| Failed (str_e : string).

Fixpoint times (s : string) (n : nat) : string :=
  match n with
  | O => EmptyString
  | S n' => (s ++ times s n')%string
  end.

(** ['='*80] *)
Definition rule : string := Eval vm_compute in times "=" 80.

Section Analyzer.

Variable str : json -> string.

(** The chat service. *)
Variable create : chat_request -> completion.

(** [x + y] where [y] is a string. *)
Definition add_str (x : json) (y : string) : result string :=
  match x with
  | JStr s => Ok (s ++ y)%string
  | _ => Raise TypeError
  end.

(** The loop that combines the meetings. *)
Fixpoint combine (meetings : list json) (all_meetings_text : string)
  : result string :=
  match meetings with
  | [] => Ok all_meetings_text
  | meeting :: rest =>
      match get meeting "title" (JStr "Untitled Meeting") with
      | Raise e => Raise e
      | Ok title =>
      match get meeting "created_at" (JStr "Unknown date") with
      | Raise e => Raise e
      | Ok created_at =>
      match get meeting "transcript_text" (JStr "") with
      | Raise e => Raise e
      | Ok transcript_text =>
          let text1 := (all_meetings_text ++ newline ++ rule ++ newline)%string in
          let text2 := (text1 ++ "Meeting: " ++ str title ++ newline)%string in
          let text3 := (text2 ++ "Date: " ++ str created_at ++ newline)%string in
          let text4 := (text3 ++ rule ++ newline)%string in
          match add_str transcript_text (newline ++ newline) with
          | Raise e => Raise e
          | Ok block => combine rest (text4 ++ block)%string
          end
      end end end
  end.

Definition context_of (self : analyzer) (previous_feedback : option string)
  : string :=
  let context_parts :=
    (if negb (String.eqb (people self) "")
     then [("People involved: " ++ people self)%string] else [])
    ++ match previous_feedback with
       | Some feedback =>
           if negb (String.eqb feedback "")
           then [("Previous feedback for context:" ++ newline ++ feedback)%string]
           else []
       | None => []
       end in
  match context_parts with
  | [] => ""
  | _ => join (newline ++ newline) context_parts
  end.

Definition prompt_of (base_prompt context all_meetings_text : string) : string :=
  (base_prompt ++ "

" ++ context ++ "

Analyze today's meetings and provide actionable feedback.

Guidelines:
- Exclude non-professional meetings (doctors appointments, personal calls, etc.)
- Skip meetings without useful data
- Be specific with examples
- Focus on actionable improvements
- Don't force insights if insufficient information

TODAY'S MEETINGS:
" ++ all_meetings_text ++ "

Provide comprehensive feedback with:
- STRENGTHS (what went well)
- AREAS FOR IMPROVEMENT (specific suggestions)
- ACTION ITEMS (what to do next)
- OVERALL ASSESSMENT (summary)")%string.

Definition request_for (prompt : string) : chat_request :=
  mk_chat_request "gpt-5"
    [mk_chat_message "system"
       "You are an expert executive coach specializing in engineering leadership development.";
     mk_chat_message "user" prompt].

(** [analyze_meetings]: what it returns, and the requests it has sent to the
    chat service.  [today] is [datetime.now().strftime("%Y-%m-%d")]. *)
Definition analyze_meetings (self : analyzer) (today : string)
    (meetings : list json) (previous_feedback : option string)
  : result json * list chat_request :=
  match meetings with
  | [] =>
      (Ok (JObj [("summary", JStr "No meetings found in the specified date range.");
                 ("feedback", JStr "No meetings to analyze.");
                 ("date", JStr today)]),
       [])
  | _ =>
      match combine meetings "" with
      | Raise e => (Raise e, [])
      | Ok all_meetings_text =>
          let base_prompt :=
            match custom_prompt self with
            | Some custom =>
                if negb (String.eqb custom "") then custom else DEFAULT_PROMPT
            | None => DEFAULT_PROMPT
            end in
          let context := context_of self previous_feedback in
          let prompt := prompt_of base_prompt context all_meetings_text in
          let request := request_for prompt in
          let num_meetings := JNum (Z.of_nat (List.length meetings)) in
          match create request with
          | Content feedback =>
              (Ok (JObj [("summary",
                          JStr ("Analyzed " ++ str num_meetings
                                ++ " meetings from today")%string);
                         ("feedback", feedback);
                         ("date", JStr today);
                         ("num_meetings", num_meetings)]),
               [request])
          | Failed str_e =>
              (Ok (JObj [("summary",
                          JStr ("Failed to analyze " ++ str num_meetings
                                ++ " meetings")%string);
                         ("feedback", JStr ("Analysis failed: " ++ str_e)%string);
                         ("date", JStr today);
                         ("num_meetings", num_meetings)]),
               [request])
          end
      end
  end.

(** [format_report]: [report] as the list it is when [join] is called; an
    item that is not a string makes [join] raise [TypeError]. *)
Definition format_report (analysis_result : json) : result string :=
  match get analysis_result "date" (JStr "N/A") with
  | Raise e => Raise e
  | Ok date =>
  match get analysis_result "summary" (JStr "No summary") with
  | Raise e => Raise e
  | Ok summary =>
  match get analysis_result "feedback" (JStr "No feedback available") with
  | Raise e => Raise e
  | Ok feedback =>
      match feedback with
      | JStr feedback_text =>
          Ok (join newline
                [rule;
                 ("DAILY MEETING FEEDBACK - " ++ str date)%string;
                 rule;
                 "";
                 ("Summary: " ++ str summary)%string;
                 "";
                 rule;
                 "";
                 feedback_text;
                 "";
                 rule])
      | _ => Raise TypeError
      end
  end end end.

End Analyzer.

End MeetingAnalyzer.

(* ================================================================== *)
(** ** Concrete library functions and servers for the examples *)
(* ================================================================== *)

Module Fixtures.

Import GranolaClient.

Local Open Scope Z_scope.

Definition digit (c : ascii) : option Z :=
  let n := nat_of_ascii c in
  if ((48 <=? n) && (n <=? 57))%nat then Some (Z.of_nat (n - 48)) else None.

(** Exactly [n] decimal digits. *)
Fixpoint digits (n : nat) (s : string) (acc : Z) : option (Z * string) :=
  match n with
  | O => Some (acc, s)
  | S n' =>
      match s with
      | String c s' =>
          match digit c with
          | Some d => digits n' s' (acc * 10 + d)
          | None => None
          end
      | EmptyString => None
      end
  end.

Definition expect (c : ascii) (s : string) : option string :=
  match s with
  | String a s' => if Ascii.eqb a c then Some s' else None
  | EmptyString => None
  end.

Definition valid_date (y m d : Z) : bool :=
  (1 <=? y) && (y <=? 9999) && (1 <=? m) && (m <=? 12)
  && (1 <=? d) && (d <=? days_in_month y m).

Definition valid_time (h mi s : Z) : bool :=
  (h <? 24) && (mi <? 60) && (s <? 60).

(** [HH[:MM[:SS[.fff[fff]]]]] and what follows it. *)
Definition parse_time (s : string) : option (Z * Z * Z * Z * string) :=
  match digits 2 s 0 with
  | None => None
  | Some (h, s1) =>
      match expect ":" s1 with
      | None => Some (h, 0, 0, 0, s1)
      | Some s2 =>
          match digits 2 s2 0 with
          | None => None
          | Some (mi, s3) =>
              match expect ":" s3 with
              | None => Some (h, mi, 0, 0, s3)
              | Some s4 =>
                  match digits 2 s4 0 with
                  | None => None
                  | Some (sec, s5) =>
                      match expect "." s5 with
                      | None => Some (h, mi, sec, 0, s5)
                      | Some s6 =>
                          match digits 6 s6 0 with
                          | Some (us, s7) => Some (h, mi, sec, us, s7)
                          | None =>
                              match digits 3 s6 0 with
                              | Some (ms, s7) => Some (h, mi, sec, ms * 1000, s7)
                              | None => None
                              end
                          end
                      end
                  end
              end
          end
      end
  end.

(** The offset [+HH:MM] or [-HH:MM] in seconds, or nothing for a naive time. *)
Definition parse_offset (s : string) : option (option Z) :=
  match s with
  | EmptyString => Some None
  | String c s1 =>
      let sign :=
        if Ascii.eqb c "+" then Some 1
        else if Ascii.eqb c "-" then Some (-1) else None in
      match sign, digits 2 s1 0 with
      | Some sg, Some (hh, s2) =>
          match expect ":" s2 with
          | Some s3 =>
              match digits 2 s3 0 with
              | Some (mm, EmptyString) =>
                  if (hh <? 24) && (mm <? 60)
                  then Some (Some (sg * (hh * 3600 + mm * 60)))
                  else None
              | _ => None
              end
          | None => None
          end
      | _, _ => None
      end
  end.

(** [datetime.fromisoformat] on the strings [datetime.isoformat] writes:
    [YYYY-MM-DD], then optionally one separator character, a time and an
    offset. *)
Definition iso_fromisoformat (s : string) : option datetime :=
  match digits 4 s 0 with
  | None => None
  | Some (y, s1) =>
      match expect "-" s1 with
      | None => None
      | Some s2 =>
          match digits 2 s2 0 with
          | None => None
          | Some (m, s3) =>
              match expect "-" s3 with
              | None => None
              | Some s4 =>
                  match digits 2 s4 0 with
                  | None => None
                  | Some (d, s5) =>
                      if negb (valid_date y m d) then None
                      else
                        match s5 with
                        | EmptyString => Some (mk_datetime y m d 0 0 0 0 None)
                        | String _ s6 =>
                            match parse_time s6 with
                            | None => None
                            | Some (h, mi, sec, us, s7) =>
                                if negb (valid_time h mi sec) then None
                                else
                                  match parse_offset s7 with
                                  | None => None
                                  | Some tz => Some (mk_datetime y m d h mi sec us tz)
                                  end
                            end
                        end
                  end
              end
          end
      end
  end.

(** [datetime.strptime(s, "%Y%m%d")] on eight digits, the names
    [_save_feedback] writes. *)
Definition strptime_Ymd (s : string) : option datetime :=
  match digits 4 s 0 with
  | None => None
  | Some (y, s1) =>
      match digits 2 s1 0 with
      | None => None
      | Some (m, s2) =>
          match digits 2 s2 0 with
          | Some (d, EmptyString) =>
              if valid_date y m d then Some (mk_datetime y m d 0 0 0 0 None)
              else None
          | _ => None
          end
      end
  end.

(** [z] in [width] decimal digits. *)
Fixpoint zpad (width : nat) (z : Z) : string :=
  match width with
  | O => EmptyString
  | S w =>
      (zpad w (z / 10)
       ++ String (ascii_of_nat (48 + Z.to_nat (z mod 10))) EmptyString)%string
  end.

(** [date.strftime('%Y-%m-%d')]. *)
Definition strftime_Y_m_d (dt : datetime) : string :=
  (zpad 4 (year dt) ++ "-" ++ zpad 2 (month dt) ++ "-" ++ zpad 2 (day dt))%string.

(** A JSON codec for flat objects of strings: [json.dumps] with Python's
    separators, and [json.loads] on the texts it writes. *)
Definition quote : string := String "034"%char EmptyString.

Fixpoint until_quote (s : string) : option (string * string) :=
  match s with
  | EmptyString => None
  | String c s' =>
      if Ascii.eqb c "034" then Some (EmptyString, s')
      else
        match until_quote s' with
        | Some (a, b) => Some (String c a, b)
        | None => None
        end
  end.

Definition string_literal (s : string) : option (string * string) :=
  match expect "034" s with
  | Some s' => until_quote s'
  | None => None
  end.

Fixpoint members (fuel : nat) (s : string) (acc : list (string * json))
  : option json :=
  match fuel with
  | O => None
  | S fuel' =>
      match string_literal s with
      | None => None
      | Some (k, s1) =>
          match expect ":" s1 with
          | None => None
          | Some s2 =>
              match expect " " s2 with
              | None => None
              | Some s3 =>
                  match string_literal s3 with
                  | None => None
                  | Some (v, s4) =>
                      let acc' := (acc ++ [(k, JStr v)])%list in
                      if String.eqb s4 "}" then Some (JObj acc')
                      else
                        match expect "," s4 with
                        | None => None
                        | Some s5 =>
                            match expect " " s5 with
                            | None => None
                            | Some s6 => members fuel' s6 acc'
                            end
                        end
                  end
              end
          end
      end
  end.

Definition flat_loads (s : string) : option json :=
  if String.eqb s "{}" then Some (JObj [])
  else
    match expect "{" s with
    | Some s' => members (String.length s) s' []
    | None => None
    end.

Definition flat_dumps (v : json) : string :=
  match v with
  | JObj d =>
      ("{" ++ join ", "
               (map (fun kv =>
                       match snd kv with
                       | JStr x => quote ++ fst kv ++ quote ++ ": " ++ quote ++ x ++ quote
                       | _ => quote ++ fst kv ++ quote ++ ": null"
                       end) d)
           ++ "}")%string
  | JStr x => (quote ++ x ++ quote)%string
  | _ => "null"
  end.

(** A network that answers from a script, one reply per POST, and does not
    answer once the script is over. *)
Definition play (script : list http_reply) (_ : http_request)
  : http_reply * list http_reply :=
  match script with
  | [] => (NoReply, [])
  | r :: rest => (r, rest)
  end.

(** [os.path.expanduser] where [HOME] is [/Users/me] and no other user is
    known: a leading ["~"] alone or before ["/"] becomes the home
    directory. *)
Definition HOME : string := "/Users/me".

Definition home_expanduser (path : string) : string :=
  match path with
  | String c rest =>
      if Ascii.eqb c "~"%char then
        match rest with
        | EmptyString => HOME
        | String c' _ => if Ascii.eqb c' "/"%char then (HOME ++ rest)%string else path
        end
      else path
  | EmptyString => path
  end.

Definition scripted : platform :=
  mk_platform (list http_reply) play flat_loads flat_dumps iso_fromisoformat
              home_expanduser.

(** A server that holds the listing in pages of the size requested and a
    table of transcripts; it never asks for a new token. *)
Definition LISTING : string := (API_BASE ++ "/v2/get-documents")%string.
Definition TRANSCRIPT : string := (API_BASE ++ "/v1/get-document-transcript")%string.

Definition serve (pages : Z -> list json) (transcripts : json -> http_reply)
    (_ : unit) (req : http_request) : http_reply * unit :=
  if String.eqb (url req) LISTING then
    match getitem (payload req) "offset" with
    | Ok (JNum o) => (Reply 200 (Some (JObj [("docs", JArr (pages (o / 100)))])), tt)
    | _ => (Reply 400 None, tt)
    end
  else if String.eqb (url req) TRANSCRIPT then
    match getitem (payload req) "document_id" with
    | Ok id => (transcripts id, tt)
    | Raise _ => (Reply 400 None, tt)
    end
  else (Reply 404 None, tt).

Definition served (pages : Z -> list json) (transcripts : json -> http_reply)
  : platform :=
  mk_platform unit (serve pages transcripts) flat_loads flat_dumps iso_fromisoformat
              home_expanduser.

Definition blank_world {N : Type} (n : N) (f : option file) : world N :=
  mk_world n [] f true [].

End Fixtures.

(* ================================================================== *)
(** * Properties *)
(* ================================================================== *)

Import GranolaClient.
Import MeetingAnalysisRunner.

(** Unfolding the monad. *)
Ltac run :=
  unfold bind, lift, ret, raise, try_except, get_self, set_access_token,
    set_refresh_token, set_client_id, print, raise_for_status, response_json,
    loads, load_credentials_file, dump_credentials_file in *;
  simpl in *.

(* ------------------------------------------------------------------ *)
(** ** Transcript formatting *)
(* ------------------------------------------------------------------ *)

(** The line of one utterance, in the specification's words:
    ["<speaker>: <text>"]. *)
Definition spoken_line (u : utterance) : string :=
  (str_get "source" "Unknown" u ++ ": " ++ str_get "text" "" u)%string.

Lemma format_loop_lines (transcript : list utterance) :
  forall lines,
    format_loop transcript lines = (lines ++ map spoken_line transcript)%list.
Proof.
  induction transcript as [|u rest IH]; intros lines; simpl.
  - now rewrite app_nil_r.
  - rewrite IH, <- app_assoc. reflexivity.
Qed.

Definition alice_hello : utterance := [("source", "Alice"); ("text", "Hello")].
Definition bob_hi : utterance := [("source", "Bob"); ("text", "Hi")].

(** C9.  [format_transcript_text] joins with a newline the lines
    ["<speaker>: <text>"] of the utterances, one line per utterance and in
    the order of the input; the two-utterance example gives
    ["Alice: Hello\nBob: Hi"] and the empty transcript the empty string. *)
Theorem format_transcript_text_joins_lines :
  (forall transcript,
      format_transcript_text transcript
      = join newline (map spoken_line transcript))
  /\ (forall transcript lines,
         List.length (format_loop transcript lines)
         = (List.length lines + List.length transcript)%nat)
  /\ format_transcript_text [alice_hello; bob_hi]
     = ("Alice: Hello" ++ newline ++ "Bob: Hi")%string
  /\ format_transcript_text [] = "".
Proof.
  repeat split.
  - intros [|u rest]; [reflexivity|].
    unfold format_transcript_text. now rewrite format_loop_lines.
  - intros transcript lines.
    now rewrite format_loop_lines, length_app, length_map.
Qed.

(* ------------------------------------------------------------------ *)
(** ** The transcript endpoint's answer *)
(* ------------------------------------------------------------------ *)

Definition transcript_payload (document_id : json) : json :=
  JObj [("document_id", document_id)].

(** A bare empty list is returned as it is. *)
Lemma transcript_of_empty_list (P : platform) (document_id : json)
    (st st' : state (net P)) :
  _make_request P "/v1/get-document-transcript" (transcript_payload document_id)
                true st = (Ok (JArr []), st') ->
  get_document_transcript P document_id st = (Ok (JArr []), st').
Proof.
  intros H. unfold get_document_transcript, transcript_payload in *.
  unfold bind. rewrite H. reflexivity.
Qed.

(** C10.  When the transcript endpoint answers with a body that is not a
    list, [get_document_transcript] returns the empty list and raises
    nothing: the caller sees what it sees for an empty transcript. *)
Theorem transcript_not_a_list_is_empty (P : platform) (document_id : json)
    (st st' : state (net P)) (body : json) :
  _make_request P "/v1/get-document-transcript" (transcript_payload document_id)
                true st = (Ok body, st') ->
  is_list body = false ->
  get_document_transcript P document_id st = (Ok (JArr []), st').
Proof.
  intros H Hl. unfold get_document_transcript, transcript_payload in *.
  unfold bind. rewrite H. unfold ret. now rewrite Hl.
Qed.

Definition wrapped_transcript : json :=
  JObj [("utterances", JArr [JObj [("source", JStr "Alice"); ("text", JStr "Hello")]])].

Definition logged_in (P : platform) (n : net P) : state (net P) :=
  mk_state (mk_client (JStr "access-1") (JStr "refresh-1") (JStr DEFAULT_CLIENT_ID))
           (Fixtures.blank_world n None).

Definition wrapped_call : state (net Fixtures.scripted) :=
  logged_in Fixtures.scripted [Reply 200 (Some wrapped_transcript)].

Lemma transcript_not_a_list_is_empty_witness :
  get_document_transcript Fixtures.scripted (JStr "doc1") wrapped_call
  = (Ok (JArr []),
     snd (_make_request Fixtures.scripted "/v1/get-document-transcript"
            (transcript_payload (JStr "doc1")) true wrapped_call)).
Proof.
  apply (transcript_not_a_list_is_empty Fixtures.scripted (JStr "doc1")
           wrapped_call _ wrapped_transcript).
  - vm_compute. reflexivity.
  - reflexivity.
Defined.

(* ------------------------------------------------------------------ *)
(** ** The ledger *)
(* ------------------------------------------------------------------ *)

Lemma mem_In (id : string) (ids : list string) :
  mem id ids = true <-> In id ids.
Proof.
  unfold mem. rewrite existsb_exists. split.
  - intros [x [Hx He]]. apply String.eqb_eq in He. now subst.
  - intros H. exists id. split; [assumption | apply String.eqb_refl].
Qed.

Lemma mem_false_not_In (id : string) (ids : list string) :
  mem id ids = false <-> ~ In id ids.
Proof.
  rewrite <- mem_In. destruct (mem id ids); split; intros; congruence.
Qed.

Definition ledger (ids : list string) : analysis_state :=
  mk_analysis_state (Some ids).

Definition fresh_disk : disk := mk_disk None true [] [].

(** C3, as the specification words it, fails: marking an id that the ledger
    already holds writes nothing.  Here the ledger file does not even exist
    afterwards. *)
Lemma remark_writes_nothing :
  _mark_as_processed "doc3" (ledger ["doc1"; "doc2"; "doc3"]) fresh_disk
  = (Ok tt, ledger ["doc1"; "doc2"; "doc3"], fresh_disk)
  /\ state_file_writes fresh_disk = []
  /\ state_file fresh_disk = None.
Proof. repeat split. Qed.

(** C3, amended.  Marking an id the ledger already holds changes neither the
    ledger nor the disk: no duplicate and no write.  Marking a new id adds it
    after the prior members and hands the grown ledger to [_save_state],
    which, when the file can be written, records exactly one write and leaves
    the file holding the grown ledger.  A ledger without duplicates stays
    without duplicates. *)
Theorem mark_as_processed_ledger (id : string) (ids : list string) (d : disk) :
  (In id ids ->
     _mark_as_processed id (ledger ids) d = (Ok tt, ledger ids, d))
  /\ (~ In id ids ->
        _mark_as_processed id (ledger ids) d
        = (Ok tt, ledger (ids ++ [id]), _save_state (ledger (ids ++ [id])) d)
        /\ (forall x, In x (ids ++ [id]) <-> In x ids \/ x = id)
        /\ (state_file_writable d = true ->
              state_file (_save_state (ledger (ids ++ [id])) d)
              = Some (Saved (ledger (ids ++ [id])))
              /\ state_file_writes (_save_state (ledger (ids ++ [id])) d)
                 = state_file_writes d ++ [ledger (ids ++ [id])]))
  /\ (NoDup ids ->
        forall s' d', _mark_as_processed id (ledger ids) d = (Ok tt, s', d') ->
        exists ids', processed_documents s' = Some ids' /\ NoDup ids').
Proof.
  unfold _mark_as_processed, ledger; simpl.
  destruct (mem id ids) eqn:Hm; simpl.
  - apply mem_In in Hm.
    split; [reflexivity|]. split; [intros Hn; contradiction|].
    intros Hnd s' d' H. inversion H; subst. exists ids. now split.
  - apply mem_false_not_In in Hm.
    split; [intros Hin; contradiction|]. split.
    + intros _. split; [reflexivity|]. split.
      * intros x. rewrite in_app_iff. simpl. intuition.
      * intros Hw. unfold _save_state. rewrite Hw. now split.
    + intros Hnd s' d' H. inversion H; subst.
      exists (ids ++ [id]). split; [reflexivity|].
      apply NoDup_app; [assumption | repeat constructor; simpl; tauto |].
      intros x Hx [Hx'|[]]. subst. contradiction.
Qed.

Lemma mark_as_processed_ledger_witness :
  _mark_as_processed "doc3" (ledger ["doc1"; "doc2"]) fresh_disk
  = (Ok tt, ledger ["doc1"; "doc2"; "doc3"],
     mk_disk (Some (Saved (ledger ["doc1"; "doc2"; "doc3"]))) true
             [ledger ["doc1"; "doc2"; "doc3"]] [])
  /\ _mark_as_processed "doc3" (ledger ["doc1"; "doc2"; "doc3"]) fresh_disk
     = (Ok tt, ledger ["doc1"; "doc2"; "doc3"], fresh_disk).
Proof.
  split.
  - destruct (mark_as_processed_ledger "doc3" ["doc1"; "doc2"] fresh_disk)
      as [_ [Hnew _]].
    destruct Hnew as [Heq _].
    + simpl. intros [H|[H|[]]]; discriminate H.
    + exact Heq.
  - destruct (mark_as_processed_ledger "doc3" ["doc1"; "doc2"; "doc3"] fresh_disk)
      as [Hold _].
    apply Hold. simpl. auto.
Defined.

(** The ledger round trip of the specification's example. *)
Example ledger_round_trip :
  let '(_, s, d) := _mark_as_processed "doc3" (ledger ["doc1"; "doc2"]) fresh_disk in
  fst (_load_state d) = ledger ["doc1"; "doc2"; "doc3"] /\ s = fst (_load_state d).
Proof. split; reflexivity. Qed.

Lemma not_processed_sound (s : analysis_state) (meetings : list json) :
  forall kept,
    not_processed s meetings = Ok kept ->
    forall m, In m kept ->
      In m meetings
      /\ exists id, getitem m "id" = Ok id /\ _is_processed s id = false.
Proof.
  induction meetings as [|m0 rest IH]; simpl; intros kept H m Hin.
  - inversion H; subst. contradiction.
  - destruct (getitem m0 "id") as [id0|e] eqn:Hid; [|discriminate].
    destruct (not_processed s rest) as [kept0|e]; [|discriminate].
    inversion H; subst; clear H.
    destruct (_is_processed s id0) eqn:Hp; simpl in Hin.
    + destruct (IH kept0 eq_refl m Hin) as [H1 H2]. split; [now right | exact H2].
    + destruct Hin as [<-|Hin].
      * split; [now left | exists id0; now split].
      * destruct (IH kept0 eq_refl m Hin) as [H1 H2]. split; [now right | exact H2].
Qed.

Lemma is_processed_false_not_In (s : analysis_state) (x : string) (ids : list string) :
  _is_processed s (JStr x) = false ->
  processed_documents s = Some ids ->
  ~ In x ids.
Proof.
  unfold _is_processed. intros H Hs. rewrite Hs in H.
  now apply mem_false_not_In.
Qed.

(** C7.  With the new-only filter on, every meeting [fetch_meetings] returns
    was fetched in this run and carries an id that [_is_processed] rejects:
    no id of the ledger's [processed_documents] appears in the list handed to
    the analysis. *)
Theorem new_only_never_resubmits (P : platform) (fuel : nat)
    (s : analysis_state) (start_date end_date : datetime)
    (st st' : state (net P)) (meetings : list json) :
  fetch_meetings P fuel s start_date end_date true st = Some (Ok meetings, st') ->
  forall m, In m meetings ->
    exists id,
      getitem m "id" = Ok id
      /\ _is_processed s id = false
      /\ (forall x ids,
             id = JStr x -> processed_documents s = Some ids -> ~ In x ids).
Proof.
  unfold fetch_meetings. intros H m Hin.
  destruct (get_meetings_in_date_range P fuel start_date end_date _)
    as [[[fetched|e] st1]|]; try discriminate.
  destruct (not_processed s fetched) as [kept|e] eqn:Hk; try discriminate.
  inversion H; subst; clear H.
  destruct (not_processed_sound s fetched _ Hk m Hin) as [_ [id [Hid Hp]]].
  exists id. repeat split; try assumption.
  intros x ids -> Hs. eapply is_processed_false_not_In; eassumption.
Qed.

(** A small server: two meetings in January 2024, each with a transcript. *)
Definition meeting (id created_at : string) : json :=
  JObj [("id", JStr id); ("title", JStr "Weekly sync"); ("created_at", JStr created_at)].

Definition january_page (k : Z) : list json :=
  if (k =? 0)%Z
  then [meeting "doc1" "2024-01-15T10:00:00Z"; meeting "doc2" "2024-01-16T09:30:00.250Z"]
  else [].

Definition one_line_transcript (_ : json) : http_reply :=
  Reply 200 (Some (JArr [JObj [("source", JStr "Alice"); ("text", JStr "Hello")]])).

Definition january : platform := Fixtures.served january_page one_line_transcript.

Definition january_first : datetime := mk_datetime 2024 1 1 0 0 0 0 timezone_utc.
Definition january_last : datetime := mk_datetime 2024 1 31 23 59 59 0 timezone_utc.

Definition fetch_new_in_january :=
  fetch_meetings january 3 (ledger ["doc1"]) january_first january_last true
                 (logged_in january tt).

Definition fetched_new_in_january : list json :=
  match fetch_new_in_january with
  | Some (Ok meetings, _) => meetings
  | _ => []
  end.

Definition state_after_january : state (net january) :=
  match fetch_new_in_january with
  | Some (_, st) => st
  | None => logged_in january tt
  end.

Lemma new_only_never_resubmits_witness :
  fetch_new_in_january = Some (Ok fetched_new_in_january, state_after_january)
  /\ List.length fetched_new_in_january = 1%nat
  /\ forall m, In m fetched_new_in_january ->
       exists id,
         getitem m "id" = Ok id
         /\ _is_processed (ledger ["doc1"]) id = false
         /\ (forall x ids,
                id = JStr x ->
                processed_documents (ledger ["doc1"]) = Some ids -> ~ In x ids).
Proof.
  assert (E : fetch_new_in_january
              = Some (Ok fetched_new_in_january, state_after_january))
    by (vm_compute; reflexivity).
  split; [exact E|]. split; [vm_compute; reflexivity|].
  exact (new_only_never_resubmits january 3 (ledger ["doc1"]) january_first
           january_last (logged_in january tt) state_after_january
           fetched_new_in_january E).
Defined.

(* ------------------------------------------------------------------ *)
(** ** Loading the credentials *)
(* ------------------------------------------------------------------ *)

Definition empty_credentials : world (net Fixtures.scripted) :=
  Fixtures.blank_world (N := net Fixtures.scripted) [] (Some (Json (JObj []))).

(** C2, as the specification words it, fails: a credentials file holding the
    empty JSON object is loaded without an error and leaves both tokens
    absent. *)
Lemma construction_without_tokens :
  fst (__init__ Fixtures.scripted empty_credentials) = Ok tt
  /\ access_token (self (snd (__init__ Fixtures.scripted empty_credentials))) = None_
  /\ refresh_token (self (snd (__init__ Fixtures.scripted empty_credentials))) = None_.
Proof. repeat split. Qed.

Lemma dict_mem_false (k : string) (d : dict) :
  dict_mem k d = false -> dict_find k d = None.
Proof. unfold dict_mem. destruct (dict_find k d); [discriminate | reflexivity]. Qed.

Lemma dict_mem_true (k : string) (d : dict) :
  dict_mem k d = true -> exists v, dict_find k d = Some v.
Proof. unfold dict_mem. destruct (dict_find k d) as [v|]; [eauto | discriminate]. Qed.

(** C2, amended.  Construction fails with the "credentials not found" error,
    which names the expanded path, when the file is missing, and with the
    "failed to parse" error when the file is text that is not JSON, or when
    the text under [workos_tokens] is not JSON.  The two [except] clauses
    catch nothing else: a file whose bytes do not decode as text lets the
    [UnicodeDecodeError] through, and a file that may not be read the
    [PermissionError].  When construction returns successfully the file is a
    JSON object and the two tokens are what the first matching shape stores
    under [access_token] and [refresh_token], [None] for a key the shape
    lacks: the text under [workos_tokens] once parsed, else the object under
    [currentSession], else the top level when it has [access_token]; with
    none of the three keys both tokens stay [None]. *)
Theorem load_credentials_shapes (P : platform) (w : world (net P)) :
  (credentials_file w = None ->
     fst (__init__ P w) = Raise (Exception (CredentialsNotFound (CREDENTIALS_PATH P))))
  /\ (credentials_file w = Some NotJson ->
        fst (__init__ P w) = Raise (Exception FailedToParseCredentials))
  /\ (forall fields text,
        credentials_file w = Some (Json (JObj fields)) ->
        dict_find "workos_tokens" fields = Some (JStr text) ->
        json_loads P text = None ->
        fst (__init__ P w) = Raise (Exception FailedToParseCredentials))
  /\ (credentials_file w = Some NotText ->
        fst (__init__ P w) = Raise UnicodeDecodeError)
  /\ (credentials_file w = Some Unreadable ->
        fst (__init__ P w) = Raise PermissionError)
  /\ (forall st, __init__ P w = (Ok tt, st) ->
        outside st = w
        /\ exists fields,
             credentials_file w = Some (Json (JObj fields))
             /\ client_id (self st) = dict_get "client_id" (JStr DEFAULT_CLIENT_ID) fields
             /\ ((exists text tokens,
                     dict_find "workos_tokens" fields = Some (JStr text)
                     /\ json_loads P text = Some (JObj tokens)
                     /\ access_token (self st) = dict_get "access_token" None_ tokens
                     /\ refresh_token (self st) = dict_get "refresh_token" None_ tokens)
                 \/ (exists session,
                        dict_find "workos_tokens" fields = None
                        /\ dict_find "currentSession" fields = Some (JObj session)
                        /\ access_token (self st) = dict_get "access_token" None_ session
                        /\ refresh_token (self st) = dict_get "refresh_token" None_ session)
                 \/ (dict_find "workos_tokens" fields = None
                     /\ dict_find "currentSession" fields = None
                     /\ dict_mem "access_token" fields = true
                     /\ access_token (self st) = dict_get "access_token" None_ fields
                     /\ refresh_token (self st) = dict_get "refresh_token" None_ fields)
                 \/ (dict_find "workos_tokens" fields = None
                     /\ dict_find "currentSession" fields = None
                     /\ dict_find "access_token" fields = None
                     /\ access_token (self st) = None_
                     /\ refresh_token (self st) = None_))).
Proof.
  unfold __init__, _load_credentials.
  split; [|split; [|split; [|split; [|split]]]].
  - intros H. run. now rewrite H.
  - intros H. run. now rewrite H.
  - intros fields text H Hw Hl. run. rewrite H. simpl.
    unfold dict_mem. rewrite Hw. simpl. now rewrite Hl.
  - intros H. run. now rewrite H.
  - intros H. run. now rewrite H.
  - intros st. run.
    destruct (credentials_file w) as [[| | |creds]|] eqn:Hf; try discriminate.
    destruct creds as [| b | n | s | items | fields]; simpl;
      try discriminate.
    + (* a string: the [in] tests are substring tests, then an error *)
      destruct (substring_of "workos_tokens" s); simpl; [discriminate|].
      destruct (substring_of "currentSession" s); simpl; [discriminate|].
      destruct (substring_of "access_token" s); simpl; discriminate.
    + (* a list *)
      destruct (existsb _ items); simpl; [discriminate|].
      destruct (existsb _ items); simpl; [discriminate|].
      destruct (existsb _ items); simpl; discriminate.
    + (* a dict *)
      destruct (dict_mem "workos_tokens" fields) eqn:Hw; simpl.
      * destruct (dict_mem_true _ _ Hw) as [raw Hraw]. rewrite Hraw. simpl.
        destruct raw as [| | | text | |]; simpl; try discriminate.
        destruct (json_loads P text) as [tokens|] eqn:Hl; simpl; [|discriminate].
        destruct tokens as [| | | | |tokens]; simpl; try discriminate.
        intros H. inversion H; subst; clear H. simpl.
        split; [destruct w; reflexivity|].
        exists fields. repeat split. left. exists text, tokens. now repeat split.
      * apply dict_mem_false in Hw.
        destruct (dict_mem "currentSession" fields) eqn:Hs; simpl.
        -- destruct (dict_mem_true _ _ Hs) as [session Hsession]. rewrite Hsession. simpl.
           destruct session as [| | | | |session]; simpl; try discriminate.
           intros H. inversion H; subst; clear H. simpl.
           split; [destruct w; reflexivity|].
           exists fields. repeat split. right. left. exists session. now repeat split.
        -- apply dict_mem_false in Hs.
           destruct (dict_mem "access_token" fields) eqn:Ha; simpl.
           ++ intros H. inversion H; subst; clear H. simpl.
              split; [destruct w; reflexivity|].
              exists fields. repeat split. right. right. left. now repeat split.
           ++ apply dict_mem_false in Ha.
              intros H. inversion H; subst; clear H. simpl.
              split; [destruct w; reflexivity|].
              exists fields. repeat split. right. right. right. now repeat split.
Qed.

Definition nested_tokens : json :=
  JObj [("access_token", JStr "test_access_token");
        ("refresh_token", JStr "test_refresh_token")].

Definition nested_credentials : world (net Fixtures.scripted) :=
  Fixtures.blank_world (N := net Fixtures.scripted) []
    (Some (Json (JObj [("workos_tokens", JStr (Fixtures.flat_dumps nested_tokens))]))).

Definition missing_credentials : world (net Fixtures.scripted) :=
  Fixtures.blank_world (N := net Fixtures.scripted) [] None.

Definition binary_credentials : world (net Fixtures.scripted) :=
  Fixtures.blank_world (N := net Fixtures.scripted) [] (Some NotText).

Lemma load_credentials_shapes_witness :
  fst (__init__ Fixtures.scripted missing_credentials)
  = Raise (Exception
             (CredentialsNotFound
                "/Users/me/Library/Application Support/Granola/supabase.json"))
  /\ fst (__init__ Fixtures.scripted binary_credentials) = Raise UnicodeDecodeError
  /\ outside (snd (__init__ Fixtures.scripted nested_credentials)) = nested_credentials.
Proof.
  split; [|split].
  - destruct (load_credentials_shapes Fixtures.scripted missing_credentials)
      as [Hmissing _].
    apply Hmissing. reflexivity.
  - destruct (load_credentials_shapes Fixtures.scripted binary_credentials)
      as [_ [_ [_ [Hbinary _]]]].
    apply Hbinary. reflexivity.
  - destruct (load_credentials_shapes Fixtures.scripted nested_credentials)
      as [_ [_ [_ [_ [_ Hloaded]]]]].
    apply (Hloaded (snd (__init__ Fixtures.scripted nested_credentials))).
    vm_compute. reflexivity.
Defined.

(** The regression test on the nested JSON string. *)
Example test_credentials_parsing_nested_json :
  self (snd (__init__ Fixtures.scripted nested_credentials))
  = mk_client (JStr "test_access_token") (JStr "test_refresh_token")
              (JStr DEFAULT_CLIENT_ID).
Proof. vm_compute. reflexivity. Qed.

(* ------------------------------------------------------------------ *)
(** ** Requests, refresh and retry *)
(* ------------------------------------------------------------------ *)

Section Requests.

Variable P : platform.

(** The POST of [_make_request] with a given token. *)
Definition api_request (endpoint : string) (token payload : json) : http_request :=
  mk_request (API_BASE ++ endpoint)%string (Some token) payload.

(** The POST of [_refresh_access_token]. *)
Definition refresh_request (me : client) : http_request :=
  mk_request WORKOS_AUTH_URL None
    (JObj [("client_id", client_id me);
           ("grant_type", JStr "refresh_token");
           ("refresh_token", refresh_token me)]).

Definition error_status (s : Z) : bool := ((400 <=? s) && (s <? 600))%Z.

(** What a call that may not retry makes of the reply. *)
Definition outcome (reply : http_reply) : result json :=
  match reply with
  | NoReply => Raise (Exception (ApiRequestFailed ConnectionError))
  | Reply s b =>
      if error_status s then Raise (Exception (ApiRequestFailed (HTTPError s)))
      else
        match b with
        | Some v => Ok v
        | None => Raise (Exception (ApiRequestFailed InvalidJSONError))
        end
  end.

(** The state after one more POST. *)
Definition after_post (st : state (net P)) (req : http_request) (n' : net P) : state (net P) :=
  mk_state (self st)
    (mk_world n' (sent (outside st) ++ [req]) (credentials_file (outside st))
              (credentials_writable (outside st)) (stdout (outside st))).

Lemma bind_ok {A B} (c : M (net P) A) (k : A -> M (net P) B)
    (st : state (net P)) (a : A) (st1 : state (net P)) :
  c st = (Ok a, st1) -> bind c k st = k a st1.
Proof. intros H. unfold bind. now rewrite H. Qed.

Lemma bind_raise {A B} (c : M (net P) A) (k : A -> M (net P) B)
    (st : state (net P)) (e : exn) (st1 : state (net P)) :
  c st = (Raise e, st1) -> bind c k st = (Raise e, st1).
Proof. intros H. unfold bind. now rewrite H. Qed.

Lemma post_eq (st : state (net P)) (req : http_request) (reply : http_reply) (n' : net P) :
  requests_post P (network (outside st)) req = (reply, n') ->
  post req st
  = (match reply with
     | NoReply => Raise (RequestException ConnectionError)
     | Reply s b => Ok (mk_response s b)
     end, after_post st req n').
Proof.
  intros H. unfold post, after_post. rewrite H. now destruct reply.
Qed.

(** A computation is quiet when it leaves the client's fields and the
    network as they are: it may only read, write the credentials file and
    print. *)
Definition quiet {A} (c : M (net P) A) : Prop :=
  forall st r st',
    c st = (r, st') ->
    self st' = self st
    /\ network (outside st') = network (outside st)
    /\ sent (outside st') = sent (outside st).

Lemma quiet_ret {A} (a : A) : quiet (ret a).
Proof. intros st r st' H; inversion H; auto. Qed.

Lemma quiet_raise {A} (e : exn) : quiet (@raise _ A e).
Proof. intros st r st' H; inversion H; auto. Qed.

Lemma quiet_lift {A} (x : result A) : quiet (lift x).
Proof. intros st r st' H; inversion H; auto. Qed.

Lemma quiet_get_self : quiet get_self.
Proof. intros st r st' H; inversion H; auto. Qed.

Lemma quiet_print (l : line) : quiet (print l).
Proof. intros st r st' H; inversion H; auto. Qed.

Lemma quiet_load : quiet load_credentials_file.
Proof.
  intros st r st' H. unfold load_credentials_file in H.
  destruct (credentials_file (outside st)) as [[| | |v]|]; inversion H; auto.
Qed.

Lemma quiet_dump (creds : json) : quiet (dump_credentials_file creds).
Proof.
  intros st r st' H. unfold dump_credentials_file in H.
  destruct (credentials_writable (outside st)); inversion H; auto.
Qed.

Lemma quiet_loads (v : json) : quiet (loads (P := P) v).
Proof.
  intros st r st' H. unfold loads in H.
  destruct v; try (inversion H; auto; fail).
  destruct (json_loads P s); inversion H; auto.
Qed.

Lemma quiet_bind {A B} (c : M (net P) A) (k : A -> M (net P) B) :
  quiet c -> (forall a, quiet (k a)) -> quiet (bind c k).
Proof.
  intros Hc Hk st r st' H. unfold bind in H.
  destruct (c st) as [[a|e] st1] eqn:E.
  - destruct (Hc _ _ _ E) as [H1 [H2 H3]].
    destruct (Hk a _ _ _ H) as [H4 [H5 H6]].
    repeat split; congruence.
  - inversion H; subst. exact (Hc _ _ _ E).
Qed.

Lemma quiet_try {A} (body : M (net P) A) (handler : exn -> option (M (net P) A)) :
  quiet body -> (forall e h, handler e = Some h -> quiet h) ->
  quiet (try_except body handler).
Proof.
  intros Hb Hh st r st' H. unfold try_except in H.
  destruct (body st) as [[a|e] st1] eqn:E.
  - inversion H; subst. exact (Hb _ _ _ E).
  - destruct (Hb _ _ _ E) as [H1 [H2 H3]].
    destruct (handler e) as [h|] eqn:Eh.
    + destruct (Hh e h Eh _ _ _ H) as [H4 [H5 H6]]. repeat split; congruence.
    + inversion H; subst. auto.
Qed.

Lemma quiet_if {A} (b : bool) (c1 c2 : M (net P) A) :
  quiet c1 -> quiet c2 -> quiet (if b then c1 else c2).
Proof. destruct b; auto. Qed.

Ltac quiet_steps :=
  repeat first
    [ apply quiet_ret | apply quiet_raise | apply quiet_lift
    | apply quiet_get_self | apply quiet_print | apply quiet_load
    | apply quiet_dump | apply quiet_loads
    | apply quiet_if
    | apply quiet_bind; [|intros ?] ].

Lemma save_refresh_token_quiet : quiet (_save_refresh_token P).
Proof.
  unfold _save_refresh_token.
  apply quiet_try.
  - quiet_steps.
  - intros e h H. inversion H; subst. apply quiet_print.
Qed.

(** [_save_refresh_token] never raises and touches neither the client's
    fields nor the network. *)
Lemma save_refresh_token_frame (st : state (net P)) :
  exists st',
    _save_refresh_token P st = (Ok tt, st')
    /\ self st' = self st
    /\ network (outside st') = network (outside st)
    /\ sent (outside st') = sent (outside st).
Proof.
  destruct (_save_refresh_token P st) as [r st'] eqn:E.
  exists st'.
  assert (Hr : r = Ok tt).
  { revert E. unfold _save_refresh_token, try_except.
    match goal with
    | |- context [match ?body st with _ => _ end] =>
        destruct (body st) as [[[]|e] st1]
    end.
    - intros H; inversion H; reflexivity.
    - unfold print. intros H; inversion H; reflexivity. }
  subst r. split; [reflexivity|].
  exact (save_refresh_token_quiet _ _ _ E).
Qed.

(** A call that may not retry: one POST, and the reply decides. *)
Lemma make_request_no_retry (recur : string -> json -> bool -> M (net P) json)
    (endpoint : string) (payload : json) (st : state (net P))
    (reply : http_reply) (n' : net P) :
  requests_post P (network (outside st))
                (api_request endpoint (access_token (self st)) payload)
  = (reply, n') ->
  _make_request_body P recur endpoint payload false st
  = (outcome reply,
     after_post st (api_request endpoint (access_token (self st)) payload) n').
Proof.
  intros H. unfold _make_request_body, bind, get_self, try_except.
  fold (api_request endpoint (access_token (self st)) payload).
  rewrite (post_eq _ _ _ _ H).
  destruct reply as [|s b]; simpl; [reflexivity|].
  rewrite andb_false_r. unfold raise_for_status, error_status. simpl.
  destruct ((400 <=? s)%Z && (s <? 600)%Z); simpl; [reflexivity|].
  unfold response_json; simpl. destruct b; reflexivity.
Qed.

(** A refresh that succeeds: one POST to the authentication endpoint, and
    the client holds the new pair. *)
Lemma refresh_access_token_ok (st : state (net P)) (s : Z) (data : dict)
    (a' r' : json) (n' : net P) :
  truthy (refresh_token (self st)) = true ->
  requests_post P (network (outside st)) (refresh_request (self st))
  = (Reply s (Some (JObj data)), n') ->
  error_status s = false ->
  dict_find "access_token" data = Some a' ->
  dict_find "refresh_token" data = Some r' ->
  exists st',
    _refresh_access_token P st = (Ok tt, st')
    /\ self st' = mk_client a' r' (client_id (self st))
    /\ network (outside st') = n'
    /\ sent (outside st') = sent (outside st) ++ [refresh_request (self st)].
Proof.
  intros Ht Hp Hs Ha Hr.
  unfold _refresh_access_token.
  rewrite (bind_ok get_self _ st (self st) st eq_refl).
  rewrite Ht. cbn [negb].
  fold (refresh_request (self st)).
  unfold try_except.
  rewrite (bind_ok _ _ st _ _ (post_eq _ _ _ _ Hp)).
  assert (Hrs : forall x : state (net P),
             raise_for_status (mk_response s (Some (JObj data))) x = (Ok tt, x)).
  { intros x. unfold raise_for_status. simpl. fold (error_status s). now rewrite Hs. }
  rewrite (bind_ok _ _ _ _ _ (Hrs _)).
  rewrite (bind_ok _ _ _ (JObj data) _ eq_refl).
  erewrite bind_ok by (unfold lift; simpl; rewrite Ha; reflexivity).
  erewrite bind_ok by reflexivity.
  erewrite bind_ok by (unfold lift; simpl; rewrite Hr; reflexivity).
  erewrite bind_ok by reflexivity.
  match goal with
  | |- context [_save_refresh_token P ?x] =>
      destruct (save_refresh_token_frame x) as [st' [E [H1 [H2 H3]]]]
  end.
  rewrite E. exists st'. split; [reflexivity|].
  rewrite H1, H2, H3. simpl. auto.
Qed.

End Requests.

Definition listing_payload (offset : Z) : json :=
  JObj [("limit", JNum limit); ("offset", JNum offset);
        ("include_last_viewed_panel", JBool true)].

Definition no_refresh_token (script : list http_reply) : state (net Fixtures.scripted) :=
  mk_state (mk_client (JStr "stale") None_ (JStr DEFAULT_CLIENT_ID))
           (Fixtures.blank_world (N := net Fixtures.scripted) script None).

Definition new_pair : json :=
  JObj [("access_token", JStr "access-2"); ("refresh_token", JStr "refresh-2")].

Definition choices : json := JObj [("docs", JArr [])].

(** C1, as the specification words it, fails twice.  A client that holds no
    refresh token answers a 401 with an error after the first request: no
    refresh is sent and nothing is retried.  And a retry answered with the
    status 300 and a JSON body is a success, although 300 is not a 2xx
    status. *)
Lemma unauthorized_without_refresh_or_failure :
  (fst (_make_request Fixtures.scripted "/v2/get-documents" (listing_payload 0) true
          (no_refresh_token [Reply 401 None]))
   = Raise (Exception NoRefreshTokenAvailable)
   /\ sent (outside (snd (_make_request Fixtures.scripted "/v2/get-documents"
                            (listing_payload 0) true
                            (no_refresh_token [Reply 401 None]))))
      = [api_request "/v2/get-documents" (JStr "stale") (listing_payload 0)])
  /\ fst (_make_request Fixtures.scripted "/v2/get-documents" (listing_payload 0) true
            (logged_in Fixtures.scripted
               [Reply 401 None; Reply 200 (Some new_pair); Reply 300 (Some choices)]))
     = Ok choices.
Proof. repeat split. Qed.

(** C1, amended.  Let the first response of a call of [_make_request] be a
    401.  Without a refresh token the call fails after that one request: no
    refresh, no retry.  With a refresh token, and an authentication endpoint
    that answers with a status outside 4xx and 5xx and a JSON object holding
    a new pair, the client sends exactly one refresh and then exactly one
    retry of the original call with the new access token, and holds the new
    pair; the retry's reply decides the call, so a retry answered with 401,
    or any other 4xx or 5xx status, makes the call fail with an API error,
    and no third request goes to the endpoint. *)
Theorem unauthorized_refreshes_once_retries_once (P : platform)
    (endpoint : string) (payload : json) (st : state (net P))
    (b1 : option json) (n1 : net P) :
  requests_post P (network (outside st))
                (api_request endpoint (access_token (self st)) payload)
  = (Reply 401 b1, n1) ->
  (truthy (refresh_token (self st)) = false ->
     exists st',
       _make_request P endpoint payload true st
       = (Raise (Exception NoRefreshTokenAvailable), st')
       /\ sent (outside st')
          = sent (outside st)
            ++ [api_request endpoint (access_token (self st)) payload])
  /\ (truthy (refresh_token (self st)) = true ->
      forall (s2 : Z) (data : dict) (a' r' : json) (n2 n3 : net P)
             (reply3 : http_reply),
        requests_post P n1 (refresh_request (self st))
        = (Reply s2 (Some (JObj data)), n2) ->
        error_status s2 = false ->
        dict_find "access_token" data = Some a' ->
        dict_find "refresh_token" data = Some r' ->
        requests_post P n2 (api_request endpoint a' payload) = (reply3, n3) ->
        exists st',
          _make_request P endpoint payload true st = (outcome reply3, st')
          /\ sent (outside st')
             = sent (outside st)
               ++ [api_request endpoint (access_token (self st)) payload;
                   refresh_request (self st);
                   api_request endpoint a' payload]
          /\ self st' = mk_client a' r' (client_id (self st))
          /\ network (outside st') = n3
          /\ (forall s3 b3,
                 reply3 = Reply s3 b3 -> error_status s3 = true ->
                 outcome reply3 = Raise (Exception (ApiRequestFailed (HTTPError s3))))).
Proof.
  intros H1.
  assert (Hfirst :
            forall k : response -> M (net P) json,
              bind (post (api_request endpoint (access_token (self st)) payload)) k st
              = k (mk_response 401 b1)
                  (after_post P st
                     (api_request endpoint (access_token (self st)) payload) n1))
    by (intros k; apply bind_ok; apply (post_eq P _ _ _ _ H1)).
  split.
  - intros Ht.
    unfold _make_request, _make_request_body at 1.
    rewrite (bind_ok P get_self _ st (self st) st eq_refl).
    fold (api_request endpoint (access_token (self st)) payload).
    unfold try_except. rewrite Hfirst. cbn [status_code Z.eqb Pos.eqb andb].
    unfold _refresh_access_token.
    erewrite bind_raise.
    2:{ erewrite bind_ok by reflexivity. cbn [after_post self].
        rewrite Ht. reflexivity. }
    eexists. split; reflexivity.
  - intros Ht s2 data a' r' n2 n3 reply3 H2 Hs Ha Hr H3.
    unfold _make_request, _make_request_body at 1.
    rewrite (bind_ok P get_self _ st (self st) st eq_refl).
    fold (api_request endpoint (access_token (self st)) payload).
    unfold try_except. rewrite Hfirst. cbn [status_code Z.eqb Pos.eqb andb].
    set (st1 := after_post P st (api_request endpoint (access_token (self st)) payload) n1).
    destruct (refresh_access_token_ok P st1 s2 data a' r' n2)
      as [st2 [E [Hself [Hnet Hsent]]]]; try assumption.
    assert (Hreq : requests_post P (network (outside st2))
                     (api_request endpoint (access_token (self st2)) payload)
                   = (reply3, n3))
      by (rewrite Hnet, Hself; exact H3).
    rewrite (bind_ok P _ _ _ _ _ E).
    rewrite (make_request_no_retry P _ endpoint payload st2 reply3 n3 Hreq).
    exists (after_post P st2 (api_request endpoint (access_token (self st2)) payload) n3).
    split.
    + destruct (outcome reply3) as [v|e] eqn:Ho; [reflexivity|].
      destruct reply3 as [|s3 b3]; simpl in Ho.
      * inversion Ho; reflexivity.
      * destruct (error_status s3); [inversion Ho; reflexivity|].
        destruct b3; inversion Ho; reflexivity.
    + simpl. rewrite Hsent, Hself. subst st1. simpl.
      repeat rewrite <- app_assoc. simpl.
      split; [reflexivity|]. split; [reflexivity|]. split; [reflexivity|].
      intros s3 b3 -> He. simpl. now rewrite He.
Qed.

Definition twice_unauthorized : state (net Fixtures.scripted) :=
  logged_in Fixtures.scripted
    [Reply 401 None; Reply 200 (Some new_pair); Reply 401 None; Reply 200 (Some choices)].

Lemma unauthorized_refreshes_once_retries_once_witness :
  exists st',
    _make_request Fixtures.scripted "/v2/get-documents" (listing_payload 0) true
                  twice_unauthorized
    = (Raise (Exception (ApiRequestFailed (HTTPError 401))), st')
    /\ List.length (sent (outside st')) = 3%nat
    /\ network (outside st') = [Reply 200 (Some choices)].
Proof.
  destruct (unauthorized_refreshes_once_retries_once Fixtures.scripted
              "/v2/get-documents" (listing_payload 0) twice_unauthorized None
              [Reply 200 (Some new_pair); Reply 401 None; Reply 200 (Some choices)]
              eq_refl) as [_ H].
  destruct (H eq_refl 200%Z
              [("access_token", JStr "access-2"); ("refresh_token", JStr "refresh-2")]
              (JStr "access-2") (JStr "refresh-2")
              [Reply 401 None; Reply 200 (Some choices)]
              [Reply 200 (Some choices)] (Reply 401 None)
              eq_refl eq_refl eq_refl eq_refl eq_refl)
    as [st' [E [Hsent [_ [Hnet _]]]]].
  exists st'. split; [exact E|]. split; [|exact Hnet].
  rewrite Hsent. reflexivity.
Defined.

(* ------------------------------------------------------------------ *)
(** ** What a method may send *)
(* ------------------------------------------------------------------ *)

Section Traffic.

Variable P : platform.

(** Every POST of the computation satisfies [ok]. *)
Definition posts_only (ok : http_request -> Prop) {A} (c : M (net P) A) : Prop :=
  forall st r st',
    c st = (r, st') ->
    exists extra,
      sent (outside st') = sent (outside st) ++ extra /\ Forall ok extra.

Variable ok : http_request -> Prop.

Lemma posts_nothing {A} (c : M (net P) A) :
  (forall st r st', c st = (r, st') -> sent (outside st') = sent (outside st)) ->
  posts_only ok c.
Proof.
  intros H st r st' E. exists []. rewrite app_nil_r. split; [eauto | constructor].
Qed.

Lemma posts_quiet {A} (c : M (net P) A) : quiet P c -> posts_only ok c.
Proof. intros H. apply posts_nothing. intros st r st' E. now apply (H _ _ _ E). Qed.

Lemma posts_set_access_token (v : json) : posts_only ok (set_access_token v).
Proof. apply posts_nothing. intros st r st' E. inversion E; reflexivity. Qed.

Lemma posts_set_refresh_token (v : json) : posts_only ok (set_refresh_token v).
Proof. apply posts_nothing. intros st r st' E. inversion E; reflexivity. Qed.

Lemma posts_post (req : http_request) : ok req -> posts_only ok (post req).
Proof.
  intros H st r st' E. unfold post in E.
  destruct (requests_post P (network (outside st)) req) as [reply n'].
  exists [req]. split; [|repeat constructor; assumption].
  destruct reply; inversion E; reflexivity.
Qed.

Lemma posts_bind {A B} (c : M (net P) A) (k : A -> M (net P) B) :
  posts_only ok c -> (forall a, posts_only ok (k a)) -> posts_only ok (bind c k).
Proof.
  intros Hc Hk st r st' H. unfold bind in H.
  destruct (c st) as [[a|e] st1] eqn:E.
  - destruct (Hc _ _ _ E) as [x1 [H1 F1]].
    destruct (Hk a _ _ _ H) as [x2 [H2 F2]].
    exists (x1 ++ x2). split.
    + rewrite H2, H1. now rewrite app_assoc.
    + apply Forall_app. now split.
  - inversion H; subst. exact (Hc _ _ _ E).
Qed.

Lemma posts_try {A} (body : M (net P) A) (handler : exn -> option (M (net P) A)) :
  posts_only ok body -> (forall e h, handler e = Some h -> posts_only ok h) ->
  posts_only ok (try_except body handler).
Proof.
  intros Hb Hh st r st' H. unfold try_except in H.
  destruct (body st) as [[a|e] st1] eqn:E.
  - inversion H; subst. exact (Hb _ _ _ E).
  - destruct (Hb _ _ _ E) as [x1 [H1 F1]].
    destruct (handler e) as [h|] eqn:Eh.
    + destruct (Hh e h Eh _ _ _ H) as [x2 [H2 F2]].
      exists (x1 ++ x2). split.
      * rewrite H2, H1. now rewrite app_assoc.
      * apply Forall_app. now split.
    + inversion H; subst. eauto.
Qed.

Lemma posts_if {A} (b : bool) (c1 c2 : M (net P) A) :
  posts_only ok c1 -> posts_only ok c2 -> posts_only ok (if b then c1 else c2).
Proof. destruct b; auto. Qed.

Hypothesis ok_refresh : forall q, url q = WORKOS_AUTH_URL -> ok q.

Lemma posts_refresh : posts_only ok (_refresh_access_token P).
Proof.
  unfold _refresh_access_token.
  apply posts_bind; [apply posts_quiet, quiet_get_self | intros me].
  apply posts_if; [apply posts_quiet, quiet_raise|].
  apply posts_try.
  - apply posts_bind; [apply posts_post, ok_refresh; reflexivity | intros resp].
    apply posts_bind; [apply posts_quiet; unfold raise_for_status;
                       apply quiet_if; [apply quiet_raise | apply quiet_ret] | intros _].
    apply posts_bind; [apply posts_quiet; unfold response_json;
                       destruct (content resp); [apply quiet_ret | apply quiet_raise]
                      | intros data].
    apply posts_bind; [apply posts_quiet, quiet_lift | intros a].
    apply posts_bind; [apply posts_set_access_token | intros _].
    apply posts_bind; [apply posts_quiet, quiet_lift | intros r].
    apply posts_bind; [apply posts_set_refresh_token | intros _].
    apply posts_quiet, save_refresh_token_quiet.
  - intros e h H. destruct e; inversion H; subst. apply posts_quiet, quiet_raise.
Qed.

Lemma posts_make_request_body (recur : string -> json -> bool -> M (net P) json)
    (endpoint : string) (payload : json) (retry_auth : bool) :
  (forall q, url q = (API_BASE ++ endpoint)%string -> ok q) ->
  (forall p b, posts_only ok (recur endpoint p b)) ->
  posts_only ok (_make_request_body P recur endpoint payload retry_auth).
Proof.
  intros Hep Hrec. unfold _make_request_body.
  apply posts_bind; [apply posts_quiet, quiet_get_self | intros me].
  apply posts_try.
  - apply posts_bind; [apply posts_post, Hep; reflexivity | intros resp].
    apply posts_if.
    + apply posts_bind; [apply posts_refresh | intros _]. apply Hrec.
    + apply posts_bind; [apply posts_quiet; unfold raise_for_status;
                         apply quiet_if; [apply quiet_raise | apply quiet_ret] | intros _].
      apply posts_quiet; unfold response_json.
      destruct (content resp); [apply quiet_ret | apply quiet_raise].
  - intros e h H. destruct e; inversion H; subst. apply posts_quiet, quiet_raise.
Qed.

Lemma posts_make_request (endpoint : string) (payload : json) (retry_auth : bool) :
  (forall q, url q = (API_BASE ++ endpoint)%string -> ok q) ->
  posts_only ok (_make_request P endpoint payload retry_auth).
Proof.
  intros Hep. unfold _make_request.
  apply posts_make_request_body; [assumption | intros p b].
  apply posts_make_request_body; [assumption | intros p' b'].
  apply posts_quiet, quiet_raise.
Qed.

End Traffic.

(* ------------------------------------------------------------------ *)
(** ** Pagination *)
(* ------------------------------------------------------------------ *)

Definition LISTING_ENDPOINT : string := "/v2/get-documents".
Definition TRANSCRIPT_ENDPOINT : string := "/v1/get-document-transcript".

(** The POSTs to the listing endpoint among [reqs], as their payloads. *)
Definition is_listing (q : http_request) : bool :=
  String.eqb (url q) (API_BASE ++ LISTING_ENDPOINT)%string.

Definition listing_payloads (reqs : list http_request) : list json :=
  map payload (filter is_listing reqs).

Definition not_listing (q : http_request) : Prop := is_listing q = false.

(** The payloads of the pages [k], [k+1], ..., [k+n-1]. *)
Definition page_payloads (k n : nat) : list json :=
  map (fun i => listing_payload (100 * Z.of_nat i)) (seq k n).

Lemma listing_payloads_app (l1 l2 : list http_request) :
  listing_payloads (l1 ++ l2) = listing_payloads l1 ++ listing_payloads l2.
Proof. unfold listing_payloads. now rewrite filter_app, map_app. Qed.

Lemma listing_payloads_none (extra : list http_request) :
  Forall not_listing extra -> listing_payloads extra = [].
Proof.
  unfold listing_payloads.
  induction 1 as [|q extra Hq _ IH]; simpl; [reflexivity|].
  unfold not_listing in Hq. now rewrite Hq.
Qed.

Section Pagination.

Variable P : platform.

Lemma transcript_posts (document_id : json) :
  posts_only P not_listing (get_document_transcript P document_id).
Proof.
  unfold get_document_transcript.
  apply posts_bind.
  - apply posts_make_request.
    + intros q Hq. unfold not_listing, is_listing. rewrite Hq. reflexivity.
    + intros q Hq. unfold not_listing, is_listing. rewrite Hq. reflexivity.
  - intros resp. apply posts_quiet, quiet_ret.
Qed.

Lemma parse_created_at_quiet (doc : json) : quiet P (parse_created_at P doc).
Proof.
  unfold parse_created_at.
  apply quiet_bind; [apply quiet_lift | intros c].
  destruct c; try apply quiet_raise.
  destruct (fromisoformat P _); [apply quiet_ret | apply quiet_raise].
Qed.

Lemma between_quiet (a b c : datetime) : quiet P (between P a b c).
Proof.
  unfold between.
  apply quiet_bind; [apply quiet_lift | intros lo].
  destruct lo; [apply quiet_lift | apply quiet_ret].
Qed.

Lemma for_docs_posts (start_date end_date : datetime) (docs : list json) :
  forall all_meetings,
    posts_only P not_listing (for_docs P start_date end_date docs all_meetings).
Proof.
  induction docs as [|doc rest IH]; intros all_meetings; simpl.
  - apply posts_quiet, quiet_ret.
  - apply posts_bind; [apply posts_quiet, parse_created_at_quiet | intros created_at].
    apply posts_bind; [apply posts_quiet, between_quiet | intros in_range].
    destruct in_range; [|apply IH].
    apply posts_bind; [|intros all'; apply IH].
    apply posts_try.
    + apply posts_bind; [apply posts_quiet, quiet_lift | intros id].
      apply posts_bind; [apply transcript_posts | intros transcript].
      apply posts_bind; [apply posts_quiet, quiet_lift | intros doc'].
      apply posts_quiet, quiet_ret.
    + intros e h H. inversion H; subst.
      apply posts_bind; [apply posts_quiet, quiet_lift | intros title].
      apply posts_bind; [apply posts_quiet, quiet_print | intros _].
      apply posts_quiet, quiet_ret.
Qed.

(** A document the loop can place in time: [created_at] is a string that
    [fromisoformat] reads as an aware datetime. *)
Definition has_aware_date (doc : json) : Prop :=
  exists s dt off,
    getitem doc "created_at" = Ok (JStr s)
    /\ fromisoformat P (replace_char "Z"%char "+00:00" s) = Some dt
    /\ tzinfo dt = Some off.

Lemma parse_created_at_eq (doc : json) (s : string) (dt : datetime)
    (st : state (net P)) :
  getitem doc "created_at" = Ok (JStr s) ->
  fromisoformat P (replace_char "Z"%char "+00:00" s) = Some dt ->
  parse_created_at P doc st = (Ok dt, st).
Proof.
  intros H1 H2. unfold parse_created_at, bind, lift. rewrite H1, H2. reflexivity.
Qed.

Lemma between_aware (a b c : datetime) (st : state (net P)) :
  tzinfo a <> None -> tzinfo b <> None -> tzinfo c <> None ->
  exists in_range, between P a b c st = (Ok in_range, st).
Proof.
  intros Ha Hb Hc. unfold between, bind, lift, le.
  destruct (tzinfo a); [|congruence]. destruct (tzinfo b); [|congruence].
  destruct (tzinfo c); [|congruence].
  destruct (instant a z <=? instant b z0)%Z; eexists; reflexivity.
Qed.

(** Whatever the transcript fetches do, the loop over a page of such
    documents does not raise. *)
Lemma for_docs_never_raises (start_date end_date : datetime) (docs : list json) :
  tzinfo start_date <> None -> tzinfo end_date <> None ->
  Forall has_aware_date docs ->
  forall all_meetings st,
    exists all_meetings' st',
      for_docs P start_date end_date docs all_meetings st = (Ok all_meetings', st').
Proof.
  intros Hs He. induction 1 as [|doc rest Hdoc _ IH]; intros all_meetings st.
  - eexists; eexists; reflexivity.
  - destruct Hdoc as [s [dt [off [H1 [H2 H3]]]]].
    cbn [for_docs].
    rewrite (bind_ok P _ _ _ _ _ (parse_created_at_eq doc s dt st H1 H2)).
    destruct (between_aware start_date dt end_date st) as [in_range Hb];
      [assumption | congruence | assumption |].
    rewrite (bind_ok P _ _ _ _ _ Hb).
    destruct in_range; [|apply IH].
    match goal with
    | |- context [bind (try_except ?body ?handler) ?k] =>
        destruct (try_except body handler st) as [[all'|e] st1] eqn:E
    end.
    + rewrite (bind_ok P _ _ _ _ _ E). apply IH.
    + exfalso. revert E. unfold try_except.
      match goal with
      | |- context [match ?body st with _ => _ end] =>
          destruct (body st) as [[x|e'] st2]
      end; [discriminate|].
      destruct doc; try discriminate H1.
      unfold bind, lift, get, print, ret. discriminate.
Qed.

(** The listing endpoint answers every request for page [k] with the
    documents [pages k]. *)
Variable pages : nat -> list json.

Hypothesis listing :
  forall (n : net P) (token : json) (k : nat),
    fst (requests_post P n
           (api_request LISTING_ENDPOINT token (listing_payload (100 * Z.of_nat k))))
    = Reply 200 (Some (JObj [("docs", JArr (pages k))])).

Lemma get_documents_page (k : nat) (st : state (net P)) :
  exists st',
    get_documents P limit (100 * Z.of_nat k) st = (Ok (JArr (pages k)), st')
    /\ sent (outside st')
       = sent (outside st)
         ++ [api_request LISTING_ENDPOINT (access_token (self st))
                         (listing_payload (100 * Z.of_nat k))].
Proof.
  unfold get_documents. fold (listing_payload (100 * Z.of_nat k)).
  fold LISTING_ENDPOINT.
  destruct (requests_post P (network (outside st))
              (api_request LISTING_ENDPOINT (access_token (self st))
                 (listing_payload (100 * Z.of_nat k)))) as [reply n'] eqn:E.
  pose proof (listing (network (outside st)) (access_token (self st)) k) as L.
  rewrite E in L. simpl in L. subst reply.
  assert (H : _make_request P LISTING_ENDPOINT (listing_payload (100 * Z.of_nat k))
                true st
              = (Ok (JObj [("docs", JArr (pages k))]),
                 after_post P st
                   (api_request LISTING_ENDPOINT (access_token (self st))
                      (listing_payload (100 * Z.of_nat k))) n')).
  { unfold _make_request, _make_request_body at 1.
    rewrite (bind_ok P get_self _ st (self st) st eq_refl).
    fold (api_request LISTING_ENDPOINT (access_token (self st))
            (listing_payload (100 * Z.of_nat k))).
    unfold try_except.
    rewrite (bind_ok P _ _ _ _ _ (post_eq P _ _ _ _ E)).
    reflexivity. }
  rewrite (bind_ok P _ _ _ _ _ H).
  eexists. split; reflexivity.
Qed.

Variables start_date end_date : datetime.

(** Page [j] is the first page shorter than the page size. *)
Variable j : nat.
Hypothesis full_before : forall k, (k < j)%nat -> (100 <= List.length (pages k))%nat.
Hypothesis short_at : (List.length (pages j) < 100)%nat.

(** Both bounds are aware and every document up to page [j] can be placed
    in time. *)
Definition well_formed : Prop :=
  tzinfo start_date <> None /\ tzinfo end_date <> None
  /\ forall k, (k <= j)%nat -> Forall has_aware_date (pages k).

Lemma while_true_pages (fuel : nat) :
  forall (k : nat) (all_meetings : list json) (st : state (net P)),
    (k <= j)%nat -> (j - k < fuel)%nat ->
    exists r st' i,
      while_true P fuel start_date end_date (100 * Z.of_nat k) all_meetings st
      = Some (r, st')
      /\ (k <= i <= j)%nat
      /\ listing_payloads (sent (outside st'))
         = listing_payloads (sent (outside st)) ++ page_payloads k (S i - k)
      /\ (is_ok r = true -> i = j)
      /\ (well_formed -> is_ok r = true).
Proof.
  induction fuel as [|fuel IH]; intros k all_meetings st Hk Hf; [lia|].
  cbn [while_true].
  destruct (get_documents_page k st) as [st1 [E1 S1]]. rewrite E1.
  assert (L1 : listing_payloads (sent (outside st1))
               = listing_payloads (sent (outside st)) ++ page_payloads k 1).
  { rewrite S1, listing_payloads_app. reflexivity. }
  destruct (pages k) as [|d ds] eqn:Epage.
  - (* an empty page: only page [j] can be empty *)
    cbn [truthy negb]. exists (Ok all_meetings), st1, k.
    assert (k = j).
    { destruct (Nat.eq_dec k j); [assumption|].
      assert (Hlt : (k < j)%nat) by lia.
      apply full_before in Hlt. rewrite Epage in Hlt. simpl in Hlt. lia. }
    subst k. replace (S j - j)%nat with 1%nat by lia.
    repeat split; auto; try lia.
  - cbn [truthy negb].
    destruct (for_docs P start_date end_date (d :: ds) all_meetings st1)
      as [[all'|e] st2] eqn:E2.
    + destruct (for_docs_posts start_date end_date (d :: ds) all_meetings _ _ _ E2)
        as [extra [S2 F2]].
      assert (L2 : listing_payloads (sent (outside st2))
                   = listing_payloads (sent (outside st)) ++ page_payloads k 1).
      { rewrite S2, listing_payloads_app, (listing_payloads_none _ F2), app_nil_r.
        exact L1. }
      destruct (Z.of_nat (List.length (d :: ds)) <? limit)%Z eqn:Elen.
      * (* a short page: it is page [j] *)
        exists (Ok all'), st2, k.
        assert (k = j).
        { destruct (Nat.eq_dec k j); [assumption|].
          assert (Hlt : (k < j)%nat) by lia.
          apply full_before in Hlt. rewrite Epage in Hlt.
          apply Z.ltb_lt in Elen. unfold limit in Elen. lia. }
        subst k. replace (S j - j)%nat with 1%nat by lia.
        repeat split; auto; try lia.
      * (* a full page: the loop goes on with the next offset *)
        assert (Hlt : (k < j)%nat).
        { destruct (Nat.eq_dec k j) as [->|]; [|lia].
          rewrite Epage in short_at. apply Z.ltb_ge in Elen.
          unfold limit in Elen. lia. }
        replace (100 * Z.of_nat k + limit)%Z with (100 * Z.of_nat (S k))%Z
          by (unfold limit; lia).
        destruct (IH (S k) all' st2) as [r [st' [i [E [Hi [L [Hok Hwf]]]]]]];
          [lia | lia |].
        exists r, st', i. split; [exact E|]. split; [lia|].
        split; [|split; [exact Hok | exact Hwf]].
        rewrite L, L2, <- app_assoc. f_equal.
        unfold page_payloads. rewrite <- map_app. f_equal.
        replace (S i - k)%nat with (1 + (S i - S k))%nat by lia.
        rewrite seq_app. now rewrite Nat.add_1_r.
    + destruct (for_docs_posts start_date end_date (d :: ds) all_meetings _ _ _ E2)
        as [extra [S2 F2]].
      exists (Raise e), st2, k. split; [reflexivity|]. split; [lia|].
      replace (S k - k)%nat with 1%nat by lia. split; [|split].
      * rewrite S2, listing_payloads_app, (listing_payloads_none _ F2), app_nil_r.
        exact L1.
      * simpl. discriminate.
      * intros [Hs [He Hp]]. exfalso.
        specialize (Hp k Hk). rewrite Epage in Hp.
        destruct (for_docs_never_raises start_date end_date (d :: ds) Hs He Hp
                    all_meetings st1) as [a [s' E']].
        rewrite E' in E2. discriminate.
Qed.

End Pagination.

(** More fuel does not change an answer. *)
Lemma while_true_more_fuel (P : platform) (start_date end_date : datetime)
    (fuel : nat) :
  forall offset all_meetings st x,
    while_true P fuel start_date end_date offset all_meetings st = Some x ->
    while_true P (S fuel) start_date end_date offset all_meetings st = Some x.
Proof.
  induction fuel as [|fuel IH]; intros offset all_meetings st x H; [discriminate|].
  cbn [while_true] in H. cbn [while_true].
  destruct (get_documents P limit offset st) as [[documents|e] st1]; [|exact H].
  destruct (negb (truthy documents)); [exact H|].
  destruct documents; try exact H.
  destruct (for_docs P start_date end_date items all_meetings st1)
    as [[all'|e] st2]; [|exact H].
  destruct (Z.of_nat (List.length items) <? limit)%Z; [exact H|].
  apply IH. exact H.
Qed.

(** Without a short page, and with documents that can all be placed in
    time, the loop never ends: every bound is reached. *)
Lemma while_true_without_short_page (P : platform) (pages : nat -> list json)
    (start_date end_date : datetime) :
  (forall (n : net P) (token : json) (k : nat),
      fst (requests_post P n
             (api_request LISTING_ENDPOINT token (listing_payload (100 * Z.of_nat k))))
      = Reply 200 (Some (JObj [("docs", JArr (pages k))]))) ->
  (forall k, (100 <= List.length (pages k))%nat) ->
  (forall k, Forall (has_aware_date P) (pages k)) ->
  tzinfo start_date <> None -> tzinfo end_date <> None ->
  forall fuel k all_meetings st,
    while_true P fuel start_date end_date (100 * Z.of_nat k) all_meetings st = None.
Proof.
  intros Hl Hfull Hwf Hs He.
  induction fuel as [|fuel IH]; intros k all_meetings st; [reflexivity|].
  cbn [while_true].
  destruct (get_documents_page P pages Hl k st) as [st1 [E1 _]]. rewrite E1.
  pose proof (Hfull k) as Hlen.
  destruct (pages k) as [|d ds] eqn:Epage; [simpl in Hlen; lia|].
  cbn [truthy negb].
  pose proof (Hwf k) as Hk. rewrite Epage in Hk.
  destruct (for_docs_never_raises P start_date end_date (d :: ds) Hs He Hk
              all_meetings st1) as [all' [st2 E2]].
  rewrite E2.
  assert (Hge : (Z.of_nat (List.length (d :: ds)) <? limit)%Z = false)
    by (apply Z.ltb_ge; unfold limit; lia).
  rewrite Hge.
  replace (100 * Z.of_nat k + limit)%Z with (100 * Z.of_nat (S k))%Z
    by (unfold limit; lia).
  apply IH.
Qed.

Lemma normalized_is_aware (dt : datetime) :
  tzinfo (match tzinfo dt with
          | None => replace_tzinfo dt timezone_utc
          | Some _ => dt
          end) <> None.
Proof.
  destruct (tzinfo dt) eqn:E; [rewrite E | simpl]; discriminate.
Qed.


(** The server of the examples answers the listing as the theorems ask. *)
Lemma served_listing (pages : Z -> list json) (transcripts : json -> http_reply)
    (n : unit) (token : json) (k : nat) :
  fst (requests_post (Fixtures.served pages transcripts) n
         (api_request LISTING_ENDPOINT token (listing_payload (100 * Z.of_nat k))))
  = Reply 200 (Some (JObj [("docs", JArr (pages (Z.of_nat k)))])).
Proof.
  cbn [requests_post Fixtures.served]. unfold Fixtures.serve.
  replace (String.eqb (url (api_request LISTING_ENDPOINT token
                              (listing_payload (100 * Z.of_nat k))))
                      Fixtures.LISTING) with true by reflexivity.
  replace (getitem (payload (api_request LISTING_ENDPOINT token
                               (listing_payload (100 * Z.of_nat k)))) "offset")
    with (Ok (JNum (100 * Z.of_nat k))) by reflexivity.
  cbn [fst]. rewrite Z.mul_comm, Z.div_mul by discriminate. reflexivity.
Qed.

(** An archive of 102 meetings: a full page, then a page of two. *)
Definition archive_page (k : Z) : list json :=
  if (k =? 0)%Z then repeat (meeting "doc0" "2024-01-15T10:00:00Z") 100
  else if (k =? 1)%Z
       then [meeting "doc100" "2024-01-20T08:00:00Z";
             meeting "doc101" "2023-12-31T23:59:59Z"]
       else [].

Definition archive : platform := Fixtures.served archive_page one_line_transcript.


(** The same run, evaluated: two requests to the listing endpoint, at the
    offsets 0 and 100, and the 101 meetings of January. *)
Example archive_run :
  match get_meetings_in_date_range archive 5 january_first january_last
          (logged_in archive tt) with
  | Some (Ok meetings, st') =>
      List.length meetings = 101%nat
      /\ listing_payloads (sent (outside st'))
         = [listing_payload 0; listing_payload 100]
  | _ => False
  end.
Proof. vm_compute. split; reflexivity. Qed.

(* ------------------------------------------------------------------ *)
(** ** A transcript that cannot be fetched *)
(* ------------------------------------------------------------------ *)

(** The state once the warning is printed. *)
Definition warned {N : Type} (st : state N) (title : json) (e : exn) : state N :=
  snd (print (WarnTranscript title e) st).

(** The bound as [get_meetings_in_date_range] uses it. *)
Definition as_utc (dt : datetime) : datetime :=
  match tzinfo dt with
  | None => replace_tzinfo dt timezone_utc
  | Some _ => dt
  end.

(** The documents of the pages [k], [k+1], ..., [k+n-1], in order. *)
Definition listed (pages : nat -> list json) (k n : nat) : list json :=
  flat_map pages (seq k n).

(** The titles of the transcript warnings among the lines printed, in the
    order in which they were printed. *)
Definition transcript_warnings (lines : list line) : list json :=
  flat_map (fun l => match l with WarnTranscript title _ => [title] | _ => [] end)
           lines.

Lemma transcript_warnings_app (l1 l2 : list line) :
  transcript_warnings (l1 ++ l2) = transcript_warnings l1 ++ transcript_warnings l2.
Proof. unfold transcript_warnings. apply flat_map_app. Qed.

(* ------------------------------------------------------------------ *)
(** *** What a method may print *)
(* ------------------------------------------------------------------ *)

Section Printing.

Variable P : platform.

(** The computation prints nothing. *)
Definition mute {A} (c : M (net P) A) : Prop :=
  forall st r st', c st = (r, st') -> stdout (outside st') = stdout (outside st).

(** The computation prints no transcript warning. *)
Definition no_transcript_warning {A} (c : M (net P) A) : Prop :=
  forall st r st',
    c st = (r, st') ->
    exists lines,
      stdout (outside st') = stdout (outside st) ++ lines
      /\ transcript_warnings lines = [].

Lemma mute_quiet {A} (c : M (net P) A) : mute c -> no_transcript_warning c.
Proof.
  intros H st r st' E. exists []. rewrite app_nil_r. split; [eauto | reflexivity].
Qed.

Lemma mute_ret {A} (a : A) : mute (ret a).
Proof. intros st r st' H; now inversion H. Qed.

Lemma mute_raise {A} (e : exn) : mute (@raise _ A e).
Proof. intros st r st' H; now inversion H. Qed.

Lemma mute_lift {A} (x : result A) : mute (lift x).
Proof. intros st r st' H; now inversion H. Qed.

Lemma mute_get_self : mute get_self.
Proof. intros st r st' H; now inversion H. Qed.

Lemma mute_set_access_token (v : json) : mute (set_access_token v).
Proof. intros st r st' H; now inversion H. Qed.

Lemma mute_set_refresh_token (v : json) : mute (set_refresh_token v).
Proof. intros st r st' H; now inversion H. Qed.

Lemma mute_raise_for_status (resp : response) : mute (raise_for_status resp).
Proof.
  intros st r st' H. unfold raise_for_status in H.
  match type of H with (if ?b then _ else _) _ = _ => destruct b end;
    now inversion H.
Qed.

Lemma mute_response_json (resp : response) : mute (response_json resp).
Proof.
  intros st r st' H. unfold response_json in H.
  destruct (content resp); now inversion H.
Qed.

Lemma mute_post (req : http_request) : mute (post (P := P) req).
Proof.
  intros st r st' H. unfold post in H.
  destruct (requests_post P (network (outside st)) req) as [reply n'].
  destruct reply; now inversion H.
Qed.

Lemma mute_load : mute load_credentials_file.
Proof.
  intros st r st' H. unfold load_credentials_file in H.
  destruct (credentials_file (outside st)) as [[| | |v]|]; now inversion H.
Qed.

Lemma mute_dump (creds : json) : mute (dump_credentials_file creds).
Proof.
  intros st r st' H. unfold dump_credentials_file in H.
  destruct (credentials_writable (outside st)); now inversion H.
Qed.

Lemma mute_loads (v : json) : mute (loads (P := P) v).
Proof.
  intros st r st' H. unfold loads in H.
  destruct v; try (now inversion H).
  destruct (json_loads P s); now inversion H.
Qed.

Lemma mute_bind {A B} (c : M (net P) A) (k : A -> M (net P) B) :
  mute c -> (forall a, mute (k a)) -> mute (bind c k).
Proof.
  intros Hc Hk st r st' H. unfold bind in H.
  destruct (c st) as [[a|e] st1] eqn:E.
  - rewrite (Hk a _ _ _ H). exact (Hc _ _ _ E).
  - inversion H; subst. exact (Hc _ _ _ E).
Qed.

Lemma mute_if {A} (b : bool) (c1 c2 : M (net P) A) :
  mute c1 -> mute c2 -> mute (if b then c1 else c2).
Proof. destruct b; auto. Qed.

Lemma quiet_print_warning (l : line) :
  transcript_warnings [l] = [] -> no_transcript_warning (print l).
Proof.
  intros Hl st r st' H. inversion H; subst. exists [l]. split; [reflexivity | exact Hl].
Qed.

Lemma no_warning_bind {A B} (c : M (net P) A) (k : A -> M (net P) B) :
  no_transcript_warning c -> (forall a, no_transcript_warning (k a)) ->
  no_transcript_warning (bind c k).
Proof.
  intros Hc Hk st r st' H. unfold bind in H.
  destruct (c st) as [[a|e] st1] eqn:E.
  - destruct (Hc _ _ _ E) as [l1 [H1 W1]].
    destruct (Hk a _ _ _ H) as [l2 [H2 W2]].
    exists (l1 ++ l2). split.
    + rewrite H2, H1. now rewrite app_assoc.
    + now rewrite transcript_warnings_app, W1, W2.
  - inversion H; subst. exact (Hc _ _ _ E).
Qed.

Lemma no_warning_try {A} (body : M (net P) A) (handler : exn -> option (M (net P) A)) :
  no_transcript_warning body ->
  (forall e h, handler e = Some h -> no_transcript_warning h) ->
  no_transcript_warning (try_except body handler).
Proof.
  intros Hb Hh st r st' H. unfold try_except in H.
  destruct (body st) as [[a|e] st1] eqn:E.
  - inversion H; subst. exact (Hb _ _ _ E).
  - destruct (Hb _ _ _ E) as [l1 [H1 W1]].
    destruct (handler e) as [h|] eqn:Eh.
    + destruct (Hh e h Eh _ _ _ H) as [l2 [H2 W2]].
      exists (l1 ++ l2). split.
      * rewrite H2, H1. now rewrite app_assoc.
      * now rewrite transcript_warnings_app, W1, W2.
    + inversion H; subst. eauto.
Qed.

Lemma no_warning_if {A} (b : bool) (c1 c2 : M (net P) A) :
  no_transcript_warning c1 -> no_transcript_warning c2 ->
  no_transcript_warning (if b then c1 else c2).
Proof. destruct b; auto. Qed.

Ltac mute_steps :=
  repeat first
    [ apply mute_ret | apply mute_raise | apply mute_lift | apply mute_get_self
    | apply mute_set_access_token | apply mute_set_refresh_token
    | apply mute_raise_for_status | apply mute_response_json | apply mute_post
    | apply mute_load | apply mute_dump | apply mute_loads
    | apply mute_if
    | apply mute_bind; [|intros ?] ].

(** [_save_refresh_token] prints its own warning at most. *)
Lemma no_warning_save_refresh_token : no_transcript_warning (_save_refresh_token P).
Proof.
  unfold _save_refresh_token. apply no_warning_try.
  - apply mute_quiet. mute_steps.
  - intros e h H. inversion H; subst. now apply quiet_print_warning.
Qed.

Lemma no_warning_refresh : no_transcript_warning (_refresh_access_token P).
Proof.
  unfold _refresh_access_token.
  apply no_warning_bind; [apply mute_quiet, mute_get_self | intros me].
  apply no_warning_if; [apply mute_quiet, mute_raise|].
  apply no_warning_try.
  - apply no_warning_bind; [apply mute_quiet, mute_post | intros resp].
    apply no_warning_bind; [apply mute_quiet, mute_raise_for_status | intros _].
    apply no_warning_bind; [apply mute_quiet, mute_response_json | intros data].
    apply no_warning_bind; [apply mute_quiet, mute_lift | intros a].
    apply no_warning_bind; [apply mute_quiet, mute_set_access_token | intros _].
    apply no_warning_bind; [apply mute_quiet, mute_lift | intros r].
    apply no_warning_bind; [apply mute_quiet, mute_set_refresh_token | intros _].
    apply no_warning_save_refresh_token.
  - intros e h H. destruct e; inversion H; subst. apply mute_quiet, mute_raise.
Qed.

Lemma no_warning_make_request_body
    (recur : string -> json -> bool -> M (net P) json)
    (endpoint : string) (payload : json) (retry_auth : bool) :
  (forall p b, no_transcript_warning (recur endpoint p b)) ->
  no_transcript_warning (_make_request_body P recur endpoint payload retry_auth).
Proof.
  intros Hrec. unfold _make_request_body.
  apply no_warning_bind; [apply mute_quiet, mute_get_self | intros me].
  apply no_warning_try.
  - apply no_warning_bind; [apply mute_quiet, mute_post | intros resp].
    apply no_warning_if.
    + apply no_warning_bind; [apply no_warning_refresh | intros _]. apply Hrec.
    + apply mute_quiet. mute_steps.
  - intros e h H. destruct e; inversion H; subst. apply mute_quiet, mute_raise.
Qed.

Lemma no_warning_make_request (endpoint : string) (payload : json) (retry_auth : bool) :
  no_transcript_warning (_make_request P endpoint payload retry_auth).
Proof.
  unfold _make_request.
  apply no_warning_make_request_body. intros p b.
  apply no_warning_make_request_body. intros p' b'.
  apply mute_quiet, mute_raise.
Qed.

Lemma no_warning_get_document_transcript (document_id : json) :
  no_transcript_warning (get_document_transcript P document_id).
Proof.
  unfold get_document_transcript.
  apply no_warning_bind; [apply no_warning_make_request | intros response].
  apply mute_quiet, mute_ret.
Qed.

End Printing.

(* ------------------------------------------------------------------ *)
(** *** The scan, document by document *)
(* ------------------------------------------------------------------ *)

(** [start_date <= created_at <= end_date] for the creation time of [doc]. *)
Definition in_range (P : platform) (start_date end_date : datetime) (doc : json)
  : bool :=
  match getitem doc "created_at" with
  | Ok (JStr s) =>
      match fromisoformat P (replace_char "Z"%char "+00:00" s) with
      | Some created_at =>
          match le start_date created_at, le created_at end_date with
          | Ok true, Ok true => true
          | _, _ => false
          end
      | None => false
      end
  | _ => false
  end.

(** What the fetch of the transcript of [doc] comes to, when the transcript
    endpoint answers the request for the document [id] with
    [transcripts id]: the transcript, or an error.  Any answer that
    [_make_request] does not accept is an error, a 401 included, and so is
    a document without an id. *)
Definition fetched (transcripts : json -> http_reply) (doc : json) : result json :=
  match getitem doc "id" with
  | Ok id =>
      match outcome (transcripts id) with
      | Ok response => Ok (if is_list response then response else JArr [])
      | Raise e => Raise e
      end
  | Raise e => Raise e
  end.

(** The meeting the scan returns for [doc]: [doc] with its transcript when
    it is in range and the transcript is fetched, none otherwise. *)
Definition meeting_of (P : platform) (start_date end_date : datetime)
    (transcripts : json -> http_reply) (doc : json) : list json :=
  if in_range P start_date end_date doc then
    match fetched transcripts doc with
    | Ok transcript =>
        match setitem doc "transcript" transcript with
        | Ok doc' => [doc']
        | Raise _ => []
        end
    | Raise _ => []
    end
  else [].

(** The title of the warning the scan prints for [doc]: one when it is in
    range and its transcript cannot be fetched, none otherwise. *)
Definition warning_of (P : platform) (start_date end_date : datetime)
    (transcripts : json -> http_reply) (doc : json) : list json :=
  if in_range P start_date end_date doc then
    match fetched transcripts doc with
    | Ok _ => []
    | Raise _ =>
        match get doc "title" (JStr "Unknown") with
        | Ok title => [title]
        | Raise _ => []
        end
    end
  else [].

Section Isolation.

Variable P : platform.

(** A call whose reply does not lead to a refresh: the reply decides. *)
Lemma make_request_body_decided (recur : string -> json -> bool -> M (net P) json)
    (endpoint : string) (payload : json) (retry_auth : bool) (st : state (net P))
    (reply : http_reply) (n' : net P) :
  requests_post P (network (outside st))
                (api_request endpoint (access_token (self st)) payload)
  = (reply, n') ->
  match reply with
  | Reply s _ => (s =? 401)%Z && retry_auth
  | NoReply => false
  end = false ->
  _make_request_body P recur endpoint payload retry_auth st
  = (outcome reply,
     after_post P st (api_request endpoint (access_token (self st)) payload) n').
Proof.
  intros H Hc. unfold _make_request_body, bind, get_self, try_except.
  fold (api_request endpoint (access_token (self st)) payload).
  rewrite (post_eq P _ _ _ _ H).
  destruct reply as [|s b]; simpl; [reflexivity|].
  rewrite Hc. unfold raise_for_status, error_status. simpl.
  destruct ((400 <=? s)%Z && (s <? 600)%Z); simpl; [reflexivity|].
  unfold response_json; simpl. destruct b; reflexivity.
Qed.

(** When the endpoint gives the same reply whatever the token and the state
    of the network, that reply settles whether the call returns: a reply
    that [_make_request] accepts is returned at once, and any other makes
    the call raise, with or without a refresh in between. *)
Lemma make_request_settled (endpoint : string) (payload : json) (reply : http_reply) :
  (forall (n : net P) (token : json),
      fst (requests_post P n (api_request endpoint token payload)) = reply) ->
  forall (st : state (net P)),
    match outcome reply with
    | Ok v => fst (_make_request P endpoint payload true st) = Ok v
    | Raise _ => exists e, fst (_make_request P endpoint payload true st) = Raise e
    end.
Proof.
  intros Hreply st.
  destruct (requests_post P (network (outside st))
              (api_request endpoint (access_token (self st)) payload))
    as [reply1 n1] eqn:E1.
  assert (reply1 = reply)
    by (rewrite <- (Hreply (network (outside st)) (access_token (self st)));
        now rewrite E1).
  subst reply1.
  destruct (match reply with
            | Reply s _ => (s =? 401)%Z && true
            | NoReply => false
            end) eqn:Hc.
  - (* a 401: the refresh, then the retry, which is answered with 401 too *)
    destruct reply as [|s b]; [discriminate|].
    rewrite andb_true_r in Hc. apply Z.eqb_eq in Hc. subst s.
    cbn [outcome]. replace (error_status 401) with true by reflexivity.
    unfold _make_request, _make_request_body at 1.
    rewrite (bind_ok P get_self _ st (self st) st eq_refl).
    fold (api_request endpoint (access_token (self st)) payload).
    unfold try_except.
    rewrite (bind_ok P _ _ _ _ _ (post_eq P _ _ _ _ E1)).
    cbn [status_code]. replace ((401 =? 401)%Z && true) with true by reflexivity.
    set (st1 := after_post P st (api_request endpoint (access_token (self st)) payload) n1).
    destruct (_refresh_access_token P st1) as [[[]|e] st2] eqn:E2.
    + rewrite (bind_ok P _ _ _ _ _ E2).
      destruct (requests_post P (network (outside st2))
                  (api_request endpoint (access_token (self st2)) payload))
        as [reply3 n3] eqn:E3.
      assert (reply3 = Reply 401 b)
        by (rewrite <- (Hreply (network (outside st2)) (access_token (self st2)));
            now rewrite E3).
      subst reply3.
      rewrite (make_request_no_retry P _ endpoint payload st2 _ n3 E3).
      cbn [outcome]. replace (error_status 401) with true by reflexivity.
      eexists. reflexivity.
    + rewrite (bind_raise P _ _ _ _ _ E2).
      destruct e; eexists; reflexivity.
  - unfold _make_request.
    rewrite (make_request_body_decided _ endpoint payload true st reply n1 E1 Hc).
    cbn [fst]. destruct (outcome reply) as [v|e]; [reflexivity | now exists e].
Qed.

(** The transcript endpoint answers the request for a document with a reply
    that depends on the document only. *)
Variable transcripts : json -> http_reply.

Hypothesis transcript_replies :
  forall (n : net P) (token id : json),
    fst (requests_post P n
           (api_request TRANSCRIPT_ENDPOINT token (JObj [("document_id", id)])))
    = transcripts id.

(** The fetch of one transcript: the reply decides whether it returns, and
    it prints no transcript warning of its own. *)
Lemma fetch_settled (id : json) (st : state (net P)) :
  exists st1 lines,
    stdout (outside st1) = stdout (outside st) ++ lines
    /\ transcript_warnings lines = []
    /\ match outcome (transcripts id) with
       | Ok response =>
           get_document_transcript P id st
           = (Ok (if is_list response then response else JArr []), st1)
       | Raise _ => exists e, get_document_transcript P id st = (Raise e, st1)
       end.
Proof.
  destruct (get_document_transcript P id st) as [r st1] eqn:E.
  destruct (no_warning_get_document_transcript P id _ _ _ E) as [lines [Hl Hw]].
  exists st1, lines. split; [exact Hl|]. split; [exact Hw|].
  pose proof (make_request_settled TRANSCRIPT_ENDPOINT (JObj [("document_id", id)])
                (transcripts id)
                (fun n token => transcript_replies n token id) st) as Hm.
  revert E. unfold get_document_transcript. fold TRANSCRIPT_ENDPOINT.
  destruct (_make_request P TRANSCRIPT_ENDPOINT (JObj [("document_id", id)]) true st)
    as [r0 st0] eqn:Em.
  cbn [fst] in Hm.
  destruct (outcome (transcripts id)) as [response|e0].
  - subst r0. rewrite (bind_ok P _ _ _ _ _ Em). intros E.
    inversion E; subst. reflexivity.
  - destruct Hm as [e ->]. rewrite (bind_raise P _ _ _ _ _ Em). intros E.
    inversion E; subst. now exists e.
Qed.

Variables start_date end_date : datetime.
Hypothesis start_aware : tzinfo start_date <> None.
Hypothesis end_aware : tzinfo end_date <> None.

Lemma between_in_range (doc : json) (s : string) (created_at : datetime)
    (st : state (net P)) :
  getitem doc "created_at" = Ok (JStr s) ->
  fromisoformat P (replace_char "Z"%char "+00:00" s) = Some created_at ->
  tzinfo created_at <> None ->
  between P start_date created_at end_date st
  = (Ok (in_range P start_date end_date doc), st).
Proof.
  intros H1 H2 H3. unfold in_range. rewrite H1, H2.
  unfold between, bind, lift, le.
  destruct (tzinfo start_date) as [o1|]; [|congruence].
  destruct (tzinfo created_at) as [o2|]; [|congruence].
  destruct (tzinfo end_date) as [o3|]; [|congruence].
  destruct (instant start_date o1 <=? instant created_at o2)%Z; [|reflexivity].
  destruct (instant created_at o2 <=? instant end_date o3)%Z; reflexivity.
Qed.

(** The loop over one page: the meetings it adds and the warnings it
    prints are those of its documents, one after the other. *)
Lemma for_docs_isolated (docs : list json) :
  Forall (has_aware_date P) docs ->
  forall (all_meetings : list json) (st : state (net P)),
    exists st' lines,
      for_docs P start_date end_date docs all_meetings st
      = (Ok (all_meetings
             ++ flat_map (meeting_of P start_date end_date transcripts) docs), st')
      /\ stdout (outside st') = stdout (outside st) ++ lines
      /\ transcript_warnings lines
         = flat_map (warning_of P start_date end_date transcripts) docs.
Proof.
  induction 1 as [|doc rest Hdoc _ IH]; intros all_meetings st.
  - exists st, []. cbn. rewrite !app_nil_r. repeat split.
  - destruct Hdoc as [s [created_at [off [H1 [H2 H3]]]]].
    cbn [for_docs flat_map].
    rewrite (bind_ok P _ _ _ _ _ (parse_created_at_eq P doc s created_at st H1 H2)).
    rewrite (bind_ok P _ _ _ _ _
               (between_in_range doc s created_at st H1 H2
                  ltac:(rewrite H3; discriminate))).
    unfold meeting_of at 1, warning_of at 1.
    destruct (in_range P start_date end_date doc).
    + destruct doc as [| | | | |fields]; try discriminate H1.
      unfold fetched. cbn [getitem get setitem].
      destruct (dict_find "id" fields) as [id|] eqn:Hid.
      * destruct (fetch_settled id st) as [st1 [l1 [Hl1 [Hw1 Hf]]]].
        destruct (outcome (transcripts id)) as [response|e0].
        -- match goal with
           | |- context [bind (try_except ?body ?handler) ?k] =>
               assert (Hbody : try_except body handler st
                               = (Ok (all_meetings
                                      ++ [JObj (dict_set "transcript"
                                                  (if is_list response then response
                                                   else JArr []) fields)]), st1))
           end.
           { unfold try_except, bind at 1, lift at 1.
             unfold bind at 1. rewrite Hf. reflexivity. }
           rewrite (bind_ok P _ _ _ _ _ Hbody).
           destruct (IH (all_meetings
                         ++ [JObj (dict_set "transcript"
                                     (if is_list response then response else JArr [])
                                     fields)]) st1)
             as [st' [l2 [E [Hl2 Hw2]]]].
           exists st', (l1 ++ l2). rewrite E. split; [|split].
           ++ now rewrite <- app_assoc.
           ++ rewrite Hl2, Hl1. now rewrite app_assoc.
           ++ now rewrite transcript_warnings_app, Hw1, Hw2.
        -- destruct Hf as [e Hf].
           match goal with
           | |- context [bind (try_except ?body ?handler) ?k] =>
               assert (Hbody : try_except body handler st
                               = (Ok all_meetings,
                                  warned st1 (dict_get "title" (JStr "Unknown") fields) e))
           end.
           { unfold try_except, bind at 1, lift at 1.
             unfold bind at 1. rewrite Hf. reflexivity. }
           rewrite (bind_ok P _ _ _ _ _ Hbody).
           destruct (IH all_meetings
                       (warned st1 (dict_get "title" (JStr "Unknown") fields) e))
             as [st' [l2 [E [Hl2 Hw2]]]].
           exists st',
             (l1 ++ [WarnTranscript (dict_get "title" (JStr "Unknown") fields) e] ++ l2).
           rewrite E. split; [|split].
           ++ reflexivity.
           ++ rewrite Hl2. cbn [warned print snd outside stdout]. rewrite Hl1.
              now rewrite <- !app_assoc.
           ++ rewrite !transcript_warnings_app, Hw1, Hw2. reflexivity.
      * match goal with
        | |- context [bind (try_except ?body ?handler) ?k] =>
            assert (Hbody : try_except body handler st
                            = (Ok all_meetings,
                               warned st (dict_get "title" (JStr "Unknown") fields)
                                      (KeyError "id")))
        end.
        { reflexivity. }
        rewrite (bind_ok P _ _ _ _ _ Hbody).
        destruct (IH all_meetings
                    (warned st (dict_get "title" (JStr "Unknown") fields)
                            (KeyError "id")))
          as [st' [l2 [E [Hl2 Hw2]]]].
        exists st',
          ([WarnTranscript (dict_get "title" (JStr "Unknown") fields) (KeyError "id")]
           ++ l2).
        rewrite E. split; [|split].
        -- reflexivity.
        -- rewrite Hl2. cbn [warned print snd outside stdout].
           now rewrite <- !app_assoc.
        -- rewrite transcript_warnings_app, Hw2. reflexivity.
    + destruct (IH all_meetings st) as [st' [l2 [E [Hl2 Hw2]]]].
      exists st', l2. rewrite E. repeat split; assumption.
Qed.

(** The listing endpoint answers every request for page [k] with the
    documents [pages k], and page [j] is the first short one. *)
Variable pages : nat -> list json.

Hypothesis listing :
  forall (n : net P) (token : json) (k : nat),
    fst (requests_post P n
           (api_request LISTING_ENDPOINT token (listing_payload (100 * Z.of_nat k))))
    = Reply 200 (Some (JObj [("docs", JArr (pages k))])).

Lemma get_documents_mute (k : nat) (st : state (net P)) :
  exists st',
    get_documents P limit (100 * Z.of_nat k) st = (Ok (JArr (pages k)), st')
    /\ stdout (outside st') = stdout (outside st).
Proof.
  unfold get_documents. fold (listing_payload (100 * Z.of_nat k)).
  fold LISTING_ENDPOINT.
  destruct (requests_post P (network (outside st))
              (api_request LISTING_ENDPOINT (access_token (self st))
                 (listing_payload (100 * Z.of_nat k)))) as [reply n'] eqn:E.
  pose proof (listing (network (outside st)) (access_token (self st)) k) as L.
  rewrite E in L. simpl in L. subst reply.
  unfold _make_request.
  rewrite (bind_ok P _ _ _ _ _
             (make_request_body_decided _ LISTING_ENDPOINT _ true st _ n' E eq_refl)).
  eexists. split; reflexivity.
Qed.

Variable j : nat.
Hypothesis full_before : forall k, (k < j)%nat -> (100 <= List.length (pages k))%nat.
Hypothesis short_at : (List.length (pages j) < 100)%nat.
Hypothesis placed :
  forall k, (k <= j)%nat -> Forall (has_aware_date P) (pages k).

Lemma while_true_isolated (fuel : nat) :
  forall (k : nat) (all_meetings : list json) (st : state (net P)),
    (k <= j)%nat -> (j - k < fuel)%nat ->
    exists st' lines,
      while_true P fuel start_date end_date (100 * Z.of_nat k) all_meetings st
      = Some (Ok (all_meetings
                  ++ flat_map (meeting_of P start_date end_date transcripts)
                              (listed pages k (S j - k))), st')
      /\ stdout (outside st') = stdout (outside st) ++ lines
      /\ transcript_warnings lines
         = flat_map (warning_of P start_date end_date transcripts)
                    (listed pages k (S j - k)).
Proof.
  induction fuel as [|fuel IH]; intros k all_meetings st Hk Hf; [lia|].
  cbn [while_true].
  destruct (get_documents_mute k st) as [st1 [E1 S1]]. rewrite E1.
  assert (Hsplit : listed pages k (S j - k)
                   = pages k ++ listed pages (S k) (S j - S k)).
  { unfold listed. replace (S j - k)%nat with (S (S j - S k)) by lia. reflexivity. }
  destruct (for_docs_isolated (pages k) (placed k Hk) all_meetings st1)
    as [st2 [l2 [E2 [Hl2 Hw2]]]].
  destruct (pages k) as [|d ds] eqn:Epage.
  - (* an empty page: only page [j] can be empty *)
    cbn [truthy negb].
    assert (k = j).
    { destruct (Nat.eq_dec k j); [assumption|].
      assert (Hlt : (k < j)%nat) by lia.
      apply full_before in Hlt. rewrite Epage in Hlt. simpl in Hlt. lia. }
    subst k. exists st1, [].
    rewrite Hsplit. replace (S j - S j)%nat with 0%nat by lia.
    cbn. rewrite !app_nil_r. repeat split. exact S1.
  - cbn [truthy negb]. rewrite E2.
    destruct (Z.of_nat (List.length (d :: ds)) <? limit)%Z eqn:Elen.
    + (* a short page: it is page [j] *)
      assert (k = j).
      { destruct (Nat.eq_dec k j); [assumption|].
        assert (Hlt : (k < j)%nat) by lia.
        apply full_before in Hlt. rewrite Epage in Hlt.
        apply Z.ltb_lt in Elen. unfold limit in Elen. lia. }
      subst k. exists st2, l2.
      rewrite Hsplit. replace (S j - S j)%nat with 0%nat by lia.
      change (listed pages (S j) 0) with (@nil json). rewrite !app_nil_r.
      split; [reflexivity|]. split; [now rewrite Hl2, S1 | exact Hw2].
    + (* a full page: the loop goes on with the next offset *)
      assert (Hlt : (k < j)%nat).
      { destruct (Nat.eq_dec k j) as [->|]; [|lia].
        rewrite Epage in short_at. apply Z.ltb_ge in Elen.
        unfold limit in Elen. lia. }
      replace (100 * Z.of_nat k + limit)%Z with (100 * Z.of_nat (S k))%Z
        by (unfold limit; lia).
      destruct (IH (S k)
                  (all_meetings
                   ++ flat_map (meeting_of P start_date end_date transcripts) (d :: ds))
                  st2) as [st' [l3 [E3 [Hl3 Hw3]]]]; [lia | lia |].
      exists st', (l2 ++ l3). rewrite E3, Hsplit.
      rewrite !flat_map_app. split; [now rewrite <- app_assoc|]. split.
      * rewrite Hl3, Hl2, S1. now rewrite app_assoc.
      * now rewrite transcript_warnings_app, Hw2, Hw3.
Qed.

End Isolation.


(** A server that loses the transcript of ["doc1"]. *)
Definition lost_doc1 (id : json) : http_reply :=
  match id with
  | JStr s => if String.eqb s "doc1" then Reply 500 None else one_line_transcript id
  | _ => one_line_transcript id
  end.

Definition flaky : platform := Fixtures.served january_page lost_doc1.

Definition doc1 : json := meeting "doc1" "2024-01-15T10:00:00Z".
Definition doc2 : json := meeting "doc2" "2024-01-16T09:30:00.250Z".

Definition server_error : exn := Exception (ApiRequestFailed (HTTPError 500)).

(** The server of the examples answers the transcript requests as the
    theorem asks. *)
Lemma served_transcripts (pages : Z -> list json) (transcripts : json -> http_reply)
    (n : unit) (token id : json) :
  fst (requests_post (Fixtures.served pages transcripts) n
         (api_request TRANSCRIPT_ENDPOINT token (JObj [("document_id", id)])))
  = transcripts id.
Proof. reflexivity. Qed.

Definition january_documents : list json :=
  listed (fun k => january_page (Z.of_nat k)) 0 1.


(** The whole scan against that server: the meeting whose transcript is lost
    is left out, the other one is returned with its transcript, and the
    warning is the only line printed. *)
Example flaky_run :
  match get_meetings_in_date_range flaky 3 january_first january_last
          (logged_in flaky tt) with
  | Some (Ok meetings, st') =>
      map (fun m => getitem m "id") meetings = [Ok (JStr "doc2")]
      /\ stdout (outside st') = [WarnTranscript (JStr "Weekly sync") server_error]
  | _ => False
  end.
Proof. vm_compute. split; reflexivity. Qed.

(** A server that answers 401 to the request for the transcript of
    ["doc1"], and to nothing else; the refresh that follows fails, and the
    meeting is left out with a warning like any other. *)
Definition unauthorized_doc1 (id : json) : http_reply :=
  match id with
  | JStr s => if String.eqb s "doc1" then Reply 401 None else one_line_transcript id
  | _ => one_line_transcript id
  end.

Definition expired : platform := Fixtures.served january_page unauthorized_doc1.

Example expired_run :
  match get_meetings_in_date_range expired 3 january_first january_last
          (logged_in expired tt) with
  | Some (Ok meetings, st') =>
      map (fun m => getitem m "id") meetings = [Ok (JStr "doc2")]
      /\ stdout (outside st')
         = [WarnTranscript (JStr "Weekly sync")
              (Exception (FailedToRefreshAccessToken (HTTPError 404)))]
      /\ meetings
         = flat_map (meeting_of expired (as_utc january_first) (as_utc january_last)
                       unauthorized_doc1)
                    january_documents
  | _ => False
  end.
Proof. vm_compute. repeat split. Qed.

(* ------------------------------------------------------------------ *)
(** ** Creation times without a timezone *)
(* ------------------------------------------------------------------ *)

(** With a naive [created_at] the comparison with the bounds, which
    [get_meetings_in_date_range] has made aware, raises [TypeError]; nothing
    catches it, so the loop over the page ends there. *)
Lemma naive_created_at_raises (P : platform) (start_date end_date : datetime)
    (doc : json) (rest all_meetings : list json) (st : state (net P))
    (s : string) (created_at : datetime) :
  getitem doc "created_at" = Ok (JStr s) ->
  fromisoformat P (replace_char "Z"%char "+00:00" s) = Some created_at ->
  tzinfo created_at = None ->
  tzinfo start_date <> None ->
  for_docs P start_date end_date (doc :: rest) all_meetings st = (Raise TypeError, st).
Proof.
  intros Hc Hf Hn Hs. cbn [for_docs].
  rewrite (bind_ok P _ _ _ _ _ (parse_created_at_eq P doc s created_at st Hc Hf)).
  apply bind_raise. unfold between. apply bind_raise.
  unfold lift, le. rewrite Hn. destruct (tzinfo start_date); [reflexivity|congruence].
Qed.

(** A listing whose only meeting has a creation time without a timezone. *)
Definition naive_page (k : Z) : list json :=
  if (k =? 0)%Z then [meeting "doc1" "2024-01-15T10:00:00"] else [].

Definition naive_listing : platform := Fixtures.served naive_page one_line_transcript.

(** C4 fails on the code.  The meeting was created on 15 January 2024 at
    10:00, inside the bounds when read as UTC, and the scan raises
    [TypeError] instead of returning it. *)
Theorem naive_created_at_aborts_the_scan :
  option_map fst
    (get_meetings_in_date_range naive_listing 3 january_first january_last
       (logged_in naive_listing tt))
  = Some (Raise TypeError)
  /\ option_map tzinfo (Fixtures.iso_fromisoformat "2024-01-15T10:00:00") = Some None
  /\ le january_first (mk_datetime 2024 1 15 10 0 0 0 timezone_utc) = Ok true
  /\ le (mk_datetime 2024 1 15 10 0 0 0 timezone_utc) january_last = Ok true.
Proof. vm_compute. repeat split. Qed.

(** The regression test of the repository: aware creation times against
    aware bounds are compared without an error. *)
Example test_date_filtering_timezone_aware :
  match get_meetings_in_date_range january 3 january_first january_last
          (logged_in january tt) with
  | Some (Ok meetings, _) => List.length meetings = 2%nat
  | _ => False
  end.
Proof. vm_compute. reflexivity. Qed.

(* ------------------------------------------------------------------ *)
(** ** Previous feedback *)
(* ------------------------------------------------------------------ *)

(** [x] does not come before [y] in the order of the sort. *)
Definition not_before (x y : datetime * entry) : Prop := tuple_ltb x y = false.

Lemma name_ltb_lt (a b : string) :
  name_ltb a b = true <-> OrdersEx.String_as_OT.lt a b.
Proof.
  unfold name_ltb, OrdersEx.String_as_OT.lt.
  destruct (OrdersEx.String_as_OT.compare a b); split; congruence.
Qed.

Lemma name_ltb_asym (a b : string) : name_ltb a b = true -> name_ltb b a = false.
Proof.
  intros H. destruct (name_ltb b a) eqn:E; [|reflexivity].
  apply name_ltb_lt in H. apply name_ltb_lt in E.
  exfalso. apply (StrictOrder_Irreflexive a).
  exact (StrictOrder_Transitive a b a H E).
Qed.

Lemma name_not_before_trans (a b c : string) :
  name_ltb a b = false -> name_ltb b c = false -> name_ltb a c = false.
Proof.
  intros Hab Hbc. destruct (name_ltb a c) eqn:Hac; [|reflexivity].
  exfalso. apply name_ltb_lt in Hac.
  destruct (OrdersEx.String_as_OT.compare_spec a b) as [Heq|Hlt|Hgt].
  - change (a = b) in Heq. subst b. apply name_ltb_lt in Hac. congruence.
  - apply name_ltb_lt in Hlt. congruence.
  - assert (Hb : OrdersEx.String_as_OT.lt b c)
      by exact (StrictOrder_Transitive b a c Hgt Hac).
    apply name_ltb_lt in Hb. congruence.
Qed.

Lemma tuple_ltb_asym (x y : datetime * entry) :
  tuple_ltb x y = true -> not_before y x.
Proof.
  unfold not_before, tuple_ltb, naive_lt. intros H.
  apply orb_true_iff in H. apply orb_false_iff.
  destruct H as [H|H].
  - apply Z.ltb_lt in H. split; [apply Z.ltb_ge; lia|].
    apply andb_false_iff. left. apply Z.eqb_neq. lia.
  - apply andb_true_iff in H. destruct H as [He Hn]. apply Z.eqb_eq in He.
    split; [apply Z.ltb_ge; lia|].
    apply andb_false_iff. right. now apply name_ltb_asym.
Qed.

Lemma not_before_trans (x y z : datetime * entry) :
  not_before x y -> not_before y z -> not_before x z.
Proof.
  unfold not_before, tuple_ltb, naive_lt. intros Hxy Hyz.
  apply orb_false_iff in Hxy. apply orb_false_iff in Hyz.
  destruct Hxy as [Hxy Nxy]. destruct Hyz as [Hyz Nyz].
  apply Z.ltb_ge in Hxy. apply Z.ltb_ge in Hyz.
  apply orb_false_iff. split; [apply Z.ltb_ge; lia|].
  destruct (wall (fst x) =? wall (fst z))%Z eqn:Exz; [|reflexivity].
  apply Z.eqb_eq in Exz. simpl.
  assert (Exy : (wall (fst x) =? wall (fst y))%Z = true) by (apply Z.eqb_eq; lia).
  assert (Eyz : (wall (fst y) =? wall (fst z))%Z = true) by (apply Z.eqb_eq; lia).
  rewrite Exy in Nxy. rewrite Eyz in Nyz. simpl in Nxy, Nyz.
  exact (name_not_before_trans _ _ _ Nxy Nyz).
Qed.

Lemma insert_desc_In (x y : datetime * entry) (l : list (datetime * entry)) :
  In y (insert_desc x l) <-> y = x \/ In y l.
Proof.
  induction l as [|z l IH]; simpl.
  - intuition.
  - destruct (tuple_ltb x z); simpl; [rewrite IH|]; intuition.
Qed.

Lemma sort_reverse_In (y : datetime * entry) (l : list (datetime * entry)) :
  In y (sort_reverse l) <-> In y l.
Proof.
  induction l as [|x l IH]; simpl; [tauto|].
  rewrite insert_desc_In, IH. intuition.
Qed.

Lemma insert_desc_sorted (x : datetime * entry) (l : list (datetime * entry)) :
  StronglySorted not_before l -> StronglySorted not_before (insert_desc x l).
Proof.
  induction 1 as [|y l Hl IH Hy]; simpl.
  - repeat constructor.
  - destruct (tuple_ltb x y) eqn:E.
    + constructor; [exact IH|].
      apply Forall_forall. intros z Hz. apply insert_desc_In in Hz.
      destruct Hz as [->|Hz]; [now apply tuple_ltb_asym|].
      rewrite Forall_forall in Hy. now apply Hy.
    + constructor; [now constructor|].
      constructor; [exact E|].
      apply Forall_forall. intros z Hz. rewrite Forall_forall in Hy.
      exact (not_before_trans x y z E (Hy z Hz)).
Qed.

Lemma sort_reverse_sorted (l : list (datetime * entry)) :
  StronglySorted not_before (sort_reverse l).
Proof.
  induction l as [|x l IH]; simpl; [constructor | now apply insert_desc_sorted].
Qed.

Lemma firstn_In {A} (n : nat) :
  forall (l : list A) (y : A), In y (firstn n l) -> In y l.
Proof.
  induction n as [|n IH]; intros l y H; [contradiction|].
  destruct l as [|z l]; [contradiction|].
  destruct H as [H|H]; [now left | right; now apply IH].
Qed.

Lemma skipn_In {A} (n : nat) :
  forall (l : list A) (y : A), In y (skipn n l) -> In y l.
Proof.
  induction n as [|n IH]; intros l y H; [exact H|].
  destruct l as [|z l]; [contradiction|]. right. now apply IH.
Qed.

(** In a sorted list, what [l[:n]] keeps does not come before what it drops. *)
Lemma firstn_not_before (n : nat) :
  forall l, StronglySorted not_before l ->
    forall x y, In x (firstn n l) -> In y (skipn n l) -> not_before x y.
Proof.
  induction n as [|n IH]; intros l Hs x y Hx Hy; [contradiction|].
  destruct l as [|z l]; [contradiction|].
  inversion Hs as [|? ? Hl Hz]; subst. simpl in Hx, Hy.
  destruct Hx as [<-|Hx].
  - rewrite Forall_forall in Hz. apply Hz. eapply skipn_In; eassumption.
  - exact (IH l Hl x y Hx Hy).
Qed.

(** For a file date at midnight and a clock reading within the day,
    [days_ago] is the difference of the two calendar days. *)
Lemma days_between_midnight (now file_date : datetime) :
  (0 <= hour now < 24)%Z -> (0 <= minute now < 60)%Z ->
  (0 <= second now < 60)%Z -> (0 <= microsecond now < 1000000)%Z ->
  hour file_date = 0%Z -> minute file_date = 0%Z ->
  second file_date = 0%Z -> microsecond file_date = 0%Z ->
  days_between now file_date = (toordinal now - toordinal file_date)%Z.
Proof.
  intros Hh Hm Hs Hu Fh Fm Fs Fu.
  unfold days_between, wall, microseconds_per_day. rewrite Fh, Fm, Fs, Fu.
  symmetry.
  apply (Z.div_unique _ _ _
           (((hour now * 60 + minute now) * 60 + second now) * 1000000
            + microsecond now)%Z); lia.
Qed.

Section PreviousFeedback.

Variable strptime_Ymd : string -> option datetime.
Variable now : datetime.

(** The file [f], dated [d] by its name, is one to seven days old. *)
Definition in_past_week (d : datetime) (f : entry) : Prop :=
  strptime_Ymd (date_str (name f)) = Some d
  /\ (1 <= days_between now d <= 7)%Z.

Lemma scan_feedback_In (files : list entry) :
  forall acc x,
    In x (scan_feedback strptime_Ymd now files acc)
    <-> In x acc \/ (In (snd x) files /\ in_past_week (fst x) (snd x)).
Proof.
  unfold in_past_week.
  induction files as [|f rest IH]; intros acc x; simpl; [tauto|].
  destruct (strptime_Ymd (date_str (name f))) as [d|] eqn:Ed.
  - destruct ((1 <=? days_between now d)%Z && (days_between now d <=? 7)%Z) eqn:Ew.
    + rewrite IH, in_app_iff. simpl.
      apply andb_true_iff in Ew. destruct Ew as [E1 E2].
      apply Z.leb_le in E1. apply Z.leb_le in E2.
      split.
      * intros [[H|[H|[]]]|H]; [now left | | right; tauto].
        subst x. simpl. right. auto.
      * intros [H|[[H|H] [H1 H2]]]; [tauto | | tauto].
        subst f. rewrite H1 in Ed. inversion Ed; subst.
        left. right. left. now destruct x.
    + rewrite IH. split; [tauto|].
      intros [H|[[H|H] [H1 H2]]]; [tauto | | tauto].
      subst f. rewrite H1 in Ed. inversion Ed; subst.
      apply andb_false_iff in Ew.
      destruct Ew as [E|E]; apply Z.leb_gt in E; lia.
  - rewrite IH. split; [tauto|].
    intros [H|[[H|H] [H1 H2]]]; [tauto | | tauto].
    subst f. congruence.
Qed.

Variable strftime_Y_m_d : datetime -> string.

(** The block of one file, in the words of the source:
    ["[<date>]\n<text>"]. *)
Definition block_of (x : datetime * entry) : string :=
  ("[" ++ strftime_Y_m_d (fst x) ++ "]" ++ newline
   ++ match text (snd x) with Some body => body | None => "" end)%string.

Lemma blocks_all_read (l : list (datetime * entry)) :
  Forall (fun x => text (snd x) <> None) l ->
  blocks strftime_Y_m_d l = Ok (map block_of l).
Proof.
  induction 1 as [|[d f] l Hx _ IH]; simpl; [reflexivity|].
  simpl in Hx. unfold block_of. simpl.
  destruct (text f) as [body|]; [|congruence].
  rewrite IH. reflexivity.
Qed.

Lemma join_blocks_not_empty (sep : string) (x : datetime * entry)
    (l : list (datetime * entry)) :
  String.eqb (join sep (map block_of (x :: l))) "" = false.
Proof.
  simpl. destruct (map block_of l); reflexivity.
Qed.

End PreviousFeedback.

(** Four days of feedback, seen on 20 January 2024 at 09:00. *)
Definition nine_o_clock : datetime := mk_datetime 2024 1 20 9 0 0 0 None.

Definition four_days : option (list entry) :=
  Some [mk_entry "feedback_20240116.txt" (Some "four");
        mk_entry "feedback_20240119.txt" (Some "one");
        mk_entry "feedback_20240117.txt" (Some "three");
        mk_entry "feedback_20240118.txt" (Some "two")].

(** C8, as the specification words it, fails: the file dated four days ago
    is inside the week and its content is not included, because only the
    three most recent files are read. *)
Lemma fourth_day_is_left_out :
  option_map (days_between nine_o_clock)
             (Fixtures.strptime_Ymd (date_str "feedback_20240116.txt"))
  = Some 4%Z
  /\ map (fun x => name (snd x))
         (chosen Fixtures.strptime_Ymd nine_o_clock four_days)
     = ["feedback_20240119.txt"; "feedback_20240118.txt"; "feedback_20240117.txt"]
  /\ _load_previous_feedback Fixtures.strptime_Ymd Fixtures.strftime_Y_m_d
                             nine_o_clock four_days
     = (Some (join (newline ++ newline)%string
                [("[2024-01-19]" ++ newline ++ "one")%string;
                 ("[2024-01-18]" ++ newline ++ "two")%string;
                 ("[2024-01-17]" ++ newline ++ "three")%string]),
        []).
Proof. vm_compute. repeat split. Qed.

(** C8, amended.  [_load_previous_feedback] reads only files matched by
    [feedback_*.txt] whose date is one to seven days before now, so a file
    dated today or eight or more days ago is never included; it reads at
    most three of them, the most recent ones: a file of the past week that
    is not read is preceded, in the order of the sort, by three files that
    are.  What it returns is the blocks of the files read, joined by a blank
    line. *)
Theorem previous_feedback_three_most_recent
    (strptime_Ymd : string -> option datetime)
    (strftime_Y_m_d : datetime -> string)
    (now : datetime) (dir : option (list entry)) :
  (forall d f,
      In (d, f) (chosen strptime_Ymd now dir) ->
      (exists files, dir = Some files /\ In f files)
      /\ glob_feedback (name f) = true
      /\ strptime_Ymd (date_str (name f)) = Some d
      /\ (1 <= days_between now d <= 7)%Z)
  /\ (List.length (chosen strptime_Ymd now dir) <= 3)%nat
  /\ (forall files d f,
         dir = Some files -> In f files -> glob_feedback (name f) = true ->
         strptime_Ymd (date_str (name f)) = Some d ->
         (1 <= days_between now d <= 7)%Z ->
         In (d, f) (chosen strptime_Ymd now dir)
         \/ (List.length (chosen strptime_Ymd now dir) = 3%nat
             /\ forall x, In x (chosen strptime_Ymd now dir) -> not_before x (d, f)))
  /\ (chosen strptime_Ymd now dir = [] ->
      _load_previous_feedback strptime_Ymd strftime_Y_m_d now dir = (None, []))
  /\ (chosen strptime_Ymd now dir <> [] ->
      Forall (fun x => text (snd x) <> None) (chosen strptime_Ymd now dir) ->
      _load_previous_feedback strptime_Ymd strftime_Y_m_d now dir
      = (Some (join (newline ++ newline)%string
                 (map (block_of strftime_Y_m_d) (chosen strptime_Ymd now dir))),
         [])).
Proof.
  split; [|split; [|split; [|split]]].
  - intros d f H. unfold chosen in H. apply firstn_In in H.
    apply -> sort_reverse_In in H.
    destruct dir as [files|]; [|contradiction].
    apply -> (scan_feedback_In strptime_Ymd now) in H.
    destruct H as [[]|[Hin [Hp Hd]]]. simpl in Hin, Hp, Hd.
    apply filter_In in Hin. destruct Hin as [Hin Hg].
    split; [exists files; now split|]. now repeat split.
  - unfold chosen. apply firstn_le_length.
  - intros files d f -> Hin Hg Hp Hd. unfold chosen.
    set (l := sort_reverse
                (scan_feedback strptime_Ymd now
                   (filter (fun f0 => glob_feedback (name f0)) files) [])).
    assert (Hl : In (d, f) l).
    { apply sort_reverse_In. apply (scan_feedback_In strptime_Ymd now).
      right. simpl. split; [apply filter_In; now split | now split]. }
    rewrite <- (firstn_skipn 3 l) in Hl. apply in_app_iff in Hl.
    destruct Hl as [Hl|Hl]; [now left | right]. split.
    + rewrite length_firstn.
      destruct (Nat.le_gt_cases 3 (List.length l)) as [Hle|Hlt]; [lia|].
      rewrite skipn_all2 in Hl by lia. contradiction.
    + intros x Hx.
      exact (firstn_not_before 3 l (sort_reverse_sorted _) x (d, f) Hx Hl).
  - intros H. unfold _load_previous_feedback. now rewrite H.
  - intros Hne Hr. unfold _load_previous_feedback.
    destruct (chosen strptime_Ymd now dir) as [|x l] eqn:E; [congruence|].
    rewrite (blocks_all_read strftime_Y_m_d _ Hr).
    now rewrite join_blocks_not_empty.
Qed.

Definition three_days : option (list entry) :=
  Some [mk_entry "feedback_20240112.txt" (Some "eight days ago");
        mk_entry "feedback_20240119.txt" (Some "one");
        mk_entry "feedback_20240120.txt" (Some "today");
        mk_entry "feedback_20240118.txt" (Some "two")].

Lemma previous_feedback_three_most_recent_witness :
  In (mk_datetime 2024 1 19 0 0 0 0 None,
      mk_entry "feedback_20240119.txt" (Some "one"))
     (chosen Fixtures.strptime_Ymd nine_o_clock three_days)
  /\ _load_previous_feedback Fixtures.strptime_Ymd Fixtures.strftime_Y_m_d
                             nine_o_clock three_days
     = (Some (join (newline ++ newline)%string
                (map (block_of Fixtures.strftime_Y_m_d)
                     (chosen Fixtures.strptime_Ymd nine_o_clock three_days))),
        [])
  /\ map (fun x => name (snd x))
         (chosen Fixtures.strptime_Ymd nine_o_clock three_days)
     = ["feedback_20240119.txt"; "feedback_20240118.txt"].
Proof.
  destruct (previous_feedback_three_most_recent Fixtures.strptime_Ymd
              Fixtures.strftime_Y_m_d nine_o_clock three_days)
    as [_ [_ [Hweek [_ Hjoin]]]].
  split; [|split].
  - destruct (Hweek _ (mk_datetime 2024 1 19 0 0 0 0 None)
                (mk_entry "feedback_20240119.txt" (Some "one")) eq_refl)
      as [H|[Hlen _]].
    + simpl. auto.
    + reflexivity.
    + reflexivity.
    + vm_compute. split; discriminate.
    + exact H.
    + vm_compute in Hlen. discriminate Hlen.
  - apply Hjoin.
    + vm_compute. discriminate.
    + vm_compute. repeat constructor; discriminate.
  - vm_compute. reflexivity.
Defined.

(* ================================================================== *)
(** * Further properties of the client *)
(* ================================================================== *)

Section OneCall.

Variable P : platform.

(** A computation that sends nothing. *)
Definition silent {A} (c : M (net P) A) : Prop := posts_only P (fun _ => False) c.

Lemma silent_sent {A} (c : M (net P) A) (st : state (net P))
    (r : result A) (st' : state (net P)) :
  silent c -> c st = (r, st') -> sent (outside st') = sent (outside st).
Proof.
  intros H E. destruct (H _ _ _ E) as [extra [Hs Hf]].
  destruct extra as [|q extra]; [now rewrite app_nil_r in Hs|].
  inversion Hf; contradiction.
Qed.

Lemma silent_raise_for_status (resp : response) :
  silent (raise_for_status (N := net P) resp).
Proof.
  apply posts_quiet. unfold raise_for_status.
  apply quiet_if; [apply quiet_raise | apply quiet_ret].
Qed.

Lemma silent_response_json (resp : response) :
  silent (response_json (N := net P) resp).
Proof.
  apply posts_quiet. unfold response_json.
  destruct (content resp); [apply quiet_ret | apply quiet_raise].
Qed.

(** What follows the POST in [_refresh_access_token] sends nothing. *)
Lemma silent_refresh_tail (resp : response) :
  silent (raise_for_status resp ;;;
          data <- response_json resp ;;
          a <- lift (getitem data "access_token") ;;
          set_access_token a ;;;
          r <- lift (getitem data "refresh_token") ;;
          set_refresh_token r ;;;
          _save_refresh_token P).
Proof.
  apply posts_bind; [apply silent_raise_for_status | intros _].
  apply posts_bind; [apply silent_response_json | intros data].
  apply posts_bind; [apply posts_quiet, quiet_lift | intros a].
  apply posts_bind; [apply posts_set_access_token | intros _].
  apply posts_bind; [apply posts_quiet, quiet_lift | intros r].
  apply posts_bind; [apply posts_set_refresh_token | intros _].
  apply posts_quiet, save_refresh_token_quiet.
Qed.

(** [_refresh_access_token] sends its one POST, or nothing when the client
    holds no refresh token. *)
Lemma refresh_sends (st : state (net P)) (r : result unit) (st' : state (net P)) :
  _refresh_access_token P st = (r, st') ->
  (truthy (refresh_token (self st)) = false
   /\ r = Raise (Exception NoRefreshTokenAvailable) /\ st' = st)
  \/ (truthy (refresh_token (self st)) = true
      /\ sent (outside st') = sent (outside st) ++ [refresh_request (self st)]).
Proof.
  unfold _refresh_access_token.
  rewrite (bind_ok P get_self _ st (self st) st eq_refl).
  destruct (truthy (refresh_token (self st))) eqn:Ht; cbn [negb].
  - intros E. right. split; [reflexivity|].
    fold (refresh_request (self st)) in E.
    unfold try_except in E.
    destruct (requests_post P (network (outside st)) (refresh_request (self st)))
      as [reply n'] eqn:Ep.
    destruct reply as [|s b].
    + rewrite (bind_raise P _ _ _ _ _ (post_eq P _ _ _ _ Ep)) in E.
      cbv iota in E. inversion E; subst. reflexivity.
    + rewrite (bind_ok P _ _ _ _ _ (post_eq P _ _ _ _ Ep)) in E.
      match type of E with
      | (let (_, _) := ?tail ?x in _) = _ =>
          destruct (tail x) as [r1 st1] eqn:Et
      end.
      pose proof (silent_sent _ _ _ _ (silent_refresh_tail _) Et) as Hs.
      simpl in Hs.
      destruct r1 as [[]|e]; [inversion E; subst; exact Hs|].
      destruct e; inversion E; subst; exact Hs.
  - intros E. left. inversion E; subst. auto.
Qed.


(** X1.  However a call of [_make_request] goes, it sends one, two or three
    requests and never more: the call itself; then, only when the answer to
    it is a 401 and the call is allowed to retry, one refresh; then one
    retry, with the token the client holds at the end. *)
Theorem make_request_sends_at_most_three (endpoint : string) (payload : json)
    (retry_auth : bool) (st : state (net P)) :
  let r := fst (_make_request P endpoint payload retry_auth st) in
  let st' := snd (_make_request P endpoint payload retry_auth st) in
  let first := api_request endpoint (access_token (self st)) payload in
  let unauthorized :=
    exists body, fst (requests_post P (network (outside st)) first) = Reply 401 body in
  sent (outside st') = sent (outside st) ++ [first]
  \/ (retry_auth = true /\ unauthorized /\ is_ok r = false
      /\ sent (outside st') = sent (outside st) ++ [first; refresh_request (self st)])
  \/ (retry_auth = true /\ unauthorized
      /\ sent (outside st')
         = sent (outside st)
           ++ [first; refresh_request (self st);
               api_request endpoint (access_token (self st')) payload]).
Proof.
  intros r st' first unauthorized. subst r st' first unauthorized.
  destruct (_make_request P endpoint payload retry_auth st) as [r st'] eqn:E.
  cbn [fst snd]. revert E.
  unfold _make_request, _make_request_body at 1.
  rewrite (bind_ok P get_self _ st (self st) st eq_refl).
  fold (api_request endpoint (access_token (self st)) payload).
  unfold try_except.
  set (first := api_request endpoint (access_token (self st)) payload).
  destruct (requests_post P (network (outside st)) first) as [reply n1] eqn:E1.
  destruct reply as [|s b].
  - rewrite (bind_raise P _ _ _ _ _ (post_eq P _ _ _ _ E1)). cbv iota.
    intros E. inversion E; subst. left. reflexivity.
  - rewrite (bind_ok P _ _ _ _ _ (post_eq P _ _ _ _ E1)).
    cbn [status_code].
    destruct ((s =? 401)%Z && retry_auth) eqn:Ec.
    + apply andb_true_iff in Ec. destruct Ec as [Hs401 ->].
      apply Z.eqb_eq in Hs401. subst s.
      set (st1 := after_post P st first n1).
      destruct (_refresh_access_token P st1) as [r2 st2] eqn:E2.
      destruct (refresh_sends _ _ _ E2) as [[Ht [Hr Hst]]|[Ht Hs]].
      * subst r2 st2. rewrite (bind_raise P _ _ _ _ _ E2). cbv iota.
        intros E. inversion E; subst. left. reflexivity.
      * destruct r2 as [[]|e].
        -- rewrite (bind_ok P _ _ _ _ _ E2).
           destruct (requests_post P (network (outside st2))
                       (api_request endpoint (access_token (self st2)) payload))
             as [reply3 n3] eqn:E3.
           rewrite (make_request_no_retry P _ endpoint payload st2 reply3 n3 E3).
           intros E. right. right. split; [reflexivity|]. split; [now exists b|].
           assert (Hst' : st' = after_post P st2
                                  (api_request endpoint (access_token (self st2)) payload)
                                  n3).
           { destruct (outcome reply3) as [v|e] eqn:Ho; [inversion E; reflexivity|].
             destruct reply3 as [|s3 b3]; simpl in Ho.
             - inversion Ho; subst. inversion E; reflexivity.
             - destruct (error_status s3).
               + inversion Ho; subst. inversion E; reflexivity.
               + destruct b3; inversion Ho; subst. inversion E; reflexivity. }
           subst st'. cbn [after_post outside sent self].
           rewrite Hs. subst st1. cbn [after_post outside sent self].
           repeat rewrite <- app_assoc. reflexivity.
        -- rewrite (bind_raise P _ _ _ _ _ E2).
           intros E. right. left. split; [reflexivity|]. split; [now exists b|].
           assert (Hr : is_ok r = false /\ st' = st2).
           { destruct e; inversion E; subst; split; reflexivity. }
           destruct Hr as [Hr ->]. split; [exact Hr|].
           rewrite Hs. subst st1. cbn [after_post outside sent self].
           repeat rewrite <- app_assoc. reflexivity.
    + set (st1 := after_post P st first n1).
      match goal with
      | |- (let (_, _) := ?tail st1 in _) = _ -> _ =>
          destruct (tail st1) as [r1 st1'] eqn:Et;
          assert (Hq : sent (outside st1') = sent (outside st1))
            by (refine (silent_sent tail st1 r1 st1' _ Et);
                apply posts_bind; [apply silent_raise_for_status | intros _];
                apply silent_response_json)
      end.
      intros E. left.
      assert (Hst : st' = st1') by (destruct r1 as [v|e]; [|destruct e]; inversion E; reflexivity).
      subst st'. rewrite Hq. reflexivity.
Qed.


(** X2.  A first reply other than 401 decides the call at once, whether or not
    the call may retry: one POST, no refresh, and the client's fields and the
    credentials file are as before. *)
Theorem reply_other_than_401_decides (endpoint : string) (payload : json)
    (retry_auth : bool) (st : state (net P)) (reply : http_reply) (n' : net P) :
  requests_post P (network (outside st))
                (api_request endpoint (access_token (self st)) payload)
  = (reply, n') ->
  (forall b, reply <> Reply 401 b) ->
  _make_request P endpoint payload retry_auth st
  = (outcome reply,
     after_post P st (api_request endpoint (access_token (self st)) payload) n').
Proof.
  intros E1 Hne.
  unfold _make_request, _make_request_body at 1.
  rewrite (bind_ok P get_self _ st (self st) st eq_refl).
  fold (api_request endpoint (access_token (self st)) payload).
  unfold try_except.
  destruct reply as [|s b].
  - rewrite (bind_raise P _ _ _ _ _ (post_eq P _ _ _ _ E1)). reflexivity.
  - rewrite (bind_ok P _ _ _ _ _ (post_eq P _ _ _ _ E1)). cbn [status_code].
    destruct (Z.eqb_spec s 401) as [->|Hs]; [exfalso; exact (Hne b eq_refl)|].
    cbn [andb]. unfold bind, raise_for_status, outcome, error_status. cbn [status_code].
    destruct ((400 <=? s)%Z && (s <? 600)%Z); [reflexivity|].
    unfold ret, response_json. cbn [content]. destruct b; reflexivity.
Qed.

(** Why a refresh request fails, if it does. *)
Definition refresh_cause (reply : http_reply) : option request_exception :=
  match reply with
  | NoReply => Some ConnectionError
  | Reply s b =>
      if error_status s then Some (HTTPError s)
      else match b with
           | None => Some InvalidJSONError
           | Some _ => None
           end
  end.

(** X3.  A refresh whose request fails (no answer, an error status, a body that
    is not JSON) raises "failed to refresh access token" and changes nothing
    but the network: the client keeps its tokens, the credentials file is
    not touched and nothing is printed. *)
Theorem refresh_failure_keeps_tokens (st : state (net P)) (reply : http_reply)
    (n' : net P) (cause : request_exception) :
  truthy (refresh_token (self st)) = true ->
  requests_post P (network (outside st)) (refresh_request (self st)) = (reply, n') ->
  refresh_cause reply = Some cause ->
  _refresh_access_token P st
  = (Raise (Exception (FailedToRefreshAccessToken cause)),
     after_post P st (refresh_request (self st)) n').
Proof.
  intros Ht Ep Hc.
  unfold _refresh_access_token.
  rewrite (bind_ok P get_self _ st (self st) st eq_refl).
  rewrite Ht. cbn [negb]. fold (refresh_request (self st)).
  unfold try_except.
  destruct reply as [|s b]; simpl in Hc.
  - inversion Hc; subst.
    rewrite (bind_raise P _ _ _ _ _ (post_eq P _ _ _ _ Ep)). reflexivity.
  - rewrite (bind_ok P _ _ _ _ _ (post_eq P _ _ _ _ Ep)).
    unfold bind at 1, raise_for_status. cbn [status_code].
    fold (error_status s). destruct (error_status s).
    + inversion Hc; subst. reflexivity.
    + destruct b as [v|]; [discriminate|]. inversion Hc; subst. reflexivity.
Qed.

(** X4.  A refresh answer that carries [access_token] and no [refresh_token]
    raises [KeyError] half way: the client already holds the new access
    token, still holds the old refresh token, and the credentials file is
    not rewritten. *)
Theorem refresh_without_refresh_token_is_half_done (st : state (net P))
    (s : Z) (data : dict) (a' : json) (n' : net P) :
  truthy (refresh_token (self st)) = true ->
  requests_post P (network (outside st)) (refresh_request (self st))
  = (Reply s (Some (JObj data)), n') ->
  error_status s = false ->
  dict_find "access_token" data = Some a' ->
  dict_find "refresh_token" data = None ->
  _refresh_access_token P st
  = (Raise (KeyError "refresh_token"),
     mk_state (mk_client a' (refresh_token (self st)) (client_id (self st)))
              (outside (after_post P st (refresh_request (self st)) n'))).
Proof.
  intros Ht Ep Hs Ha Hr.
  unfold _refresh_access_token.
  rewrite (bind_ok P get_self _ st (self st) st eq_refl).
  rewrite Ht. cbn [negb]. fold (refresh_request (self st)).
  unfold try_except.
  rewrite (bind_ok P _ _ _ _ _ (post_eq P _ _ _ _ Ep)).
  assert (Hrs : forall x : state (net P),
             raise_for_status (mk_response s (Some (JObj data))) x = (Ok tt, x)).
  { intros x. unfold raise_for_status. simpl. fold (error_status s). now rewrite Hs. }
  rewrite (bind_ok P _ _ _ _ _ (Hrs _)).
  rewrite (bind_ok P _ _ _ (JObj data) _ eq_refl).
  erewrite bind_ok by (unfold lift; simpl; rewrite Ha; reflexivity).
  erewrite bind_ok by reflexivity.
  erewrite bind_raise by (unfold lift; simpl; rewrite Hr; reflexivity).
  reflexivity.
Qed.

End OneCall.

Definition server_down : state (net Fixtures.scripted) :=
  logged_in Fixtures.scripted [Reply 503 None; Reply 200 (Some choices)].

Lemma reply_other_than_401_decides_witness :
  _make_request Fixtures.scripted "/v2/get-documents" (listing_payload 0) true
                server_down
  = (Raise (Exception (ApiRequestFailed (HTTPError 503))),
     after_post Fixtures.scripted server_down
       (api_request "/v2/get-documents" (JStr "access-1") (listing_payload 0))
       [Reply 200 (Some choices)]).
Proof.
  apply (reply_other_than_401_decides Fixtures.scripted "/v2/get-documents"
           (listing_payload 0) true server_down (Reply 503 None)
           [Reply 200 (Some choices)]).
  - reflexivity.
  - intros b H. discriminate H.
Defined.

Lemma refresh_failure_keeps_tokens_witness :
  _refresh_access_token Fixtures.scripted server_down
  = (Raise (Exception (FailedToRefreshAccessToken (HTTPError 503))),
     after_post Fixtures.scripted server_down (refresh_request (self server_down))
       [Reply 200 (Some choices)]).
Proof.
  apply (refresh_failure_keeps_tokens Fixtures.scripted server_down (Reply 503 None)
           [Reply 200 (Some choices)] (HTTPError 503)); reflexivity.
Defined.

Definition half_answer : state (net Fixtures.scripted) :=
  logged_in Fixtures.scripted
    [Reply 200 (Some (JObj [("access_token", JStr "access-2")]))].

Lemma refresh_without_refresh_token_is_half_done_witness :
  _refresh_access_token Fixtures.scripted half_answer
  = (Raise (KeyError "refresh_token"),
     mk_state (mk_client (JStr "access-2") (JStr "refresh-1") (JStr DEFAULT_CLIENT_ID))
              (outside (after_post Fixtures.scripted half_answer
                          (refresh_request (self half_answer)) []))).
Proof.
  apply (refresh_without_refresh_token_is_half_done Fixtures.scripted half_answer
           200%Z [("access_token", JStr "access-2")] (JStr "access-2") []);
    reflexivity.
Defined.

(* ------------------------------------------------------------------ *)
(** ** Saving the tokens and reading them back *)
(* ------------------------------------------------------------------ *)

Lemma dict_find_set_same (k : string) (v : json) (d : dict) :
  dict_find k (dict_set k v d) = Some v.
Proof.
  induction d as [|[k' v'] d IH]; simpl.
  - now rewrite String.eqb_refl.
  - destruct (String.eqb k k') eqn:E; simpl; rewrite E; [reflexivity | exact IH].
Qed.

Lemma dict_find_set_other (k k' : string) (v : json) (d : dict) :
  String.eqb k k' = false ->
  dict_find k (dict_set k' v d) = dict_find k d.
Proof.
  intros Hk. induction d as [|[k0 v0] d IH]; simpl.
  - now rewrite Hk.
  - destruct (String.eqb k' k0) eqn:E; simpl.
    + apply String.eqb_eq in E. subst k0. now rewrite Hk.
    + destruct (String.eqb k k0); [reflexivity | exact IH].
Qed.

Section SaveAndLoad.

Variable P : platform.

(** The state with the credentials file rewritten. *)
Definition with_credentials (st : state (net P)) (creds : json) : state (net P) :=
  mk_state (self st)
    (mk_world (network (outside st)) (sent (outside st)) (Some (Json creds))
              (credentials_writable (outside st)) (stdout (outside st))).

(** The state with one more line printed. *)
Definition with_line (st : state (net P)) (l : line) : state (net P) :=
  mk_state (self st)
    (mk_world (network (outside st)) (sent (outside st))
              (credentials_file (outside st))
              (credentials_writable (outside st)) (stdout (outside st) ++ [l])).

(** A computation that reads only. *)
Definition reads_only {A} (c : M (net P) A) : Prop :=
  forall st r st', c st = (r, st') -> st' = st.

Lemma reads_only_bind {A B} (c : M (net P) A) (k : A -> M (net P) B) :
  reads_only c -> (forall a, reads_only (k a)) -> reads_only (bind c k).
Proof.
  intros Hc Hk st r st' E. unfold bind in E.
  destruct (c st) as [[a|e] st1] eqn:Ec.
  - rewrite (Hc _ _ _ Ec) in E. exact (Hk a _ _ _ E).
  - inversion E; subst. exact (Hc _ _ _ Ec).
Qed.

Lemma reads_only_lift {A} (x : result A) : reads_only (lift x).
Proof. intros st r st' E. now inversion E. Qed.

Lemma reads_only_loads (v : json) : reads_only (loads (P := P) v).
Proof.
  intros st r st' E. unfold loads in E.
  destruct v; try (now inversion E).
  destruct (json_loads P s); now inversion E.
Qed.

Lemma reads_only_if {A} (b : bool) (c1 c2 : M (net P) A) :
  reads_only c1 -> reads_only c2 -> reads_only (if b then c1 else c2).
Proof. destruct b; auto. Qed.

(** X5.  [_save_refresh_token] never raises.  Either it rewrites the credentials
    file and prints nothing, which takes a writable file; or it prints
    exactly one warning and leaves the file as it was.  In both cases the
    client's fields and the network are untouched. *)
Theorem save_refresh_token_writes_or_warns (st : state (net P)) :
  fst (_save_refresh_token P st) = Ok tt
  /\ ((credentials_writable (outside st) = true
       /\ exists creds, snd (_save_refresh_token P st) = with_credentials st creds)
      \/ exists e, snd (_save_refresh_token P st)
                   = with_line st (WarnSaveRefreshToken e)).
Proof.
  unfold _save_refresh_token, try_except.
  match goal with
  | |- context [match ?body st with _ => _ end] =>
      assert (Hbody : forall r st',
                 body st = (r, st') ->
                 (exists e, r = Raise e /\ st' = st)
                 \/ (r = Ok tt /\ credentials_writable (outside st) = true
                     /\ exists creds, st' = with_credentials st creds));
      [|destruct (body st) as [r st'] eqn:E;
        destruct (Hbody r st' eq_refl) as [[e [-> ->]]|[-> [Hw [creds ->]]]]]
  end.
  - intros r st' E. unfold bind at 1 in E.
    destruct (load_credentials_file st) as [[creds|e] st0] eqn:El.
    + assert (Hload : st0 = st /\ credentials_file (outside st) = Some (Json creds)).
      { unfold load_credentials_file in El.
        destruct (credentials_file (outside st)) as [[| | |v]|]; inversion El; auto. }
      destruct Hload as [-> Hfile]. unfold bind at 1, get_self in E.
      unfold bind at 1 in E.
      destruct (lift (contains "workos_tokens" creds) st) as [[has|e] st0] eqn:Ec.
      * inversion Ec; subst st0.
        unfold bind at 1 in E.
        match type of E with
        | (let (_, _) := ?prep st in _) = _ =>
            destruct (prep st) as [rp st0] eqn:Ep;
            assert (Hst0 : st0 = st)
        end.
        { revert Ep. apply reads_only_if.
          - repeat (apply reads_only_bind;
                    [first [apply reads_only_lift | apply reads_only_loads] | intros ?]).
            apply reads_only_lift.
          - apply reads_only_bind; [apply reads_only_lift | intros has_session].
            apply reads_only_if.
            + repeat (apply reads_only_bind; [apply reads_only_lift | intros ?]).
              apply reads_only_lift.
            + apply reads_only_bind; [apply reads_only_lift | intros ?].
              apply reads_only_lift. }
        subst st0. destruct rp as [creds'|e].
        -- unfold dump_credentials_file in E.
           destruct (credentials_writable (outside st)) eqn:Hw.
           ++ inversion E; subst. right. split; [reflexivity|]. split; [reflexivity|].
              exists creds'. unfold with_credentials. rewrite Hfile. now rewrite Hw.
           ++ inversion E; subst. left. eauto.
        -- inversion E; subst. left. eauto.
      * inversion Ec; subst. inversion E; subst. left. eauto.
    + assert (st0 = st).
      { unfold load_credentials_file in El.
        destruct (credentials_file (outside st)) as [[| | |v]|]; now inversion El. }
      subst st0. inversion E; subst. left. eauto.
  - unfold print. cbn [fst snd]. split; [reflexivity|]. right. exists e. reflexivity.
  - cbn [fst snd]. split; [reflexivity|]. left. split; [exact Hw|]. exists creds. reflexivity.
Qed.


Lemma dict_mem_find (k : string) (d : dict) (v : json) :
  dict_find k d = Some v -> dict_mem k d = true.
Proof. unfold dict_mem. now intros ->. Qed.

Lemma dict_mem_none (k : string) (d : dict) :
  dict_find k d = None -> dict_mem k d = false.
Proof. unfold dict_mem. now intros ->. Qed.

(** [__init__] on a file of each shape. *)
Lemma init_workos (w : world (net P)) (fields : dict) (text : string) (tokens : dict) :
  credentials_file w = Some (Json (JObj fields)) ->
  dict_find "workos_tokens" fields = Some (JStr text) ->
  json_loads P text = Some (JObj tokens) ->
  __init__ P w
  = (Ok tt,
     mk_state (mk_client (dict_get "access_token" None_ tokens)
                         (dict_get "refresh_token" None_ tokens)
                         (dict_get "client_id" (JStr DEFAULT_CLIENT_ID) fields)) w).
Proof.
  intros Hf Hw Hl. unfold __init__, _load_credentials. run.
  rewrite Hf. simpl. rewrite (dict_mem_find _ _ _ Hw). rewrite Hw. simpl.
  rewrite Hl. simpl. destruct w; reflexivity.
Qed.

Lemma init_session (w : world (net P)) (fields session : dict) :
  credentials_file w = Some (Json (JObj fields)) ->
  dict_find "workos_tokens" fields = None ->
  dict_find "currentSession" fields = Some (JObj session) ->
  __init__ P w
  = (Ok tt,
     mk_state (mk_client (dict_get "access_token" None_ session)
                         (dict_get "refresh_token" None_ session)
                         (dict_get "client_id" (JStr DEFAULT_CLIENT_ID) fields)) w).
Proof.
  intros Hf Hw Hs. unfold __init__, _load_credentials. run.
  rewrite Hf. simpl. rewrite (dict_mem_none _ _ Hw). simpl.
  rewrite (dict_mem_find _ _ _ Hs). rewrite Hs. simpl. destruct w; reflexivity.
Qed.

Lemma init_flat (w : world (net P)) (fields : dict) (a : json) :
  credentials_file w = Some (Json (JObj fields)) ->
  dict_find "workos_tokens" fields = None ->
  dict_find "currentSession" fields = None ->
  dict_find "access_token" fields = Some a ->
  __init__ P w
  = (Ok tt,
     mk_state (mk_client a (dict_get "refresh_token" None_ fields)
                         (dict_get "client_id" (JStr DEFAULT_CLIENT_ID) fields)) w).
Proof.
  intros Hf Hw Hs Ha. unfold __init__, _load_credentials. run.
  rewrite Hf. simpl. rewrite (dict_mem_none _ _ Hw). simpl.
  rewrite (dict_mem_none _ _ Hs). simpl.
  rewrite (dict_mem_find _ _ _ Ha). simpl.
  unfold dict_get at 1. rewrite Ha. destruct w; reflexivity.
Qed.

(** The tokens as [_save_refresh_token] writes them into a dict. *)
Definition with_tokens (me : client) (d : dict) : dict :=
  dict_set "refresh_token" (refresh_token me) (dict_set "access_token" (access_token me) d).

Lemma with_tokens_access (me : client) (d : dict) :
  dict_get "access_token" None_ (with_tokens me d) = access_token me.
Proof.
  unfold dict_get, with_tokens.
  rewrite dict_find_set_other by reflexivity. now rewrite dict_find_set_same.
Qed.

Lemma with_tokens_refresh (me : client) (d : dict) :
  dict_get "refresh_token" None_ (with_tokens me d) = refresh_token me.
Proof. unfold dict_get, with_tokens. now rewrite dict_find_set_same. Qed.

Lemma with_tokens_other (me : client) (d : dict) (k : string) :
  String.eqb k "access_token" = false -> String.eqb k "refresh_token" = false ->
  dict_find k (with_tokens me d) = dict_find k d.
Proof.
  intros H1 H2. unfold with_tokens.
  rewrite dict_find_set_other by exact H2. now rewrite dict_find_set_other by exact H1.
Qed.

(** [_save_refresh_token] on a writable file of each shape. *)
Lemma save_workos (st : state (net P)) (fields : dict) (text : string) (tokens : dict) :
  credentials_writable (outside st) = true ->
  credentials_file (outside st) = Some (Json (JObj fields)) ->
  dict_find "workos_tokens" fields = Some (JStr text) ->
  json_loads P text = Some (JObj tokens) ->
  _save_refresh_token P st
  = (Ok tt,
     with_credentials st
       (JObj (dict_set "workos_tokens"
                (JStr (json_dumps P (JObj (with_tokens (self st) tokens)))) fields))).
Proof.
  intros Hwr Hf Hw Hl. unfold _save_refresh_token. run.
  rewrite Hf. simpl. rewrite (dict_mem_find _ _ _ Hw). rewrite Hw. simpl.
  rewrite Hl. simpl. rewrite Hwr. unfold with_credentials. rewrite Hwr, Hf. reflexivity.
Qed.

Lemma save_session (st : state (net P)) (fields session : dict) :
  credentials_writable (outside st) = true ->
  credentials_file (outside st) = Some (Json (JObj fields)) ->
  dict_find "workos_tokens" fields = None ->
  dict_find "currentSession" fields = Some (JObj session) ->
  _save_refresh_token P st
  = (Ok tt,
     with_credentials st
       (JObj (dict_set "currentSession" (JObj (with_tokens (self st) session)) fields))).
Proof.
  intros Hwr Hf Hw Hs. unfold _save_refresh_token. run.
  rewrite Hf. simpl. rewrite (dict_mem_none _ _ Hw). simpl.
  rewrite (dict_mem_find _ _ _ Hs). rewrite Hs. simpl. rewrite Hwr.
  unfold with_credentials. rewrite Hwr, Hf. reflexivity.
Qed.

Lemma save_flat (st : state (net P)) (fields : dict) :
  credentials_writable (outside st) = true ->
  credentials_file (outside st) = Some (Json (JObj fields)) ->
  dict_find "workos_tokens" fields = None ->
  dict_find "currentSession" fields = None ->
  _save_refresh_token P st
  = (Ok tt, with_credentials st (JObj (with_tokens (self st) fields))).
Proof.
  intros Hwr Hf Hw Hs. unfold _save_refresh_token. run.
  rewrite Hf. simpl. rewrite (dict_mem_none _ _ Hw). simpl.
  rewrite (dict_mem_none _ _ Hs). simpl. rewrite Hwr.
  unfold with_credentials. rewrite Hwr, Hf. reflexivity.
Qed.

(** The credentials file has one of the three shapes, well enough formed
    for [_save_refresh_token] to rewrite it: a [workos_tokens] text that
    parses to a dict and whose rewritten form [json.loads] reads back, or a
    [currentSession] dict, or neither key. *)
Definition rewritable (me : client) (fields : dict) : Prop :=
  (exists text tokens,
      dict_find "workos_tokens" fields = Some (JStr text)
      /\ json_loads P text = Some (JObj tokens)
      /\ json_loads P (json_dumps P (JObj (with_tokens me tokens)))
         = Some (JObj (with_tokens me tokens)))
  \/ (dict_find "workos_tokens" fields = None
      /\ exists session, dict_find "currentSession" fields = Some (JObj session))
  \/ (dict_find "workos_tokens" fields = None
      /\ dict_find "currentSession" fields = None).

(** X6.  What [_save_refresh_token] writes, a later [__init__] reads back: on a
    writable file of any of the three shapes the save prints no warning, and
    a client constructed from the rewritten file holds the very tokens the
    saving client holds.  The keys of the file other than the four the
    shapes use keep their values. *)
Theorem saved_tokens_are_read_back (st : state (net P)) (fields : dict) :
  credentials_writable (outside st) = true ->
  credentials_file (outside st) = Some (Json (JObj fields)) ->
  rewritable (self st) fields ->
  exists fields' st2,
    _save_refresh_token P st = (Ok tt, with_credentials st (JObj fields'))
    /\ __init__ P (outside (with_credentials st (JObj fields'))) = (Ok tt, st2)
    /\ access_token (self st2) = access_token (self st)
    /\ refresh_token (self st2) = refresh_token (self st)
    /\ (forall k,
          String.eqb k "workos_tokens" = false ->
          String.eqb k "currentSession" = false ->
          String.eqb k "access_token" = false ->
          String.eqb k "refresh_token" = false ->
          dict_find k fields' = dict_find k fields).
Proof.
  intros Hwr Hf [[text [tokens [Hw [Hl Hrt]]]]|[[Hw [session Hs]]|[Hw Hs]]].
  - eexists; eexists. split; [exact (save_workos st fields text tokens Hwr Hf Hw Hl)|].
    split.
    + eapply init_workos
        with (text := json_dumps P (JObj (with_tokens (self st) tokens)))
             (tokens := with_tokens (self st) tokens).
      * reflexivity.
      * apply dict_find_set_same.
      * exact Hrt.
    + cbn [self access_token refresh_token].
      rewrite with_tokens_access, with_tokens_refresh.
      split; [reflexivity|]. split; [reflexivity|].
      intros k H1 _ _ _. now apply dict_find_set_other.
  - eexists; eexists. split; [exact (save_session st fields session Hwr Hf Hw Hs)|].
    split.
    + eapply init_session with (session := with_tokens (self st) session).
      * reflexivity.
      * rewrite dict_find_set_other by reflexivity. exact Hw.
      * apply dict_find_set_same.
    + cbn [self access_token refresh_token].
      rewrite with_tokens_access, with_tokens_refresh.
      split; [reflexivity|]. split; [reflexivity|].
      intros k _ H2 _ _. now apply dict_find_set_other.
  - eexists; eexists. split; [exact (save_flat st fields Hwr Hf Hw Hs)|].
    split.
    + eapply init_flat with (a := access_token (self st)).
      * reflexivity.
      * rewrite with_tokens_other by reflexivity. exact Hw.
      * rewrite with_tokens_other by reflexivity. exact Hs.
      * unfold with_tokens. rewrite dict_find_set_other by reflexivity.
        apply dict_find_set_same.
    + cbn [self access_token refresh_token].
      rewrite with_tokens_refresh.
      split; [reflexivity|]. split; [reflexivity|].
      intros k _ _ H3 H4. now apply with_tokens_other.
Qed.

End SaveAndLoad.

Definition refreshed_client : state (net Fixtures.scripted) :=
  mk_state (mk_client (JStr "access-2") (JStr "refresh-2") (JStr DEFAULT_CLIENT_ID))
           nested_credentials.

Lemma saved_tokens_are_read_back_witness :
  exists fields' st2,
    _save_refresh_token Fixtures.scripted refreshed_client
    = (Ok tt, with_credentials Fixtures.scripted refreshed_client (JObj fields'))
    /\ __init__ Fixtures.scripted
                (outside (with_credentials Fixtures.scripted refreshed_client
                            (JObj fields')))
       = (Ok tt, st2)
    /\ access_token (self st2) = JStr "access-2"
    /\ refresh_token (self st2) = JStr "refresh-2"
    /\ (forall k,
          String.eqb k "workos_tokens" = false ->
          String.eqb k "currentSession" = false ->
          String.eqb k "access_token" = false ->
          String.eqb k "refresh_token" = false ->
          dict_find k fields'
          = dict_find k [("workos_tokens", JStr (Fixtures.flat_dumps nested_tokens))]).
Proof.
  apply (saved_tokens_are_read_back Fixtures.scripted refreshed_client
           [("workos_tokens", JStr (Fixtures.flat_dumps nested_tokens))]).
  - reflexivity.
  - reflexivity.
  - left. exists (Fixtures.flat_dumps nested_tokens).
    exists [("access_token", JStr "test_access_token");
            ("refresh_token", JStr "test_refresh_token")].
    split; [reflexivity|]. split; vm_compute; reflexivity.
Defined.

(* ------------------------------------------------------------------ *)
(** ** What the scan returns *)
(* ------------------------------------------------------------------ *)

(** [m] is a document with a transcript attached: its creation time lies
    within the bounds, it has an id, and [transcript] is a list. *)
Definition in_range_meeting (P : platform) (start_date end_date : datetime)
    (m : json) : Prop :=
  exists fields s created_at transcript id,
    m = JObj (dict_set "transcript" (JArr transcript) fields)
    /\ dict_find "created_at" fields = Some (JStr s)
    /\ fromisoformat P (replace_char "Z"%char "+00:00" s) = Some created_at
    /\ le start_date created_at = Ok true
    /\ le created_at end_date = Ok true
    /\ dict_find "id" fields = Some id.

(** [meetings] are documents of [docs], in the order of [docs], each with a
    transcript attached. *)
Inductive picked_from : list json -> list json -> Prop :=
| picked_none : picked_from [] []
| picked_skip (doc : json) (docs meetings : list json) :
    picked_from docs meetings -> picked_from (doc :: docs) meetings
| picked_take (doc transcript m : json) (docs meetings : list json) :
    setitem doc "transcript" transcript = Ok m ->
    picked_from docs meetings -> picked_from (doc :: docs) (m :: meetings).

Lemma picked_from_app (a b x y : list json) :
  picked_from a x -> picked_from b y -> picked_from (a ++ b) (x ++ y).
Proof.
  induction 1; intros Hb; simpl; [assumption | |].
  - apply picked_skip. auto.
  - eapply picked_take; eauto.
Qed.

Section ScanResult.

Variable P : platform.

Lemma transcript_is_list (document_id : json) (st : state (net P))
    (v : json) (st' : state (net P)) :
  get_document_transcript P document_id st = (Ok v, st') -> exists t, v = JArr t.
Proof.
  unfold get_document_transcript, bind.
  destruct (_make_request P _ _ true st) as [[resp|e] st1]; [|discriminate].
  unfold ret. intros H. inversion H; subst.
  destruct resp; simpl; eauto.
Qed.

Lemma parse_created_at_inv (doc : json) (st : state (net P))
    (dt : datetime) (st' : state (net P)) :
  parse_created_at P doc st = (Ok dt, st') ->
  st' = st
  /\ exists s, getitem doc "created_at" = Ok (JStr s)
               /\ fromisoformat P (replace_char "Z"%char "+00:00" s) = Some dt.
Proof.
  unfold parse_created_at, bind, lift.
  destruct (getitem doc "created_at") as [c|e]; [|discriminate].
  destruct c; try discriminate.
  destruct (fromisoformat P _) as [dt'|] eqn:E; [|discriminate].
  unfold ret. intros H. inversion H; subst. eauto.
Qed.

Lemma between_inv (a b c : datetime) (st : state (net P))
    (in_range : bool) (st' : state (net P)) :
  between P a b c st = (Ok in_range, st') ->
  st' = st /\ (in_range = true -> le a b = Ok true /\ le b c = Ok true).
Proof.
  unfold between, bind, lift.
  destruct (le a b) as [lo|e]; [|discriminate].
  destruct lo.
  - intros H. inversion H; subst. split; [reflexivity|]. intros ->. auto.
  - unfold ret. intros H. inversion H; subst. split; [reflexivity | discriminate].
Qed.

(** The [try] block of the loop: either the document joins the list with
    its transcript, or the list is as it was. *)
Lemma try_transcript_inv (doc : json) (all_meetings : list json)
    (st : state (net P)) (all' : list json) (st' : state (net P)) :
  try_except
    (id <- lift (getitem doc "id") ;;
     transcript <- get_document_transcript P id ;;
     doc' <- lift (setitem doc "transcript" transcript) ;;
     ret (all_meetings ++ [doc']))
    (fun e =>
       Some (title <- lift (get doc "title" (JStr "Unknown")) ;;
             print (WarnTranscript title e) ;;;
             ret all_meetings)) st = (Ok all', st') ->
  all' = all_meetings
  \/ exists id t doc',
       getitem doc "id" = Ok id
       /\ setitem doc "transcript" (JArr t) = Ok doc'
       /\ all' = all_meetings ++ [doc'].
Proof.
  unfold try_except.
  match goal with
  | |- context [match ?body st with _ => _ end] =>
      destruct (body st) as [[x|e] st1] eqn:Eb
  end.
  - intros H. inversion H; subst. right.
    revert Eb. unfold bind at 1, lift at 1.
    destruct (getitem doc "id") as [id|e]; [|discriminate].
    unfold bind at 1.
    destruct (get_document_transcript P id st) as [[v|e] st2] eqn:Et; [|discriminate].
    destruct (transcript_is_list _ _ _ _ Et) as [t ->].
    unfold bind, lift.
    destruct (setitem doc "transcript" (JArr t)) as [doc'|e] eqn:Es; [|discriminate].
    unfold ret. intros H'. inversion H'; subst. eauto 6.
  - unfold bind at 1, lift at 1.
    destruct (get doc "title" (JStr "Unknown")) as [title|e']; [|discriminate].
    unfold bind, print, ret. intros H. inversion H; subst. now left.
Qed.

(** The loop over a page adds to the list, at its end and in the order of
    the page, documents of the page that are in range. *)
Lemma for_docs_adds (start_date end_date : datetime) (docs : list json) :
  forall all_meetings st all' st',
    for_docs P start_date end_date docs all_meetings st = (Ok all', st') ->
    exists new,
      all' = all_meetings ++ new
      /\ Forall (in_range_meeting P start_date end_date) new
      /\ picked_from docs new.
Proof.
  induction docs as [|doc rest IH]; intros all_meetings st all' st' H.
  - inversion H; subst. exists []. rewrite app_nil_r. repeat split; constructor.
  - cbn [for_docs] in H. unfold bind at 1 in H.
    destruct (parse_created_at P doc st) as [[dt|e] st1] eqn:Ep; [|discriminate].
    destruct (parse_created_at_inv _ _ _ _ Ep) as [-> [s [Hc Hf]]].
    unfold bind at 1 in H.
    destruct (between P start_date dt end_date st) as [[in_range|e] st2] eqn:Eb;
      [|discriminate].
    destruct (between_inv _ _ _ _ _ _ Eb) as [-> Hr].
    destruct in_range.
    + destruct (Hr eq_refl) as [Hlo Hhi].
      unfold bind at 1 in H.
      match type of H with
      | (let (_, _) := ?t st in _) = _ => destruct (t st) as [[x|e] st3] eqn:Et
      end; [|discriminate].
      destruct (IH _ _ _ _ H) as [new [-> [Hg Hp]]].
      destruct (try_transcript_inv _ _ _ _ _ Et) as [->|[id [t [doc' [Hid [Hs ->]]]]]].
      * exists new. repeat split; [assumption | now apply picked_skip].
      * exists (doc' :: new). rewrite <- app_assoc. split; [reflexivity|]. split.
        -- constructor; [|assumption].
           destruct doc as [| | | | |fields]; try discriminate Hs.
           simpl in Hs. inversion Hs; subst.
           simpl in Hc, Hid.
           destruct (dict_find "created_at" fields) as [c|] eqn:Ec; [|discriminate].
           destruct (dict_find "id" fields) as [i|] eqn:Ei; [|discriminate].
           inversion Hc; inversion Hid; subst.
           exists fields, s, dt, t, id. repeat split; assumption.
        -- eapply picked_take; eassumption.
    + destruct (IH _ _ _ _ H) as [new [-> [Hg Hp]]].
      exists new. repeat split; [assumption | now apply picked_skip].
Qed.

Lemma while_true_adds (start_date end_date : datetime) (fuel : nat) :
  forall offset all_meetings st meetings st',
    while_true P fuel start_date end_date offset all_meetings st
    = Some (Ok meetings, st') ->
    exists new,
      meetings = all_meetings ++ new
      /\ Forall (in_range_meeting P start_date end_date) new.
Proof.
  induction fuel as [|fuel IH]; intros offset all_meetings st meetings st' H;
    [discriminate|].
  cbn [while_true] in H.
  destruct (get_documents P limit offset st) as [[documents|e] st1]; [|discriminate].
  destruct (negb (truthy documents)).
  - inversion H; subst. exists []. rewrite app_nil_r. split; constructor.
  - destruct documents; try discriminate.
    destruct (for_docs P start_date end_date items all_meetings st1)
      as [[all'|e] st2] eqn:Ef; [|discriminate].
    destruct (for_docs_adds _ _ _ _ _ _ _ Ef) as [new [-> [Hg _]]].
    destruct (Z.of_nat (List.length items) <? limit)%Z.
    + inversion H; subst. exists new. now split.
    + destruct (IH _ _ _ _ _ H) as [more [-> Hm]].
      exists (new ++ more). rewrite app_assoc. split; [reflexivity|].
      apply Forall_app. now split.
Qed.

End ScanResult.

(** X7.  Whatever the servers answer, every meeting [get_meetings_in_date_range]
    returns is a dict whose [created_at] is a string that parses to a time
    within the two bounds, both included and both read as UTC when naive,
    and it carries an [id] and a [transcript] that is a list. *)
Theorem returned_meetings_are_in_range (P : platform) (fuel : nat)
    (start_date end_date : datetime) (st st' : state (net P))
    (meetings : list json) :
  get_meetings_in_date_range P fuel start_date end_date st = Some (Ok meetings, st') ->
  Forall (in_range_meeting P (as_utc start_date) (as_utc end_date)) meetings.
Proof.
  unfold get_meetings_in_date_range. fold (as_utc start_date). fold (as_utc end_date).
  intros H. destruct (while_true_adds P _ _ _ _ _ _ _ _ H) as [new [-> Hg]].
  exact Hg.
Qed.

Definition meetings_of_january : list json :=
  match get_meetings_in_date_range january 3 january_first january_last
          (logged_in january tt) with
  | Some (Ok meetings, _) => meetings
  | _ => []
  end.

Definition state_after_scan : state (net january) :=
  match get_meetings_in_date_range january 3 january_first january_last
          (logged_in january tt) with
  | Some (_, st) => st
  | None => logged_in january tt
  end.

Lemma returned_meetings_are_in_range_witness :
  List.length meetings_of_january = 2%nat
  /\ Forall (in_range_meeting january (as_utc january_first) (as_utc january_last))
            meetings_of_january.
Proof.
  split; [vm_compute; reflexivity|].
  apply (returned_meetings_are_in_range january 3 january_first january_last
           (logged_in january tt) state_after_scan meetings_of_january).
  vm_compute. reflexivity.
Defined.

Lemma while_true_picks (P : platform) (pages : nat -> list json)
    (start_date end_date : datetime) (j : nat) :
  (forall (n : net P) (token : json) (k : nat),
      fst (requests_post P n
             (api_request LISTING_ENDPOINT token (listing_payload (100 * Z.of_nat k))))
      = Reply 200 (Some (JObj [("docs", JArr (pages k))]))) ->
  (forall k, (k < j)%nat -> (100 <= List.length (pages k))%nat) ->
  (List.length (pages j) < 100)%nat ->
  forall fuel k all_meetings st meetings st',
    (k <= j)%nat ->
    while_true P fuel start_date end_date (100 * Z.of_nat k) all_meetings st
    = Some (Ok meetings, st') ->
    exists new,
      meetings = all_meetings ++ new
      /\ picked_from (listed pages k (S j - k)) new.
Proof.
  intros Hl Hfull Hshort.
  induction fuel as [|fuel IH]; intros k all_meetings st meetings st' Hk H;
    [discriminate|].
  cbn [while_true] in H.
  destruct (get_documents_page P pages Hl k st) as [st1 [E1 _]]. rewrite E1 in H.
  assert (Hsplit : listed pages k (S j - k)
                   = pages k ++ listed pages (S k) (S j - S k)).
  { unfold listed. replace (S j - k)%nat with (S (S j - S k)) by lia. reflexivity. }
  destruct (pages k) as [|d ds] eqn:Epage.
  - cbn [truthy negb] in H. inversion H; subst.
    assert (k = j).
    { destruct (Nat.eq_dec k j); [assumption|].
      assert (Hlt : (k < j)%nat) by lia.
      apply Hfull in Hlt. rewrite Epage in Hlt. simpl in Hlt. lia. }
    subst k. exists []. rewrite app_nil_r. split; [reflexivity|].
    unfold listed. replace (S j - j)%nat with 1%nat by lia.
    simpl. rewrite Epage. constructor.
  - cbn [truthy negb] in H.
    destruct (for_docs P start_date end_date (d :: ds) all_meetings st1)
      as [[all'|e] st2] eqn:Ef; [|discriminate].
    destruct (for_docs_adds P _ _ _ _ _ _ _ Ef) as [new [-> [_ Hp]]].
    destruct (Z.of_nat (List.length (d :: ds)) <? limit)%Z eqn:Elen.
    + inversion H; subst.
      assert (k = j).
      { destruct (Nat.eq_dec k j); [assumption|].
        assert (Hlt : (k < j)%nat) by lia.
        apply Hfull in Hlt. rewrite Epage in Hlt.
        apply Z.ltb_lt in Elen. unfold limit in Elen. lia. }
      subst k. exists new. split; [reflexivity|].
      unfold listed. replace (S j - j)%nat with 1%nat by lia.
      simpl. rewrite Epage, app_nil_r. exact Hp.
    + assert (Hlt : (k < j)%nat).
      { destruct (Nat.eq_dec k j) as [->|]; [|lia].
        rewrite Epage in Hshort. apply Z.ltb_ge in Elen.
        unfold limit in Elen. lia. }
      replace (100 * Z.of_nat k + limit)%Z with (100 * Z.of_nat (S k))%Z in H
        by (unfold limit; lia).
      destruct (IH (S k) _ _ _ _ Hlt H) as [more [-> Hm]].
      exists (new ++ more). rewrite app_assoc. split; [reflexivity|].
      rewrite Hsplit. now apply picked_from_app.
Qed.

(** X8.  When the listing has a first short page [j], the meetings returned are
    documents of the pages 0 to [j] with their transcripts attached, in the
    order in which the listing gave them: the scan neither reorders nor
    repeats a document. *)
Theorem meetings_follow_listing_order (P : platform) (pages : nat -> list json)
    (j : nat) (start_date end_date : datetime) (st st' : state (net P))
    (fuel : nat) (meetings : list json) :
  (forall (n : net P) (token : json) (k : nat),
      fst (requests_post P n
             (api_request LISTING_ENDPOINT token (listing_payload (100 * Z.of_nat k))))
      = Reply 200 (Some (JObj [("docs", JArr (pages k))]))) ->
  (forall k, (k < j)%nat -> (100 <= List.length (pages k))%nat) ->
  (List.length (pages j) < 100)%nat ->
  get_meetings_in_date_range P fuel start_date end_date st = Some (Ok meetings, st') ->
  picked_from (listed pages 0 (S j)) meetings.
Proof.
  intros Hl Hfull Hshort H. unfold get_meetings_in_date_range in H.
  destruct (while_true_picks P pages (as_utc start_date) (as_utc end_date) j
              Hl Hfull Hshort fuel 0 [] st meetings st')
    as [new [-> Hp]]; [lia | exact H |].
  rewrite Nat.sub_0_r in Hp. exact Hp.
Qed.

Lemma meetings_follow_listing_order_witness :
  picked_from (listed (fun k => january_page (Z.of_nat k)) 0 1) meetings_of_january.
Proof.
  apply (meetings_follow_listing_order january (fun k => january_page (Z.of_nat k)) 0
           january_first january_last (logged_in january tt) state_after_scan 3
           meetings_of_january).
  - intros n token k. apply served_listing.
  - intros k Hk. lia.
  - simpl. lia.
  - vm_compute. reflexivity.
Defined.


(** A listing without end: every page holds the same hundred meetings. *)
Definition endless_page (_ : Z) : list json :=
  repeat (meeting "doc0" "2024-01-15T10:00:00Z") 100.

Definition endless : platform := Fixtures.served endless_page one_line_transcript.


(** X10.  A listing answer that holds no documents ends the scan at once: when
    the first answer is a JSON object whose [docs] is missing, empty or
    otherwise false, the scan returns the empty list after that one
    request. *)
Theorem listing_without_documents_ends_scan (P : platform) (fuel : nat)
    (start_date end_date : datetime) (st : state (net P))
    (s : Z) (fields : dict) (n' : net P) :
  requests_post P (network (outside st))
                (api_request LISTING_ENDPOINT (access_token (self st))
                             (listing_payload 0))
  = (Reply s (Some (JObj fields)), n') ->
  s <> 401%Z ->
  error_status s = false ->
  truthy (dict_get "docs" (JArr []) fields) = false ->
  get_meetings_in_date_range P (S fuel) start_date end_date st
  = Some (Ok [],
          after_post P st
            (api_request LISTING_ENDPOINT (access_token (self st)) (listing_payload 0))
            n').
Proof.
  intros E1 Hs He Hd.
  unfold get_meetings_in_date_range. cbn [while_true].
  assert (Hg : get_documents P limit 0 st
               = (Ok (dict_get "docs" (JArr []) fields),
                  after_post P st
                    (api_request LISTING_ENDPOINT (access_token (self st))
                       (listing_payload 0)) n')).
  { assert (Hm : _make_request P LISTING_ENDPOINT (listing_payload 0) true st
                 = (Ok (JObj fields),
                    after_post P st
                      (api_request LISTING_ENDPOINT (access_token (self st))
                         (listing_payload 0)) n')).
    { unfold _make_request, _make_request_body at 1.
      rewrite (bind_ok P get_self _ st (self st) st eq_refl).
      fold (api_request LISTING_ENDPOINT (access_token (self st)) (listing_payload 0)).
      unfold try_except.
      rewrite (bind_ok P _ _ _ _ _ (post_eq P _ _ _ _ E1)). cbn [status_code].
      destruct (Z.eqb_spec s 401) as [->|_]; [congruence|]. cbn [andb].
      unfold bind at 1, raise_for_status. cbn [status_code].
      fold (error_status s). rewrite He. reflexivity. }
    unfold get_documents. fold (listing_payload 0). fold LISTING_ENDPOINT.
    rewrite (bind_ok P _ _ _ _ _ Hm). reflexivity. }
  rewrite Hg, Hd. reflexivity.
Qed.

Definition no_docs_key : state (net Fixtures.scripted) :=
  logged_in Fixtures.scripted [Reply 200 (Some (JObj [("documents", JArr [doc1])]))].

Lemma listing_without_documents_ends_scan_witness :
  get_meetings_in_date_range Fixtures.scripted 1 january_first january_last no_docs_key
  = Some (Ok [],
          after_post Fixtures.scripted no_docs_key
            (api_request LISTING_ENDPOINT (JStr "access-1") (listing_payload 0)) []).
Proof.
  apply (listing_without_documents_ends_scan Fixtures.scripted 0 january_first
           january_last no_docs_key 200%Z [("documents", JArr [doc1])] []).
  - reflexivity.
  - discriminate.
  - reflexivity.
  - reflexivity.
Defined.

(* ================================================================== *)
(** * Further properties of the runner *)
(* ================================================================== *)

(** X11.  After [_mark_as_processed id] on a ledger, [_is_processed] answers yes
    for [id], and its answer for every other id is what it was. *)
Theorem marked_is_processed (id : string) (ids : list string) (d : disk) :
  let s' := snd (fst (_mark_as_processed id (ledger ids) d)) in
  fst (fst (_mark_as_processed id (ledger ids) d)) = Ok tt
  /\ _is_processed s' (JStr id) = true
  /\ (forall other, other <> JStr id ->
        _is_processed s' other = _is_processed (ledger ids) other).
Proof.
  unfold _mark_as_processed, ledger. cbn [processed_documents].
  destruct (mem id ids) eqn:Hm; cbn [negb fst snd].
  - split; [reflexivity|]. split; [exact Hm | reflexivity].
  - split; [reflexivity|]. split.
    + unfold _is_processed, mem. cbn [processed_documents].
      rewrite existsb_app. simpl. rewrite String.eqb_refl.
      now rewrite orb_true_r.
    + intros other Ho. unfold _is_processed, mem. cbn [processed_documents].
      destruct other as [| | |x| |]; try reflexivity.
      rewrite existsb_app. simpl.
      destruct (String.eqb x id) eqn:E.
      * apply String.eqb_eq in E. subst x. congruence.
      * now rewrite orb_false_r.
Qed.

(** The id of a meeting, when it has one. *)
Definition id_of (m : json) : json :=
  match getitem m "id" with Ok id => id | Raise _ => None_ end.

(** On meetings that all have an id, [not_processed] is the filter. *)
Lemma not_processed_filter (s : analysis_state) (meetings : list json) :
  Forall (fun m => is_ok (getitem m "id") = true) meetings ->
  not_processed s meetings
  = Ok (filter (fun m => negb (_is_processed s (id_of m))) meetings).
Proof.
  induction 1 as [|m rest Hm _ IH]; simpl; [reflexivity|].
  unfold id_of. destruct (getitem m "id") as [id|e]; [|discriminate].
  rewrite IH. destruct (_is_processed s id); reflexivity.
Qed.

(** Every meeting of a scan has an id. *)
Lemma scanned_meetings_have_ids (P : platform) (fuel : nat)
    (start_date end_date : datetime) (st st' : state (net P)) (meetings : list json) :
  get_meetings_in_date_range P fuel start_date end_date st = Some (Ok meetings, st') ->
  Forall (fun m => is_ok (getitem m "id") = true) meetings.
Proof.
  unfold get_meetings_in_date_range. intros H.
  destruct (while_true_adds P _ _ _ _ _ _ _ _ H) as [new [-> Hg]]. cbn [app].
  eapply Forall_impl; [|exact Hg].
  intros m [fields [s [created_at [transcript [id [-> [_ [_ [_ [_ Hid]]]]]]]]]].
  cbn [getitem]. rewrite dict_find_set_other by reflexivity. now rewrite Hid.
Qed.

(** X13.  What [fetch_meetings] returns with [new_only] is what it returns
    without, less the meetings whose id the ledger holds, in the same order:
    the filter never fails on a missing id, since every fetched meeting has
    one.  It sends the same requests; of the lines printed, the last one
    counts the meetings kept instead of the meetings fetched, and a line
    with the number filtered out comes before it when that number is not
    zero. *)
Theorem new_only_filters_the_fetched (P : platform) (fuel : nat)
    (s : analysis_state) (start_date end_date : datetime)
    (st st0 : state (net P)) (fetched : list json) :
  fetch_meetings P fuel s start_date end_date false st = Some (Ok fetched, st0) ->
  let kept := filter (fun m => negb (_is_processed s (id_of m))) fetched in
  let filtered_count := (List.length fetched - List.length kept)%nat in
  exists st' lines,
    fetch_meetings P fuel s start_date end_date true st = Some (Ok kept, st')
    /\ self st' = self st0
    /\ sent (outside st') = sent (outside st0)
    /\ stdout (outside st0) = lines ++ [InfoFound (List.length fetched)]
    /\ stdout (outside st')
       = lines
         ++ (if (0 <? filtered_count)%nat then [InfoFilteredOut filtered_count] else [])
         ++ [InfoFound (List.length kept)].
Proof.
  intros H kept filtered_count. unfold fetch_meetings in H |- *.
  destruct (get_meetings_in_date_range P fuel start_date end_date _)
    as [[[meetings|e] st1]|] eqn:E; try discriminate.
  inversion H; subst; clear H.
  rewrite (not_processed_filter s fetched
             (scanned_meetings_have_ids P _ _ _ _ _ _ E)).
  fold kept. fold filtered_count.
  eexists. exists (stdout (outside st1)).
  split; [reflexivity|].
  destruct (0 <? filtered_count)%nat; cbn [print snd self outside sent stdout];
    repeat split; now rewrite <- ?app_assoc.
Qed.

Definition fetch_all_in_january :=
  fetch_meetings january 3 (ledger ["doc1"]) january_first january_last false
                 (logged_in january tt).

Definition fetched_in_january : list json :=
  match fetch_all_in_january with
  | Some (Ok meetings, _) => meetings
  | _ => []
  end.

Definition state_after_fetching_all : state (net january) :=
  match fetch_all_in_january with
  | Some (_, st) => st
  | None => logged_in january tt
  end.

Lemma new_only_filters_the_fetched_witness :
  List.length fetched_in_january = 2%nat
  /\ exists st' lines,
       fetch_new_in_january
       = Some (Ok (filter (fun m => negb (_is_processed (ledger ["doc1"]) (id_of m)))
                          fetched_in_january), st')
       /\ self st' = self state_after_fetching_all
       /\ sent (outside st') = sent (outside state_after_fetching_all)
       /\ stdout (outside state_after_fetching_all) = lines ++ [InfoFound 2]
       /\ stdout (outside st') = lines ++ [InfoFilteredOut 1] ++ [InfoFound 1].
Proof.
  split; [vm_compute; reflexivity|].
  apply (new_only_filters_the_fetched january 3 (ledger ["doc1"]) january_first
           january_last (logged_in january tt) state_after_fetching_all
           fetched_in_january).
  vm_compute. reflexivity.
Defined.

(* ================================================================== *)
(** * Saving feedback, and reading it back *)
(* ================================================================== *)

Import SaveFeedback.

Lemma content_write_same (n body : string) (files : list entry) :
  content n (write n body files) = Some (Some body).
Proof.
  unfold content, write, exists_.
  destruct (existsb (named n) files) eqn:E.
  - induction files as [|e files IH]; [discriminate|].
    simpl in E. simpl. destruct (named n e) eqn:En.
    + simpl. unfold named at 1. simpl. now rewrite String.eqb_refl.
    + simpl in E. simpl. rewrite En. exact (IH E).
  - induction files as [|e files IH]; simpl.
    + unfold named. simpl. now rewrite String.eqb_refl.
    + simpl in E. apply orb_false_iff in E. destruct E as [En E].
      rewrite En. exact (IH E).
Qed.

Lemma content_write_other (n n' body : string) (files : list entry) :
  String.eqb n n' = false ->
  content n (write n' body files) = content n files.
Proof.
  intros Hn. unfold content, write.
  destruct (exists_ n' files).
  - f_equal. induction files as [|e files IH]; [reflexivity|].
    simpl. destruct (named n' e) eqn:En.
    + unfold named at 1. simpl. rewrite String.eqb_sym, Hn.
      unfold named in En. apply String.eqb_eq in En.
      unfold named. rewrite En, String.eqb_sym, Hn. exact IH.
    + destruct (named n e); [reflexivity | exact IH].
  - f_equal. induction files as [|e files IH]; simpl.
    + unfold named. simpl. now rewrite String.eqb_sym, Hn.
    + destruct (named n e); [reflexivity | exact IH].
Qed.

Lemma content_rename_new (old new : string) (files : list entry) (body : option string) :
  String.eqb old new = false ->
  content old files = Some body ->
  content new (rename old new files) = Some body.
Proof.
  intros Hn. unfold content, rename. rewrite Hn.
  induction files as [|e files IH]; [discriminate|].
  simpl. destruct (named old e) eqn:Eo.
  - intros H. inversion H; subst.
    assert (Hne : named new e = false).
    { unfold named in *. apply String.eqb_eq in Eo. now rewrite Eo. }
    rewrite Hne. simpl. rewrite Eo. unfold named at 1. simpl.
    now rewrite String.eqb_refl.
  - intros H. destruct (named new e) eqn:En; simpl; [exact (IH H)|].
    rewrite Eo, En. exact (IH H).
Qed.

Lemma content_rename_old (old new : string) (files : list entry) :
  String.eqb old new = false ->
  content old (rename old new files) = None.
Proof.
  intros Hn. unfold content, rename. rewrite Hn.
  induction files as [|e files IH]; [reflexivity|].
  simpl. destruct (named new e); simpl; [exact IH|].
  destruct (named old e) eqn:Eo.
  - unfold named at 1. simpl. rewrite String.eqb_sym, Hn. exact IH.
  - rewrite Eo. exact IH.
Qed.

Lemma content_rename_other (n old new : string) (files : list entry) :
  String.eqb n old = false -> String.eqb n new = false ->
  content n (rename old new files) = content n files.
Proof.
  intros H1 H2. unfold content, rename.
  destruct (String.eqb old new); [reflexivity|]. f_equal.
  induction files as [|e files IH]; [reflexivity|].
  simpl.
  assert (Hold : named old e = true -> named n e = false).
  { unfold named. intros H. apply String.eqb_eq in H. now rewrite H, String.eqb_sym. }
  assert (Hnew : named new e = true -> named n e = false).
  { unfold named. intros H. apply String.eqb_eq in H. now rewrite H, String.eqb_sym. }
  destruct (named new e) eqn:En; simpl.
  - rewrite (Hnew eq_refl). exact IH.
  - destruct (named old e) eqn:Eo.
    + unfold named at 1. simpl. rewrite String.eqb_sym, H2.
      rewrite (Hold eq_refl). exact IH.
    + destruct (named n e); [reflexivity | exact IH].
Qed.

Lemma exists_content (n : string) (files : list entry) :
  exists_ n files = true <-> exists body, content n files = Some body.
Proof.
  unfold exists_, content.
  induction files as [|e files IH]; simpl.
  - split; [discriminate | intros [b H]; discriminate].
  - destruct (named n e); simpl; [split; eauto|exact IH].
Qed.

Lemma eqb_append_l (a b c : string) :
  String.eqb (a ++ b) (a ++ c) = String.eqb b c.
Proof.
  induction a as [|x a IH]; simpl; [reflexivity|].
  now rewrite Ascii.eqb_refl.
Qed.

Lemma dated_is_not_backup (today clock : string) :
  String.eqb (dated_name today) (backup_name today clock) = false.
Proof.
  unfold dated_name, backup_name.
  rewrite (eqb_append_l "feedback_"), eqb_append_l. reflexivity.
Qed.


(** *** File names and the order of the sort *)

Lemma string_length_append (a b : string) :
  String.length (a ++ b) = (String.length a + String.length b)%nat.
Proof. induction a as [|x a IH]; simpl; [reflexivity | now rewrite IH]. Qed.

Lemma string_append_assoc (a b c : string) :
  ((a ++ b) ++ c)%string = (a ++ (b ++ c))%string.
Proof. induction a as [|x a IH]; simpl; [reflexivity | now rewrite IH]. Qed.

Lemma prefix_append (a b : string) : String.prefix a (a ++ b) = true.
Proof.
  induction a as [|x a IH]; simpl.
  - now destruct b.
  - destruct (ascii_dec x x); [exact IH | congruence].
Qed.

Lemma substring_append_skip (a b : string) (m : nat) :
  String.substring (String.length a) m (a ++ b) = String.substring 0 m b.
Proof. induction a as [|x a IH]; simpl; [reflexivity | exact IH]. Qed.

Lemma substring_all (a : string) :
  String.substring 0 (String.length a) a = a.
Proof. induction a as [|x a IH]; simpl; [reflexivity | now rewrite IH]. Qed.

Lemma substring_append_take (a b : string) :
  String.substring 0 (String.length a) (a ++ b) = a.
Proof.
  induction a as [|x a IH]; simpl; [now destruct b | now rewrite IH].
Qed.

Lemma until_underscore_append (a b : string) :
  until_underscore (a ++ String "_"%char b) = until_underscore a.
Proof.
  induction a as [|x a IH]; simpl; [reflexivity|].
  destruct (Ascii.eqb x "_"); [reflexivity | now rewrite IH].
Qed.

(** A name [feedback_<middle>.txt] passes the glob, and its date string is
    what [middle] has before its first underscore. *)
Lemma feedback_name (middle : string) :
  glob_feedback ("feedback_" ++ middle ++ ".txt") = true
  /\ date_str ("feedback_" ++ middle ++ ".txt") = until_underscore middle.
Proof.
  assert (Hlen : String.length ("feedback_" ++ middle ++ ".txt")
                 = (9 + String.length middle + 4)%nat).
  { rewrite string_length_append, string_length_append. simpl. lia. }
  split.
  - unfold glob_feedback. rewrite prefix_append, Hlen.
    replace (9 + String.length middle + 4 - 4)%nat
      with (String.length ("feedback_" ++ middle)%string)
      by (rewrite string_length_append; simpl; lia).
    rewrite <- (string_append_assoc "feedback_" middle ".txt").
    rewrite substring_append_skip.
    replace ((13 <=? 9 + String.length middle + 4)%nat) with true
      by (symmetry; apply Nat.leb_le; lia).
    reflexivity.
  - unfold date_str. rewrite Hlen.
    replace (9 + String.length middle + 4 - 13)%nat with (String.length middle) by lia.
    change (String.substring 9 (String.length middle) ("feedback_" ++ middle ++ ".txt"))
      with (String.substring (String.length "feedback_") (String.length middle)
              ("feedback_" ++ (middle ++ ".txt"))).
    rewrite substring_append_skip, substring_append_take. reflexivity.
Qed.

Lemma compare_append_l (a b c : string) :
  OrdersEx.String_as_OT.compare (a ++ b) (a ++ c) = OrdersEx.String_as_OT.compare b c.
Proof.
  induction a as [|x a IH]; simpl; [reflexivity|].
  destruct (OrdersEx.Ascii_as_OT.compare_spec x x) as [_|H|H];
    [exact IH | | ]; exfalso; exact (StrictOrder_Irreflexive x H).
Qed.

(** X15.  A backup is taken for feedback of its day, and the sort puts it ahead of
    the day's own file: both names pass the glob and give the same date
    string, and in the descending order of [(file_date, path)] the backup
    comes first. *)
Theorem backup_sorts_before_the_dated_file (today clock : string)
    (d : datetime) (dated backup : entry) :
  name dated = dated_name today ->
  name backup = backup_name today clock ->
  glob_feedback (name dated) = true
  /\ glob_feedback (name backup) = true
  /\ date_str (name backup) = date_str (name dated)
  /\ tuple_ltb (d, dated) (d, backup) = true
  /\ sort_reverse [(d, dated); (d, backup)] = [(d, backup); (d, dated)].
Proof.
  intros Hd Hb.
  assert (Hlt : tuple_ltb (d, dated) (d, backup) = true).
  { unfold tuple_ltb, naive_lt. cbn [fst snd]. rewrite Z.ltb_irrefl, Z.eqb_refl.
    cbn [orb andb]. unfold name_ltb. rewrite Hd, Hb.
    unfold dated_name, backup_name.
    rewrite (compare_append_l "feedback_"), compare_append_l. reflexivity. }
  assert (Hname : backup_name today clock
                  = ("feedback_" ++ (today ++ String "_"%char ("backup_" ++ clock))
                     ++ ".txt")%string).
  { unfold backup_name. rewrite (string_append_assoc today). reflexivity. }
  rewrite Hd, Hb, Hname. unfold dated_name.
  destruct (feedback_name today) as [G1 D1].
  destruct (feedback_name (today ++ String "_"%char ("backup_" ++ clock))) as [G2 D2].
  split; [exact G1|]. split; [exact G2|].
  split; [rewrite D1, D2; apply until_underscore_append|].
  split; [exact Hlt|].
  simpl. now rewrite Hlt.
Qed.

Lemma backup_sorts_before_the_dated_file_witness :
  tuple_ltb (mk_datetime 2024 1 19 0 0 0 0 None,
             mk_entry "feedback_20240119.txt" (Some "final"))
            (mk_datetime 2024 1 19 0 0 0 0 None,
             mk_entry "feedback_20240119_backup_101500.txt" (Some "first"))
  = true.
Proof.
  apply (backup_sorts_before_the_dated_file "20240119" "101500"
           (mk_datetime 2024 1 19 0 0 0 0 None)
           (mk_entry "feedback_20240119.txt" (Some "final"))
           (mk_entry "feedback_20240119_backup_101500.txt" (Some "first")));
    reflexivity.
Defined.

Lemma named_refl (n : string) (body : option string) :
  named n (mk_entry n body) = true.
Proof. unfold named. cbn [name]. apply String.eqb_refl. Qed.

Lemma named_other (n n' : string) :
  String.eqb n' n = false ->
  forall body, named n (mk_entry n' body) = false.
Proof. intros H body. unfold named. cbn [name]. exact H. Qed.

Lemma current_is_not_dated (today : string) :
  String.eqb CURRENT_FEEDBACK_FILE (dated_name today) = false.
Proof. reflexivity. Qed.

Lemma current_is_not_backup (today clock : string) :
  String.eqb CURRENT_FEEDBACK_FILE (backup_name today clock) = false.
Proof. reflexivity. Qed.

Lemma dated_is_not_current (today : string) :
  String.eqb (dated_name today) CURRENT_FEEDBACK_FILE = false.
Proof. reflexivity. Qed.

Lemma backup_is_not_current (today clock : string) :
  String.eqb (backup_name today clock) CURRENT_FEEDBACK_FILE = false.
Proof. reflexivity. Qed.

Lemma backup_is_not_dated (today clock : string) :
  String.eqb (backup_name today clock) (dated_name today) = false.
Proof. rewrite String.eqb_sym. apply dated_is_not_backup. Qed.

(** The directory after the first save of a day, and after the second. *)
Lemma first_save (today clock body : string) (dir : option (list entry)) :
  match dir with Some files => files | None => [] end = [] ->
  _save_feedback today clock true body dir
  = (Ok tt,
     Some [mk_entry (dated_name today) (Some body);
           mk_entry CURRENT_FEEDBACK_FILE (Some body)],
     [FeedbackSaved (dated_name today)]).
Proof.
  intros Hempty.
  assert (E : _save_feedback today clock true body dir
              = _save_feedback today clock true body (Some [])).
  { destruct dir as [files|]; [cbn in Hempty; now subst files | reflexivity]. }
  rewrite E. unfold _save_feedback. cbn [exists_ existsb].
  unfold write at 2. cbn [exists_ existsb app].
  unfold write. cbn [exists_ existsb].
  rewrite (named_other _ _ (dated_is_not_current today)). cbn [orb app].
  reflexivity.
Qed.

Lemma second_save (today clock first second : string) :
  _save_feedback today clock true second
    (Some [mk_entry (dated_name today) (Some first);
           mk_entry CURRENT_FEEDBACK_FILE (Some first)])
  = (Ok tt,
     Some [mk_entry (backup_name today clock) (Some first);
           mk_entry CURRENT_FEEDBACK_FILE (Some second);
           mk_entry (dated_name today) (Some second)],
     [BackedUp (backup_name today clock); FeedbackSaved (dated_name today)]).
Proof.
  unfold _save_feedback. cbn [exists_ existsb].
  rewrite named_refl. cbn [orb].
  unfold rename. rewrite dated_is_not_backup.
  cbn [filter map].
  rewrite (named_other _ _ (dated_is_not_backup today clock)).
  rewrite (named_other _ _ (current_is_not_backup today clock)).
  cbn [negb map]. rewrite named_refl.
  rewrite (named_other _ _ (current_is_not_dated today)). cbn [text].
  unfold write at 2. cbn [exists_ existsb].
  rewrite (named_other _ _ (backup_is_not_dated today clock)).
  rewrite (named_other _ _ (current_is_not_dated today)). cbn [orb app].
  unfold write. cbn [exists_ existsb].
  rewrite (named_other _ _ (backup_is_not_current today clock)).
  rewrite named_refl. cbn [orb map].
  rewrite (named_other _ _ (backup_is_not_current today clock)).
  rewrite named_refl.
  rewrite (named_other _ _ (dated_is_not_current today)).
  reflexivity.
Qed.

Lemma glob_current : glob_feedback CURRENT_FEEDBACK_FILE = false.
Proof. reflexivity. Qed.

Lemma backup_name_middle (today clock : string) :
  backup_name today clock
  = ("feedback_" ++ (today ++ String "_"%char ("backup_" ++ clock)) ++ ".txt")%string.
Proof. unfold backup_name. rewrite (string_append_assoc today). reflexivity. Qed.

Lemma glob_dated (today : string) : glob_feedback (dated_name today) = true.
Proof. exact (proj1 (feedback_name today)). Qed.

Lemma glob_backup (today clock : string) :
  glob_feedback (backup_name today clock) = true.
Proof. rewrite backup_name_middle. exact (proj1 (feedback_name _)). Qed.

Lemma date_str_backup (today clock : string) :
  date_str (backup_name today clock) = date_str (dated_name today).
Proof.
  rewrite backup_name_middle. unfold dated_name.
  rewrite (proj2 (feedback_name _)), (proj2 (feedback_name today)).
  apply until_underscore_append.
Qed.

Lemma dated_after_backup (today clock : string) (d : datetime)
    (body body' : option string) :
  tuple_ltb (d, mk_entry (backup_name today clock) body)
            (d, mk_entry (dated_name today) body') = false.
Proof.
  unfold tuple_ltb, naive_lt. cbn [fst snd name].
  rewrite Z.ltb_irrefl, Z.eqb_refl. cbn [orb andb].
  unfold name_ltb, dated_name, backup_name.
  rewrite (compare_append_l "feedback_"), compare_append_l. reflexivity.
Qed.

Section ReadBack.

Variable strptime_Ymd : string -> option datetime.
Variable strftime_Y_m_d : datetime -> string.



End ReadBack.



(* ================================================================== *)
(** * From the fetched meetings to the report *)
(* ================================================================== *)

Definition is_dict (v : json) : bool :=
  match v with JObj _ => true | _ => false end.

(** The line [format_transcript_text] makes of one utterance. *)
Definition line_of (str : json -> string) (utterance : json) : string :=
  match utterance with
  | JObj fields =>
      (str (dict_get "source" (JStr "Unknown") fields) ++ ": "
       ++ str (dict_get "text" (JStr "") fields))%string
  | _ => ""
  end.

(** A typed utterance as the value [json.load] gives for it. *)
Definition as_value (u : utterance) : json :=
  JObj (map (fun kv => (fst kv, JStr (snd kv))) u).

Section Prepared.

Variable str : json -> string.

Lemma dynamic_loop_ok (items : list json) :
  forallb is_dict items = true ->
  forall lines,
    Dynamic.format_loop str items lines = Ok (lines ++ map (line_of str) items).
Proof.
  induction items as [|u rest IH]; intros Hall lines.
  - cbn. now rewrite app_nil_r.
  - cbn [forallb] in Hall. apply andb_true_iff in Hall. destruct Hall as [Hu Hrest].
    destruct u as [| | | | |fields]; try discriminate Hu.
    cbn [Dynamic.format_loop get]. rewrite (IH Hrest).
    cbn [map line_of]. now rewrite <- app_assoc.
Qed.

Lemma dynamic_loop_fails (items : list json) :
  forallb is_dict items = false ->
  forall lines, Dynamic.format_loop str items lines = Raise AttributeError.
Proof.
  induction items as [|u rest IH]; intros Hall lines; [discriminate|].
  cbn [forallb] in Hall.
  destruct u as [| | | | |fields]; try reflexivity.
  cbn [is_dict andb] in Hall. cbn [Dynamic.format_loop get]. now apply IH.
Qed.

(** X18.  [format_transcript_text] on any value.  A value that is false in a
    condition ([None], an empty list, an empty string, ...) gives the
    empty text; a list of dicts gives one line per utterance, joined by
    newlines; a list with an item that is not a dict raises
    [AttributeError], as a string or dict that is not empty does; [True]
    and a number other than zero raise [TypeError]. *)
Theorem format_transcript_text_on_any_value (transcript : json) :
  Dynamic.format_transcript_text str transcript
  = if negb (truthy transcript) then Ok ""
    else match transcript with
         | JArr items =>
             if forallb is_dict items
             then Ok (join newline (map (line_of str) items))
             else Raise AttributeError
         | JStr _ | JObj _ => Raise AttributeError
         | _ => Raise TypeError
         end.
Proof.
  unfold Dynamic.format_transcript_text.
  destruct (negb (truthy transcript)); [reflexivity|].
  destruct transcript as [| | | |items|]; try reflexivity.
  destruct (forallb is_dict items) eqn:Hall.
  - now rewrite (dynamic_loop_ok items Hall).
  - now rewrite (dynamic_loop_fails items Hall).
Qed.

Lemma dict_get_as_value (k default : string) (u : utterance) :
  dict_get k (JStr default) (map (fun kv => (fst kv, JStr (snd kv))) u)
  = JStr (str_get k default u).
Proof.
  unfold dict_get, str_get.
  induction u as [|[k' v] u IH]; [reflexivity|].
  cbn [map fst snd dict_find str_find].
  destruct (String.eqb k k'); [reflexivity | exact IH].
Qed.

(** X19.  On a transcript whose utterances are dicts of strings the method gives
    the text of the typed [format_transcript_text]. *)
Theorem format_transcript_text_of_string_utterances (transcript : list utterance) :
  (forall s, str (JStr s) = s) ->
  Dynamic.format_transcript_text str (JArr (map as_value transcript))
  = Ok (GranolaClient.format_transcript_text transcript).
Proof.
  intros Hstr.
  assert (Hloop : forall t lines,
             Dynamic.format_loop str (map as_value t) lines
             = Ok (GranolaClient.format_loop t lines)).
  { induction t as [|u t IH]; intros lines; [reflexivity|].
    cbn [map as_value Dynamic.format_loop GranolaClient.format_loop get].
    rewrite !dict_get_as_value, !Hstr. apply IH. }
  destruct transcript as [|u t]; [reflexivity|].
  unfold Dynamic.format_transcript_text, GranolaClient.format_transcript_text.
  rewrite (Hloop (u :: t) []). reflexivity.
Qed.

(** [p] is [meeting] after one round of the loop of
    [prepare_meetings_for_analysis]. *)
Definition prepared_from (meeting p : json) : Prop :=
  exists fields text,
    meeting = JObj fields
    /\ Dynamic.format_transcript_text str (dict_get "transcript" (JArr []) fields)
       = Ok text
    /\ p = JObj (dict_set "transcript_text" (JStr text) fields).

Lemma prepare_loop_spec (meetings : list json) :
  forall prepared out,
    Dynamic.prepare_loop str meetings prepared = Ok out ->
    exists new, out = prepared ++ new /\ Forall2 prepared_from meetings new.
Proof.
  induction meetings as [|meeting rest IH]; intros prepared out H.
  - inversion H; subst. exists []. rewrite app_nil_r. split; constructor.
  - cbn [Dynamic.prepare_loop] in H.
    destruct meeting as [| | | | |fields]; try discriminate H.
    cbn [get setitem] in H.
    destruct (Dynamic.format_transcript_text str
                (dict_get "transcript" (JArr []) fields)) as [text|e] eqn:Et;
      [|discriminate].
    destruct (IH _ _ H) as [new [-> Hnew]].
    exists (JObj (dict_set "transcript_text" (JStr text) fields) :: new).
    rewrite <- app_assoc. split; [reflexivity|].
    constructor; [|assumption].
    exists fields, text. now repeat split.
Qed.

(** X20.  What [prepare_meetings_for_analysis] returns, when it returns: the
    meetings it was given, in their order and as many, each with the text of
    its own transcript under [transcript_text] and every other key as it
    was. *)
Theorem prepare_adds_only_transcript_text (meetings prepared : list json) :
  Dynamic.prepare_meetings_for_analysis str meetings = Ok prepared ->
  Forall2
    (fun meeting p =>
       (exists transcript text,
           get meeting "transcript" (JArr []) = Ok transcript
           /\ Dynamic.format_transcript_text str transcript = Ok text
           /\ getitem p "transcript_text" = Ok (JStr text))
       /\ forall k, String.eqb k "transcript_text" = false ->
                    getitem p k = getitem meeting k)
    meetings prepared.
Proof.
  unfold Dynamic.prepare_meetings_for_analysis. intros H.
  destruct (prepare_loop_spec _ _ _ H) as [new [-> Hnew]]. cbn [app].
  clear H. induction Hnew as [|meeting p ms ps Hp _ IH]; constructor; [|exact IH].
  destruct Hp as [fields [text [-> [Ht ->]]]]. split.
  - exists (dict_get "transcript" (JArr []) fields), text.
    split; [reflexivity|]. split; [exact Ht|].
    cbn [getitem]. now rewrite dict_find_set_same.
  - intros k Hk. cbn [getitem]. now rewrite (dict_find_set_other _ _ _ _ Hk).
Qed.

Section Analysis.

Import MeetingAnalyzer.

Variable create : chat_request -> completion.

Lemma combine_prepared (prepared : list json) :
  Forall (fun p => exists fields text,
              p = JObj fields
              /\ dict_find "transcript_text" fields = Some (JStr text)) prepared ->
  forall all_meetings_text,
    exists out, combine str prepared all_meetings_text = Ok out.
Proof.
  induction 1 as [|p ps [fields [text [-> Hf]]] _ IH]; intros all_meetings_text.
  - now exists all_meetings_text.
  - assert (Hg : dict_get "transcript_text" (JStr "") fields = JStr text)
      by (unfold dict_get; now rewrite Hf).
    cbn [combine get]. rewrite Hg. cbn [add_str]. apply IH.
Qed.

Lemma prepared_have_text (meetings prepared : list json) :
  Forall2 prepared_from meetings prepared ->
  Forall (fun p => exists fields text,
              p = JObj fields
              /\ dict_find "transcript_text" fields = Some (JStr text)) prepared.
Proof.
  induction 1 as [|m p ms ps [fields [text [_ [_ ->]]]] _ IH]; constructor;
    [|exact IH].
  eexists; eexists. split; [reflexivity|]. apply dict_find_set_same.
Qed.

(** The report of the three values [format_report] reads. *)
Definition report_of (date summary : json) (feedback_text : string) : string :=
  join newline
    [rule;
     ("DAILY MEETING FEEDBACK - " ++ str date)%string;
     rule;
     "";
     ("Summary: " ++ str summary)%string;
     "";
     rule;
     "";
     feedback_text;
     "";
     rule].

(** X21.  Meetings that [prepare_meetings_for_analysis] has prepared never make
    [analyze_meetings] raise, whatever the chat service does: it returns a
    dict with a summary, a feedback and a date; it sends one request, and
    none at all when there is no meeting. *)
Theorem prepared_meetings_are_analyzed (self : analyzer) (today : string)
    (meetings prepared : list json) (previous_feedback : option string) :
  Dynamic.prepare_meetings_for_analysis str meetings = Ok prepared ->
  exists fields,
    fst (analyze_meetings str create self today prepared previous_feedback)
    = Ok (JObj fields)
    /\ dict_mem "summary" fields = true
    /\ dict_mem "feedback" fields = true
    /\ dict_find "date" fields = Some (JStr today)
    /\ List.length
         (snd (analyze_meetings str create self today prepared previous_feedback))
       = (if Nat.eqb (List.length meetings) 0 then 0 else 1)%nat.
Proof.
  unfold Dynamic.prepare_meetings_for_analysis. intros H.
  destruct (prepare_loop_spec _ _ _ H) as [new [-> Hnew]]. cbn [app].
  pose proof (prepared_have_text _ _ Hnew) as Htext.
  destruct Hnew as [|m p ms ps Hp Hrest].
  - eexists. cbn. repeat split.
  - destruct (combine_prepared _ Htext "") as [out Hout].
    unfold analyze_meetings. rewrite Hout. cbn [List.length Nat.eqb].
    destruct (create _); eexists; cbn [fst snd List.length];
      (split; [reflexivity|]); repeat split.
Qed.

(** X22.  [format_report] on what [analyze_meetings] returns never falls back on
    its defaults: the report carries the date and the summary of the
    analysis.  Its body is the text of the chat service, or
    ["Analysis failed: ..."] when the call failed; when the service answers
    without a text ([None]), [format_report] raises [TypeError]. *)
Theorem report_of_an_analysis (self : analyzer) (today : string)
    (meetings : list json) (previous_feedback : option string)
    (analysis_result : json) :
  fst (analyze_meetings str create self today meetings previous_feedback)
  = Ok analysis_result ->
  let num_meetings := JNum (Z.of_nat (List.length meetings)) in
  format_report str analysis_result
  = match snd (analyze_meetings str create self today meetings previous_feedback) with
    | [] =>
        Ok (report_of (JStr today)
              (JStr "No meetings found in the specified date range.")
              "No meetings to analyze.")
    | request :: _ =>
        match create request with
        | Content (JStr feedback) =>
            Ok (report_of (JStr today)
                  (JStr ("Analyzed " ++ str num_meetings ++ " meetings from today"))
                  feedback)
        | Content _ => Raise TypeError
        | Failed str_e =>
            Ok (report_of (JStr today)
                  (JStr ("Failed to analyze " ++ str num_meetings ++ " meetings"))
                  ("Analysis failed: " ++ str_e))
        end
    end.
Proof.
  intros H num_meetings. subst num_meetings.
  unfold analyze_meetings in *.
  destruct meetings as [|m ms].
  - cbn in H. inversion H; subst. reflexivity.
  - destruct (combine str (m :: ms) "") as [out|e]; [|discriminate H].
    destruct (create _) as [feedback|str_e] eqn:Ec; cbn [fst snd] in *;
      inversion H; subst; rewrite Ec.
    + destruct feedback; reflexivity.
    + reflexivity.
Qed.

End Analysis.

End Prepared.

(** *** Examples *)

(** [str] on the values the examples format. *)
Definition str_scalar (v : json) : string :=
  match v with
  | JStr s => s
  | JNum n => DecimalString.NilZero.string_of_int (Z.to_int n)
  | JBool true => "True"
  | JBool false => "False"
  | JNull => "None"
  | _ => ""
  end.

Definition prepared_of_january : list json :=
  match Dynamic.prepare_meetings_for_analysis str_scalar meetings_of_january with
  | Ok prepared => prepared
  | Raise _ => []
  end.

Definition coach (_ : MeetingAnalyzer.chat_request) : MeetingAnalyzer.completion :=
  MeetingAnalyzer.Content (JStr "Ask more questions.").

Definition no_text (_ : MeetingAnalyzer.chat_request) : MeetingAnalyzer.completion :=
  MeetingAnalyzer.Content JNull.

Definition out_of_quota (_ : MeetingAnalyzer.chat_request)
  : MeetingAnalyzer.completion :=
  MeetingAnalyzer.Failed "insufficient_quota".

Definition plain_analyzer : MeetingAnalyzer.analyzer :=
  MeetingAnalyzer.mk_analyzer "" None.

Definition analysis_of_january (create : MeetingAnalyzer.chat_request
                                          -> MeetingAnalyzer.completion) : json :=
  match fst (MeetingAnalyzer.analyze_meetings str_scalar create plain_analyzer
               "2024-01-31" prepared_of_january None) with
  | Ok analysis_result => analysis_result
  | Raise _ => JNull
  end.

Lemma format_transcript_text_of_string_utterances_witness :
  Dynamic.format_transcript_text str_scalar
    (JArr [as_value alice_hello; as_value bob_hi])
  = Ok ("Alice: Hello" ++ newline ++ "Bob: Hi")%string.
Proof.
  exact (format_transcript_text_of_string_utterances str_scalar
           [alice_hello; bob_hi] (fun s => eq_refl)).
Defined.

Lemma prepare_adds_only_transcript_text_witness :
  List.length prepared_of_january = 2%nat
  /\ Forall2
       (fun meeting p =>
          (exists transcript text,
              get meeting "transcript" (JArr []) = Ok transcript
              /\ Dynamic.format_transcript_text str_scalar transcript = Ok text
              /\ getitem p "transcript_text" = Ok (JStr text))
          /\ forall k, String.eqb k "transcript_text" = false ->
                       getitem p k = getitem meeting k)
       meetings_of_january prepared_of_january.
Proof.
  split; [vm_compute; reflexivity|].
  apply (prepare_adds_only_transcript_text str_scalar).
  vm_compute. reflexivity.
Defined.

Lemma prepared_meetings_are_analyzed_witness :
  exists fields,
    fst (MeetingAnalyzer.analyze_meetings str_scalar out_of_quota plain_analyzer
           "2024-01-31" prepared_of_january None)
    = Ok (JObj fields)
    /\ dict_mem "summary" fields = true
    /\ dict_mem "feedback" fields = true
    /\ dict_find "date" fields = Some (JStr "2024-01-31")
    /\ List.length
         (snd (MeetingAnalyzer.analyze_meetings str_scalar out_of_quota
                 plain_analyzer "2024-01-31" prepared_of_january None))
       = 1%nat.
Proof.
  apply (prepared_meetings_are_analyzed str_scalar out_of_quota plain_analyzer
           "2024-01-31" meetings_of_january prepared_of_january None).
  vm_compute. reflexivity.
Defined.

Lemma report_of_an_analysis_witness :
  MeetingAnalyzer.format_report str_scalar (analysis_of_january coach)
  = Ok (report_of str_scalar (JStr "2024-01-31")
          (JStr "Analyzed 2 meetings from today") "Ask more questions.")
  /\ MeetingAnalyzer.format_report str_scalar (analysis_of_january out_of_quota)
     = Ok (report_of str_scalar (JStr "2024-01-31")
             (JStr "Failed to analyze 2 meetings")
             "Analysis failed: insufficient_quota")
  /\ MeetingAnalyzer.format_report str_scalar (analysis_of_january no_text)
     = Raise TypeError.
Proof.
  split; [|split].
  - exact (report_of_an_analysis str_scalar coach plain_analyzer "2024-01-31"
             prepared_of_january None (analysis_of_january coach) eq_refl).
  - exact (report_of_an_analysis str_scalar out_of_quota plain_analyzer "2024-01-31"
             prepared_of_january None (analysis_of_january out_of_quota) eq_refl).
  - exact (report_of_an_analysis str_scalar no_text plain_analyzer "2024-01-31"
             prepared_of_january None (analysis_of_january no_text) eq_refl).
Defined.
